(** * Parallel router: partition tree and net decomposition

    Shallow embedding of [vpr/src/route/partition_tree.cpp] (the spatial
    partition tree builder) and of the net-decomposing dispatcher of the
    parallel router ([is_worth_decomposing], [should_decompose_net],
    [clip_to_side], [make_decomposed_pair], [get_decomposition_isinks],
    [route_and_decompose], [try_parallel_route_net], [route_virtual_net],
    [decompose_route_partition_tree] and [reduce_partition_tree_helper]), with
    the bounding-box update that [try_parallel_route_tmpl] performs between
    two iterations.

    Conventions.
    - C++ [int] values are modelled as [Z]; signed overflow of [int]
      arithmetic is undefined behaviour and is not modelled (grid coordinates
      are far below the [int] range).  [size_t] values are [Z] reduced modulo
      [2^64]; the conversions between the two are written out ([to_size_t],
      [to_int], [wrap_int]).  An [int] incremented by a [size_t] is computed
      in [size_t] and converted back, so it wraps modulo [2^32].
    - [std::vector] is a [list]; indexing out of range, dividing by zero and
      dereferencing a null [unique_ptr] are undefined behaviour and are
      modelled by the outcome [Crash]; a failing [VTR_ASSERT] is [AssertFail].
    - Net and RR node identifiers are natural numbers. *)

From stdpp Require Import functions sorting prelude.

Local Open Scope Z_scope.

(** ** Shared data model *)

Definition NetId := nat.
Definition RRNodeId := nat.

(** [t_bb]: inclusive integer rectangle.  The aggregate initialiser in the
    source, [{0, width - 1, 0, height - 1}], fixes the field order. *)
Record t_bb := mk_bb { xmin : Z; xmax : Z; ymin : Z; ymax : Z }.

Inductive Axis := X | Y.
Inductive Side := LEFT | RIGHT.

Global Instance Axis_eq_dec : EqDecision Axis.
Proof. solve_decision. Defined.
Global Instance Side_eq_dec : EqDecision Side.
Proof. solve_decision. Defined.
Global Instance t_bb_eq_dec : EqDecision t_bb.
Proof. solve_decision. Defined.

(** A net restricted to a sub-region. *)
Record VirtualNet := mk_vnet { vnet_id : NetId; clipped_bb : t_bb }.

(** [PartitionTreeNode].  [left] and [right] are [unique_ptr]s, so they are
    options; [virtual_nets] is used by the dispatcher. *)
#[warnings="-register-all"]
Inductive PartitionTreeNode := mk_node {
  nets : list NetId;
  left : option PartitionTreeNode;
  right : option PartitionTreeNode;
  is_routable : bool;
  rerouted_nets : list NetId;
  virtual_nets : list VirtualNet;
  cutline_axis : Axis;
  cutline_pos : Z
}.

(** Outcome of a computation that can stop on an assertion or on undefined
    behaviour.  [OutOfFuel] only bounds the recursion of the model; the
    sufficiency lemmas show it is never returned with enough fuel. *)
Inductive Outcome (A : Type) :=
| Ok (a : A)
| AssertFail
| Crash
| OutOfFuel.
Arguments Ok {A} a.
Arguments AssertFail {A}.
Arguments Crash {A}.
Arguments OutOfFuel {A}.

Definition obind {A B} (m : Outcome A) (k : A -> Outcome B) : Outcome B :=
  match m with
  | Ok a => k a
  | AssertFail => AssertFail
  | Crash => Crash
  | OutOfFuel => OutOfFuel
  end.

Notation "'do' x <- m ; k" := (obind m (fun x => k))
  (at level 10, x name, m at level 100, k at level 200).

Definition INT_MAX : Z := 2 ^ 31 - 1.

(** Conversion of an integer value to a 32-bit [int]: two's complement
    wrap-around. *)
Definition wrap_int (z : Z) : Z := (z + 2 ^ 31) mod 2 ^ 32 - 2 ^ 31.

(** The subtree of a node, node first (the order of
    [reduce_partition_tree_helper]). *)
Fixpoint tree_nodes (t : PartitionTreeNode) : list PartitionTreeNode :=
  t :: match left t with Some l => tree_nodes l | None => [] end
    ++ match right t with Some r => tree_nodes r | None => [] end.

Definition tree_nets (t : PartitionTreeNode) : list NetId :=
  concat (map nets (tree_nodes t)).

Definition opt_tree_nets (t : option PartitionTreeNode) : list NetId :=
  match t with Some t => tree_nets t | None => [] end.

(** ** The partition tree builder *)

Module PartitionTree.

Section Builder.

(** [route_ctx.route_bb] and [netlist.net_sinks(net_id).size()]. *)
Variable route_bb : NetId -> t_bb.
Variable num_sinks : NetId -> nat.

(** [for (x = lo; x < hi; x++) arr[x] += v] on a [std::vector<int>] with [v]
    a [size_t]: the sum is formed in [size_t] and stored back as an [int].
    The bounds computed by the builder always lie within the vector. *)
Definition add_range (lo hi v : Z) (arr : list Z) : list Z :=
  imap (fun i a => if bool_decide (lo <= Z.of_nat i < hi) then wrap_int (a + v) else a) arr.

Record Totals := mk_totals {
  x_total_before : list Z; x_total_after : list Z;
  y_total_before : list Z; y_total_after : list Z
}.

(** Body of the loop over the nets that fills the four prefix-sum lookups. *)
Definition add_net (x1 y1 x2 y2 : Z) (t : Totals) (net_id : NetId) : Totals :=
  let bb := route_bb net_id in
  let fanouts := Z.of_nat (num_sinks net_id) in
  let W := x2 - x1 in
  let H := y2 - y1 in
  let x_start := Z.max x1 (xmin bb) - x1 in
  let x_end := Z.min (xmax bb + 1) x2 - x1 in
  let y_start := Z.max y1 (ymin bb) - y1 in
  let y_end := Z.min (ymax bb + 1) y2 - y1 in
  {| x_total_before := add_range x_start W fanouts (x_total_before t);
     x_total_after := add_range 0 x_end fanouts (x_total_after t);
     y_total_before := add_range y_start H fanouts (y_total_before t);
     y_total_after := add_range 0 y_end fanouts (y_total_after t) |}.

Definition build_totals (nets : list NetId) (x1 y1 x2 y2 : Z) : Totals :=
  let W := Z.to_nat (x2 - x1) in
  let H := Z.to_nat (y2 - y1) in
  foldl (add_net x1 y1 x2 y2)
        (mk_totals (replicate W 0) (replicate W 0) (replicate H 0) (replicate H 0))
        nets.

(** The running best cutline: [best_score], [best_pos], [best_axis]. *)
Record Best := mk_best { best_score : Z; best_pos : Z; best_axis : Axis }.

Definition init_best : Best := mk_best INT_MAX (-1) X.

(** [before == max_before || after == max_after]: cutting here would leave no
    nets on one side. *)
Definition rejected (before after : list Z) (n : Z) (x : Z) : bool :=
  let max_before := before !!! Z.to_nat (n - 1) in
  let max_after := after !!! 0%nat in
  bool_decide (before !!! Z.to_nat x = max_before)
  || bool_decide (after !!! Z.to_nat x = max_after).

Definition score (before after : list Z) (x : Z) : Z :=
  Z.abs (before !!! Z.to_nat x - after !!! Z.to_nat x).

(** One iteration of a scan loop. *)
Definition scan_step (axis : Axis) (base n : Z) (before after : list Z)
    (b : Best) (x : Z) : Best :=
  if rejected before after n x then b
  else if bool_decide (score before after x < best_score b)
       then mk_best (score before after x) (base + x) axis
       else b.

(** [for (x = 0; x < n; x++) ...] over one axis. *)
Definition scan_axis (axis : Axis) (base n : Z) (before after : list Z)
    (b : Best) : Best :=
  foldl (scan_step axis base n before after) b (seqZ 0 n).

Definition choose_cutline (nets : list NetId) (x1 y1 x2 y2 : Z) : Best :=
  let t := build_totals nets x1 y1 x2 y2 in
  let b := scan_axis X x1 (x2 - x1) (x_total_before t) (x_total_after t) init_best in
  scan_axis Y y1 (y2 - y1) (y_total_before t) (y_total_after t) b.

(** Where a net goes once a cutline is chosen. *)
Inductive Placement := GoLeft | GoRight | Stay | Unreachable.

Definition bb_min (axis : Axis) (bb : t_bb) : Z :=
  match axis with X => xmin bb | Y => ymin bb end.
Definition bb_max (axis : Axis) (bb : t_bb) : Z :=
  match axis with X => xmax bb | Y => ymax bb end.

(** The [if / else if / else if / else] chain of the two partition loops (the
    two copies differ only in the axis they read). *)
Definition place (axis : Axis) (pos : Z) (bb : t_bb) : Placement :=
  let lo := bb_min axis bb in
  let hi := bb_max axis bb in
  if bool_decide (lo < pos) && bool_decide (hi < pos) then GoLeft
  else if bool_decide (lo > pos) && bool_decide (hi > pos) then GoRight
  else if bool_decide (lo <= pos) && bool_decide (hi >= pos) then Stay
  else Unreachable.

Record Split := mk_split {
  left_nets : list NetId; right_nets : list NetId; my_nets : list NetId
}.

(** The partition loop: [push_back] in the order of [nets]; the [else] branch
    is [VTR_ASSERT(false)]. *)
Fixpoint split_nets (axis : Axis) (pos : Z) (nets : list NetId) : Outcome Split :=
  match nets with
  | [] => Ok (mk_split [] [] [])
  | net_id :: rest =>
      match place axis pos (route_bb net_id) with
      | Unreachable => AssertFail
      | p =>
          do s <- split_nets axis pos rest;
          Ok match p with
             | GoLeft => mk_split (net_id :: left_nets s) (right_nets s) (my_nets s)
             | GoRight => mk_split (left_nets s) (net_id :: right_nets s) (my_nets s)
             | _ => mk_split (left_nets s) (right_nets s) (net_id :: my_nets s)
             end
      end
  end.

(** A region [x1, y1, x2, y2] as passed to [build_helper]. *)
Definition Region : Type := Z * Z * Z * Z.

(** The arguments of the two recursive calls, as the source passes them. *)
Definition child_regions (axis : Axis) (x1 y1 x2 y2 best_pos : Z) : Region * Region :=
  match axis with
  | X => ((x1, y1, best_pos, y2), (best_pos, y2, x2, y2))
  | Y => ((x1, best_pos, x2, y2), (x1, y1, x2, best_pos))
  end.

Definition leaf (nets : list NetId) : PartitionTreeNode :=
  mk_node nets None None false [] [] X (-1).

Fixpoint build_helper (fuel : nat) (nets : list NetId) (x1 y1 x2 y2 : Z)
    : Outcome (option PartitionTreeNode) :=
  match fuel with
  | O => OutOfFuel
  | S fuel' =>
      if bool_decide (nets = []) then Ok None
      else if negb (bool_decide (x2 - x1 > 0) && bool_decide (y2 - y1 > 0))
      then AssertFail
      else
        let b := choose_cutline nets x1 y1 x2 y2 in
        if bool_decide (best_pos b = -1) then Ok (Some (leaf nets))
        else
          do s <- split_nets (best_axis b) (best_pos b) nets;
          let '((lx1, ly1, lx2, ly2), (rx1, ry1, rx2, ry2)) :=
            child_regions (best_axis b) x1 y1 x2 y2 (best_pos b) in
          do l <- build_helper fuel' (left_nets s) lx1 ly1 lx2 ly2;
          do r <- build_helper fuel' (right_nets s) rx1 ry1 rx2 ry2;
          Ok (Some (mk_node (my_nets s) l r false [] [] (best_axis b) (best_pos b)))
  end.

(** The constructor [PartitionTree(netlist)]: the whole device, all nets. *)
Definition build (all_nets : list NetId) (grid_width grid_height : Z)
    : Outcome (option PartitionTreeNode) :=
  build_helper (S (length all_nets)) all_nets 0 0 grid_width grid_height.

End Builder.

End PartitionTree.

(** ** Vocabulary for the properties of the builder *)

Module TreeVocabulary.

Section BuilderVocabulary.

Import PartitionTree.

Variable route_bb : NetId -> t_bb.
Variable num_sinks : NetId -> nat.

(** One lookup as filled by the loop over the nets: net [n] adds [v n] to the
    entries in [[lo n, hi n)]. *)
Definition accumulate (lo hi v : NetId -> Z) (arr : list Z) (net_ids : list NetId)
    : list Z :=
  foldl (fun arr n => add_range (lo n) (hi n) (v n) arr) arr net_ids.

(** Sum of the fanouts of the candidate nets. *)
Definition total_fanout (net_ids : list NetId) : Z :=
  foldr (fun n acc => Z.of_nat (num_sinks n) + acc) 0 net_ids.

Definition before_of (axis : Axis) (t : Totals) : list Z :=
  match axis with X => x_total_before t | Y => y_total_before t end.
Definition after_of (axis : Axis) (t : Totals) : list Z :=
  match axis with X => x_total_after t | Y => y_total_after t end.
Definition extent (axis : Axis) (x1 y1 x2 y2 : Z) : Z :=
  match axis with X => x2 - x1 | Y => y2 - y1 end.
Definition base_of (axis : Axis) (x1 y1 : Z) : Z :=
  match axis with X => x1 | Y => y1 end.

(** Position [i] (relative to the region) on [axis] is inside the region and
    is not rejected by the scan. *)
Definition survives (net_ids : list NetId) (x1 y1 x2 y2 : Z) (axis : Axis) (i : Z) : bool :=
  let t := build_totals route_bb num_sinks net_ids x1 y1 x2 y2 in
  bool_decide (0 <= i < extent axis x1 y1 x2 y2)
  && negb (rejected (before_of axis t) (after_of axis t) (extent axis x1 y1 x2 y2) i).

(** [|before - after|] at position [i] of [axis]. *)
Definition cut_score (net_ids : list NetId) (x1 y1 x2 y2 : Z) (axis : Axis) (i : Z) : Z :=
  let t := build_totals route_bb num_sinks net_ids x1 y1 x2 y2 in
  score (before_of axis t) (after_of axis t) i.

(** Scan order: the X axis before the Y axis, and lower positions first. *)
Definition scanned_before (a : Axis) (i : Z) (a' : Axis) (i' : Z) : Prop :=
  (a = X /\ a' = Y) \/ (a = a' /\ i < i').

(** What the partition loop guarantees at one node. *)
Definition node_placed (nd : PartitionTreeNode) : Prop :=
  cutline_pos nd <> -1 ->
  Forall (fun n => place (cutline_axis nd) (cutline_pos nd) (route_bb n) = Stay)
         (nets nd) /\
  Forall (fun n => place (cutline_axis nd) (cutline_pos nd) (route_bb n) = GoLeft)
         (opt_tree_nets (left nd)) /\
  Forall (fun n => place (cutline_axis nd) (cutline_pos nd) (route_bb n) = GoRight)
         (opt_tree_nets (right nd)).

Definition opt_tree_nodes (t : option PartitionTreeNode) : list PartitionTreeNode :=
  match t with Some t => tree_nodes t | None => [] end.

Definition bb_valid (bb : t_bb) : Prop :=
  xmin bb <= xmax bb /\ ymin bb <= ymax bb.

End BuilderVocabulary.

End TreeVocabulary.

(** ** The net-decomposing dispatcher *)

Module RouteParallel.

Definition MIN_DECOMP_BIN_WIDTH : Z := 5.
Definition MAX_DECOMP_REROUTE : Z := 5.

(** Conversion of an integer to [size_t] (wrap-around modulo [2^64]) and of a
    [size_t] to [int] (two's complement, 32 bits). *)
Definition to_size_t (z : Z) : Z := z mod 2 ^ 64.
Definition to_int (z : Z) : Z := (z + 2 ^ 31) mod 2 ^ 32 - 2 ^ 31.

(** [NetResultFlags]: the per-net result of a routing call. *)
Record NetResultFlags := mk_flags {
  success : bool;
  was_rerouted : bool;
  retry_with_full_bb : bool
}.

(** What the dispatcher reads from a [RouteTree]. *)
Record RouteTree := mk_route_tree {
  root_inode : RRNodeId;
  reached_isinks : list Z;
  remaining_isinks : list Z
}.

(** Read-only inputs of one routing iteration: netlist, RR graph, device grid
    and router options. *)
Record Env := mk_env {
  net_sinks_size : NetId -> nat;          (* net_list.net_sinks(net).size() *)
  net_is_ignored : NetId -> bool;
  net_is_global : NetId -> bool;
  net_rr_terminals : NetId -> list RRNodeId; (* index 0 is the source *)
  node_xlow : RRNodeId -> Z;
  node_ylow : RRNodeId -> Z;
  grid_width : Z;
  grid_height : Z;
  num_workers : Z;
  two_stage_clock_routing : bool;
  update_lower_bound_delays : bool;
  budgeting_if_set : bool;                 (* budgeting_inf.if_set() *)
  wns_nonzero : bool;                      (* worst_negative_slack != 0 *)
  log2_ceil : Z -> Z;                      (* vtr::log2_ceil *)
  flags_init : NetResultFlags              (* a default-constructed NetResultFlags *)
}.

(** The collaborators of the dispatcher, acting on the part [R] of the global
    routing state that only they interpret (route trees, occupancy, costs,
    connection bookkeeping, timing).  The dispatcher hands the bounding box
    to the connection router by value, so a collaborator reads bounding boxes
    and never writes them. *)
Record Collaborators (R : Type) := mk_collab {
  route_tree : R -> NetId -> option RouteTree;   (* route_ctx.route_trees[net] *)
  is_fixed : R -> NetId -> bool;                 (* net_status.is_fixed *)
  set_is_routed : R -> NetId -> R;               (* net_status.set_is_routed(net, true) *)
  get_should_reroute : R -> NetId -> bool;       (* budgeting_inf.get_should_reroute *)
  set_should_reroute_false : R -> NetId -> R;
  should_route_net : R -> NetId -> bool;
  setup_routing_resources : R -> NetId -> R;
  sort_by_criticality : R -> NetId -> list Z -> list Z;
  update_rr_base_costs : R -> Z -> R;
  timing_driven_route_net : R -> (NetId -> t_bb) -> NetId -> NetResultFlags * R;
  timing_driven_route_sink : R -> NetId -> Z -> t_bb -> Z -> NetResultFlags * R;
  update_net_delay_from_isink : R -> NetId -> Z -> R;
  update_lower_bound_connection_delay : R -> NetId -> Z -> R;
  empty_rcv_route_tree_set : R -> R
}.
Arguments route_tree {R}.
Arguments is_fixed {R}.
Arguments set_is_routed {R}.
Arguments get_should_reroute {R}.
Arguments set_should_reroute_false {R}.
Arguments should_route_net {R}.
Arguments setup_routing_resources {R}.
Arguments sort_by_criticality {R}.
Arguments update_rr_base_costs {R}.
Arguments timing_driven_route_net {R}.
Arguments timing_driven_route_sink {R}.
Arguments update_net_delay_from_isink {R}.
Arguments update_lower_bound_connection_delay {R}.
Arguments empty_rcv_route_tree_set {R}.

(** The mutable state the dispatcher itself touches: the collaborators' part,
    [route_ctx.route_bb], and the iteration context's [decomp_retries],
    [nets_to_retry] and the two statistics counters it increments. *)
Record State (R : Type) := mk_state {
  rs : R;
  route_bb : NetId -> t_bb;
  decomp_retries : NetId -> Z;
  nets_to_retry : list NetId;
  connections_routed : Z;
  nets_routed : Z
}.
Arguments mk_state {R}.
Arguments rs {R}.
Arguments route_bb {R}.
Arguments decomp_retries {R}.
Arguments nets_to_retry {R}.
Arguments connections_routed {R}.
Arguments nets_routed {R}.

Definition set_rs {R} (st : State R) (r : R) : State R :=
  mk_state r (route_bb st) (decomp_retries st) (nets_to_retry st)
           (connections_routed st) (nets_routed st).
Definition set_route_bb {R} (st : State R) (f : NetId -> t_bb) : State R :=
  mk_state (rs st) f (decomp_retries st) (nets_to_retry st)
           (connections_routed st) (nets_routed st).
Definition set_decomp_retries {R} (st : State R) (f : NetId -> Z) : State R :=
  mk_state (rs st) (route_bb st) f (nets_to_retry st)
           (connections_routed st) (nets_routed st).
Definition set_nets_to_retry {R} (st : State R) (l : list NetId) : State R :=
  mk_state (rs st) (route_bb st) (decomp_retries st) l
           (connections_routed st) (nets_routed st).
Definition incr_connections_routed {R} (st : State R) : State R :=
  mk_state (rs st) (route_bb st) (decomp_retries st) (nets_to_retry st)
           (connections_routed st + 1) (nets_routed st).
Definition incr_nets_routed {R} (st : State R) : State R :=
  mk_state (rs st) (route_bb st) (decomp_retries st) (nets_to_retry st)
           (connections_routed st) (nets_routed st + 1).

(** [RouteIterResults], without the heap statistics. *)
Record RouteIterResults := mk_results {
  res_is_routable : bool;
  res_rerouted_nets : list NetId
}.

Section Dispatcher.

Context {R : Type}.
Variable env : Env.
Variable co : Collaborators R.

(** *** Geometry *)

(** [Side(coordinate > cutline_pos)]: 1 is RIGHT. *)
Definition which_side (inode : RRNodeId) (cutline_pos : Z) (axis : Axis) : Side :=
  match axis with
  | X => if bool_decide (node_xlow env inode > cutline_pos) then RIGHT else LEFT
  | Y => if bool_decide (node_ylow env inode > cutline_pos) then RIGHT else LEFT
  end.

(** [operator!] on [Side]. *)
Definition flip_side (s : Side) : Side :=
  match s with LEFT => RIGHT | RIGHT => LEFT end.

(** A RR node is inside a bounding box if its corner [(xlow, ylow)] is. *)
Definition inside_bb (inode : RRNodeId) (bb : t_bb) : bool :=
  bool_decide (xmin bb <= node_xlow env inode <= xmax bb)
  && bool_decide (ymin bb <= node_ylow env inode <= ymax bb).

Definition clip_to_side (bb : t_bb) (axis : Axis) (cutline_pos : Z) (side : Side) : t_bb :=
  match axis, side with
  | X, LEFT => mk_bb (xmin bb) cutline_pos (ymin bb) (ymax bb)
  | X, RIGHT => mk_bb (cutline_pos + 1) (xmax bb) (ymin bb) (ymax bb)
  | Y, LEFT => mk_bb (xmin bb) (xmax bb) (ymin bb) cutline_pos
  | Y, RIGHT => mk_bb (xmin bb) (xmax bb) (cutline_pos + 1) (ymax bb)
  end.

(** *** Decomposition eligibility *)

Definition is_worth_decomposing (st : State R) (net_id : NetId) (cutline_pos : Z)
    (axis : Axis) : Outcome bool :=
  let bb := route_bb st net_id in
  let W := to_size_t (xmax bb - xmin bb + 1) in
  let H := to_size_t (ymax bb - ymin bb + 1) in
  let bins_x := to_int (W / MIN_DECOMP_BIN_WIDTH) in
  let bins_y := to_int (H / MIN_DECOMP_BIN_WIDTH) in
  if bool_decide (to_size_t bins_x = 0) then Crash       (* W / bins_x *)
  else if bool_decide (to_size_t bins_y = 0) then Crash  (* H / bins_y *)
  else
    let bin_width_x := to_size_t (W / to_size_t bins_x + 1) in
    let bin_width_y := to_size_t (H / to_size_t bins_y + 1) in
    (* Is this net itself a thin strip? *)
    if bool_decide (W < bin_width_x) || bool_decide (H < bin_width_y) then Ok false
    else if
      (* Does this cutline leave a thin strip on either side of it? *)
      match axis with
      | X => bool_decide (xmax bb - cutline_pos < to_int bin_width_x)
             || bool_decide (cutline_pos - xmin bb + 1 < to_int bin_width_y)
      | Y => bool_decide (ymax bb - cutline_pos < to_int bin_width_x)
             || bool_decide (cutline_pos - ymin bb + 1 < to_int bin_width_y)
      end
    then Ok false
    else
      let n_samples := to_size_t (Z.max (2 * (bins_x + bins_y) - 4) 4) in
      if bool_decide (Z.of_nat (length (net_rr_terminals env net_id))
                      <= to_size_t (n_samples + 2))
      then Ok false
      else Ok true.

Definition should_decompose_net (st : State R) (net_id : NetId) (level : Z)
    (cutline_pos : Z) (axis : Axis) : Outcome bool :=
  if bool_decide (to_size_t level > to_size_t (log2_ceil env (num_workers env) - 1))
  then Ok false
  else if net_is_global env net_id && two_stage_clock_routing env then Ok false
  else if bool_decide (decomp_retries st net_id >= MAX_DECOMP_REROUTE) then Ok false
  else
    do worth <- is_worth_decomposing st net_id cutline_pos axis;
    Ok worth.

(** Left and right halves of the net as virtual nets. *)
Definition make_decomposed_pair (st : State R) (net_id : NetId) (cutline_pos : Z)
    (cutline_axis : Axis) : Outcome (VirtualNet * VirtualNet) :=
  match route_tree co (rs st) net_id with
  | None => Crash        (* route_trees[net_id]->root() on an empty optional *)
  | Some tree =>
      let source_side := which_side (root_inode tree) cutline_pos cutline_axis in
      let bb := route_bb st net_id in
      let source_half :=
        mk_vnet net_id (clip_to_side bb cutline_axis cutline_pos source_side) in
      let sink_half :=
        mk_vnet net_id (clip_to_side bb cutline_axis cutline_pos (flip_side source_side)) in
      if bool_decide (source_side = RIGHT)
      then Ok (sink_half, source_half)
      else Ok (source_half, sink_half)
  end.

(** [net_rr_terminals[net_id][isink]]. *)
Definition terminal (net_id : NetId) (isink : Z) : Outcome RRNodeId :=
  if bool_decide (isink < 0) then Crash
  else match net_rr_terminals env net_id !! Z.to_nat isink with
       | Some rr => Ok rr
       | None => Crash
       end.

(** Does the current routing of the net cross the cutline?  (Defined in the
    source, called from nowhere.) *)
Definition is_routing_over_cutline (st : State R) (net_id : NetId) (cutline_pos : Z)
    (cutline_axis : Axis) : Outcome bool :=
  match route_tree co (rs st) net_id with
  | None => Crash
  | Some tree =>
      let source_side := which_side (root_inode tree) cutline_pos cutline_axis in
      (fix go (isinks : list Z) : Outcome bool :=
         match isinks with
         | [] => Ok false
         | isink :: rest =>
             do rr_sink <- terminal net_id isink;
             if bool_decide (source_side <> which_side rr_sink cutline_pos cutline_axis)
             then Ok true else go rest
         end) (reached_isinks tree)
  end.

(** *** Skeleton sink selection *)

Definition REACHED : Z := -1.
Definition NONE : Z := 0.

(** [samples[x][y]] and [samples[x][y] = v] on a vector of vectors. *)
Definition sample_get (samples : list (list Z)) (x y : Z) : Outcome Z :=
  match samples !! Z.to_nat x with
  | Some row => match row !! Z.to_nat y with Some v => Ok v | None => Crash end
  | None => Crash
  end.
Definition sample_set (samples : list (list Z)) (x y v : Z) : list (list Z) :=
  alter (fun row => <[Z.to_nat y := v]> row) (Z.to_nat x) samples.

(** The sampling grid of a net: [bins_x], [bins_y], [bin_width_x],
    [bin_width_y]; [None] when a bin count is zero and the source divides by
    it. *)
Record Bins := mk_bins { bins_x : Z; bins_y : Z; bin_width_x : Z; bin_width_y : Z }.

Definition sampling_bins (net_bb : t_bb) : option Bins :=
  let width := to_size_t (xmax net_bb - xmin net_bb + 1) in
  let height := to_size_t (ymax net_bb - ymin net_bb + 1) in
  let bins_x := width / MIN_DECOMP_BIN_WIDTH in
  let bins_y := height / MIN_DECOMP_BIN_WIDTH in
  if bool_decide (bins_x = 0) || bool_decide (bins_y = 0) then None
  else Some (mk_bins bins_x bins_y
                     (to_size_t (width / bins_x + 1)) (to_size_t (height / bins_y + 1))).

(** The bin [(x, y)] of a RR node. *)
Definition bin_of (net_bb : t_bb) (b : Bins) (rr : RRNodeId) : Z * Z :=
  (to_size_t (node_xlow env rr - xmin net_bb) / bin_width_x b,
   to_size_t (node_ylow env rr - ymin net_bb) / bin_width_y b).

(** First loop: mark the bins with already reached sinks.  [None] is the
    early [return out] with [out] still empty. *)
Fixpoint mark_reached (net_id : NetId) (net_bb : t_bb) (b : Bins)
    (reached : list Z) (samples : list (list Z)) (samples_to_find : Z)
    : Outcome (option (list (list Z) * Z)) :=
  match reached with
  | [] => Ok (Some (samples, samples_to_find))
  | isink :: rest =>
      if bool_decide (samples_to_find = 0) then Ok None
      else
        do rr_sink <- terminal net_id isink;
        let '(x, y) := bin_of net_bb b rr_sink in
        do v <- sample_get samples x y;
        if bool_decide (v <> REACHED)
        then mark_reached net_id net_bb b rest (sample_set samples x y REACHED)
                          (to_size_t (samples_to_find - 1))
        else mark_reached net_id net_bb b rest samples samples_to_find
  end.

(** Second loop: sample the remaining targets. *)
Fixpoint sample_targets (net_id : NetId) (net_bb : t_bb) (b : Bins)
    (targets : list Z) (samples : list (list Z)) (samples_to_find : Z)
    (out : list Z) : Outcome (list Z) :=
  match targets with
  | [] => Ok out
  | isink :: rest =>
      if bool_decide (samples_to_find = 0) then Ok out
      else
        do rr_sink <- terminal net_id isink;
        let '(x, y) := bin_of net_bb b rr_sink in
        do v <- sample_get samples x y;
        if bool_decide (v = NONE)
        then sample_targets net_id net_bb b rest (sample_set samples x y isink)
                            (to_size_t (samples_to_find - 1)) (out ++ [isink])
        else sample_targets net_id net_bb b rest samples samples_to_find out
  end.

Definition get_decomposition_isinks (st : State R) (net_id : NetId)
    (remaining_targets : list Z) : Outcome (list Z) :=
  match route_tree co (rs st) net_id with
  | None => Crash        (* route_trees[net_id].value() *)
  | Some tree =>
      let net_bb := route_bb st net_id in
      match sampling_bins net_bb with
      | None => Crash
      | Some b =>
          let samples_to_find := to_size_t (bins_x b * bins_y b) in
          let samples :=
            replicate (Z.to_nat (bins_x b)) (replicate (Z.to_nat (bins_y b)) NONE) in
          do marked <- mark_reached net_id net_bb b (reached_isinks tree)
                                    samples samples_to_find;
          match marked with
          | None => Ok []
          | Some (samples', to_find') =>
              sample_targets net_id net_bb b remaining_targets samples' to_find' []
          end
      end
  end.

(** *** Routing one net *)

Definition should_really_route_net (st : State R) (net_id : NetId) : bool :=
  let reroute_for_hold :=
    if budgeting_if_set env
    then get_should_reroute co (rs st) net_id && wns_nonzero env
    else false in
  if is_fixed co (rs st) net_id then false          (* Skip pre-routed nets. *)
  else if net_is_ignored env net_id then false      (* Skip ignored nets. *)
  else if negb reroute_for_hold && negb (should_route_net co (rs st) net_id) then false
  else true.

Definition try_parallel_route_net (st : State R) (net_id : NetId)
    : NetResultFlags * State R :=
  if negb (should_really_route_net st net_id)
  then (mk_flags true (was_rerouted (flags_init env))
                 (retry_with_full_bb (flags_init env)), st)
  else
    let '(flags, r) := timing_driven_route_net co (rs st) (route_bb st) net_id in
    let r := if success flags then set_is_routed co r net_id else r in
    (mk_flags (success flags) true (retry_with_full_bb flags), set_rs st r).

(** The loop of [route_and_decompose] over the skeleton sinks.  [None] is the
    early [return vtr::nullopt] after a failed connection. *)
Fixpoint route_skeleton (net_id : NetId) (isinks : list Z) (st : State R)
    : option unit * State R :=
  match isinks with
  | [] => (Some (), st)
  | isink :: rest =>
      let '(sink_flags, r) :=
        timing_driven_route_sink co (rs st) net_id isink (route_bb st net_id)
                                 (Z.of_nat (net_sinks_size env net_id)) in
      let st := set_rs st r in
      if negb (success sink_flags) then (None, st)
      else
        let st := incr_connections_routed st in
        let st := set_rs st (update_net_delay_from_isink co (rs st) net_id isink) in
        route_skeleton net_id rest st
  end.

Definition update_lower_bounds (net_id : NetId) (isinks : list Z) (st : State R)
    : State R :=
  if update_lower_bound_delays env
  then set_rs st (foldl (fun r ipin => update_lower_bound_connection_delay co r net_id ipin)
                        (rs st) isinks)
  else st.

Definition route_and_decompose (st : State R) (net_id : NetId)
    (node : PartitionTreeNode) : Outcome (option (VirtualNet * VirtualNet) * State R) :=
  let num_sinks := Z.of_nat (net_sinks_size env net_id) in
  (* We don't have to route this net, so why bother decomposing it? *)
  if negb (should_really_route_net st net_id) then Ok (None, st)
  else
    let st := set_rs st (setup_routing_resources co (rs st) net_id) in
    match route_tree co (rs st) net_id with
    | None => AssertFail
    | Some tree =>
        let remaining_targets :=
          sort_by_criticality co (rs st) net_id (remaining_isinks tree) in
        let st := set_rs st (update_rr_base_costs co (rs st) num_sinks) in
        do isinks_to_route <- get_decomposition_isinks st net_id remaining_targets;
        match route_skeleton net_id isinks_to_route st with
        | (None, st) => Ok (None, st)
        | (Some _, st) =>
            let st := update_lower_bounds net_id isinks_to_route st in
            let st := set_rs st (empty_rcv_route_tree_set co (rs st)) in
            (* Count reroutes with decomposition *)
            let st := set_decomp_retries st
                        (<[net_id := to_size_t (decomp_retries st net_id + 1)]>
                           (decomp_retries st)) in
            do halves <- make_decomposed_pair st net_id (cutline_pos node) (cutline_axis node);
            Ok (Some halves, st)
        end
    end.

(** *** Routing a virtual net *)

(** Sink indices [1 .. num_sinks] whose terminal lies inside [bb]. *)
Fixpoint filter_inside (net_id : NetId) (bb : t_bb) (isinks : list Z)
    : Outcome (list Z) :=
  match isinks with
  | [] => Ok []
  | isink :: rest =>
      do sink_rr <- terminal net_id isink;
      do out <- filter_inside net_id bb rest;
      Ok (if inside_bb sink_rr bb then isink :: out else out)
  end.

Definition get_vnet_isinks (vnet : VirtualNet) : Outcome (list Z) :=
  filter_inside (vnet_id vnet) (clipped_bb vnet)
                (seqZ 1 (Z.of_nat (net_sinks_size env (vnet_id vnet)))).

Definition get_vnet_remaining_isinks (st : State R) (vnet : VirtualNet)
    : Outcome (list Z) :=
  match route_tree co (rs st) (vnet_id vnet) with
  | None => Crash
  | Some tree => filter_inside (vnet_id vnet) (clipped_bb vnet) (remaining_isinks tree)
  end.

(** The loop of [route_virtual_net] over the remaining sinks: the accumulated
    [retry_with_full_bb] and whether every connection succeeded. *)
Fixpoint route_vnet_sinks (vnet : VirtualNet) (n_sinks : Z) (isinks : list Z)
    (retry : bool) (st : State R) : bool * bool * State R :=
  match isinks with
  | [] => (true, retry, st)
  | isink :: rest =>
      let '(sink_flags, r) :=
        timing_driven_route_sink co (rs st) (vnet_id vnet) isink (clipped_bb vnet)
                                 n_sinks in
      let st := set_rs st r in
      let retry := retry || retry_with_full_bb sink_flags in
      if negb (success sink_flags) then (false, retry, st)
      else route_vnet_sinks vnet n_sinks rest retry (incr_connections_routed st)
  end.

Definition route_virtual_net (st : State R) (vnet : VirtualNet)
    : Outcome (NetResultFlags * State R) :=
  let net_id := vnet_id vnet in
  do sinks <- get_vnet_isinks vnet;
  match route_tree co (rs st) net_id with
  | None => AssertFail
  | Some tree =>
      do remaining <- get_vnet_remaining_isinks st vnet;
      let remaining_isinks := sort_by_criticality co (rs st) net_id remaining in
      let n_sinks := Z.of_nat (length sinks) in
      let st := set_rs st (update_rr_base_costs co (rs st) n_sinks) in
      let st := if budgeting_if_set env
                then set_rs st (set_should_reroute_false co (rs st) net_id)
                else st in
      match route_vnet_sinks vnet n_sinks remaining_isinks
                             (retry_with_full_bb (flags_init env)) st with
      | (false, retry, st) =>
          Ok (mk_flags false (was_rerouted (flags_init env)) retry, st)
      | (true, retry, st) =>
          let st := incr_nets_routed st in
          (* update_net_delays_from_vnet *)
          do sinks' <- get_vnet_isinks vnet;
          let st := set_rs st (foldl (fun r isink =>
                                        update_net_delay_from_isink co r net_id isink)
                                     (rs st) sinks') in
          let st := update_lower_bounds net_id remaining_isinks st in
          let st := set_rs st (empty_rcv_route_tree_set co (rs st)) in
          Ok (mk_flags true (was_rerouted (flags_init env)) retry, st)
      end
  end.

(** *** Processing a partition tree node *)

(** [std::sort] of [node.nets] by decreasing sink count (one of the orders
    [std::sort] may produce: ties keep their order). *)
Fixpoint insert_by_fanout (n : NetId) (l : list NetId) : list NetId :=
  match l with
  | [] => [n]
  | m :: rest =>
      if bool_decide (net_sinks_size env m <= net_sinks_size env n)%nat
      then n :: m :: rest
      else m :: insert_by_fanout n rest
  end.
Definition sort_by_fanout (l : list NetId) : list NetId :=
  foldr insert_by_fanout [] l.

(** What the loop over [node.nets] writes on the node and on its children. *)
Record NodeAcc := mk_acc {
  acc_is_routable : bool;          (* node.is_routable *)
  acc_rerouted : list NetId;       (* node.rerouted_nets *)
  acc_left : list VirtualNet;      (* pushed to node.left->virtual_nets *)
  acc_right : list VirtualNet      (* pushed to node.right->virtual_nets *)
}.

(** Body of the loop over [node.nets]. *)
Definition route_net_at_node (node : PartitionTreeNode) (level : Z)
    (acc : NodeAcc) (st : State R) (net_id : NetId) : Outcome (NodeAcc * State R) :=
  (* Should I decompose this net? *)
  do dec <- should_decompose_net st net_id level (cutline_pos node) (cutline_axis node);
  do dn <- (if dec : bool then route_and_decompose st net_id node else Ok (None, st));
  match dn with
  | (Some (l, r), st) =>
      match left node, right node with
      | Some _, Some _ =>
          Ok (mk_acc (acc_is_routable acc) (acc_rerouted acc ++ [net_id])
                     (acc_left acc ++ [l]) (acc_right acc ++ [r]), st)
      | _, _ => Crash      (* node.left->virtual_nets on a null child *)
      end
  | (None, st) =>
      (* If not, route it here *)
      let '(flags, st) := try_parallel_route_net st net_id in
      let routable :=
        if negb (success flags) && negb (retry_with_full_bb flags)
        then false else acc_is_routable acc in
      let rerouted :=
        if was_rerouted flags then acc_rerouted acc ++ [net_id] else acc_rerouted acc in
      let st :=
        if retry_with_full_bb flags
        then set_nets_to_retry st (nets_to_retry st ++ [net_id]) else st in
      Ok (mk_acc routable rerouted (acc_left acc) (acc_right acc), st)
  end.

Fixpoint route_nets_at_node (node : PartitionTreeNode) (level : Z)
    (net_ids : list NetId) (acc : NodeAcc) (st : State R)
    : Outcome (NodeAcc * State R) :=
  match net_ids with
  | [] => Ok (acc, st)
  | net_id :: rest =>
      do p <- route_net_at_node node level acc st net_id;
      route_nets_at_node node level rest (fst p) (snd p)
  end.

(** Body of the loop over [node.virtual_nets]. *)
Definition route_vnet_at_node (st : State R) (vnet : VirtualNet) : Outcome (State R) :=
  do p <- route_virtual_net st vnet;
  let '(flags, st) := p in
  if negb (success flags) && negb (retry_with_full_bb flags)
  then Ok (set_decomp_retries st
             (<[vnet_id vnet := MAX_DECOMP_REROUTE]> (decomp_retries st)))
  else if retry_with_full_bb flags
  then Ok (set_nets_to_retry st (nets_to_retry st ++ [vnet_id vnet]))
  else Ok st.

Fixpoint route_vnets_at_node (vnets : list VirtualNet) (st : State R)
    : Outcome (State R) :=
  match vnets with
  | [] => Ok st
  | vnet :: rest =>
      do st <- route_vnet_at_node st vnet;
      route_vnets_at_node rest st
  end.

(** [decompose_route_partition_tree_helper].  [inherited] are the virtual
    nets the parent pushed to this node.  The two child tasks handed to the
    task group run here one after the other, left first. *)
Fixpoint decompose_route_partition_tree_helper (node : PartitionTreeNode)
    (inherited : list VirtualNet) (level : Z) (st : State R)
    : Outcome (PartitionTreeNode * State R) :=
  let sorted := sort_by_fanout (nets node) in
  let vnets := virtual_nets node ++ inherited in
  do p <- route_nets_at_node node level sorted (mk_acc true [] [] []) st;
  let '(acc, st) := p in
  do st <- route_vnets_at_node vnets st;
  match left node, right node with
  | Some l, Some r =>
      do pl <- decompose_route_partition_tree_helper l (acc_left acc) (level + 1) st;
      do pr <- decompose_route_partition_tree_helper r (acc_right acc) (level + 1) (snd pl);
      Ok (mk_node sorted (Some (fst pl)) (Some (fst pr)) (acc_is_routable acc)
                  (acc_rerouted acc) vnets (cutline_axis node) (cutline_pos node),
          snd pr)
  | None, None =>
      Ok (mk_node sorted None None (acc_is_routable acc) (acc_rerouted acc) vnets
                  (cutline_axis node) (cutline_pos node), st)
  | _, _ => AssertFail   (* there shouldn't be a node with a single branch *)
  end.

(** *** The iteration *)

Fixpoint reduce_partition_tree_helper (node : PartitionTreeNode)
    (results : RouteIterResults) : RouteIterResults :=
  let results :=
    mk_results (res_is_routable results && is_routable node)
               (res_rerouted_nets results ++ rerouted_nets node) in
  let results :=
    match left node with
    | Some l => reduce_partition_tree_helper l results
    | None => results
    end in
  match right node with
  | Some r => reduce_partition_tree_helper r results
  | None => results
  end.

(** [{0, (int)(grid.width() - 1), 0, (int)(grid.height() - 1)}]. *)
Definition full_device_bb : t_bb :=
  mk_bb 0 (to_int (to_size_t (grid_width env - 1)))
        0 (to_int (to_size_t (grid_height env - 1))).

(** Grow the bounding box and set to not decompose if a net is set to retry. *)
Definition grow_retry_net (st : State R) (net_id : NetId) : State R :=
  let st := set_route_bb st (<[net_id := full_device_bb]> (route_bb st)) in
  set_decomp_retries st (<[net_id := MAX_DECOMP_REROUTE]> (decomp_retries st)).

Definition decompose_route_partition_tree (root : PartitionTreeNode) (st : State R)
    : Outcome (RouteIterResults * PartitionTreeNode * State R) :=
  let st := set_nets_to_retry st [] in
  do p <- decompose_route_partition_tree_helper root [] 0 st;
  let '(root, st) := p in
  let st := foldl grow_retry_net st (nets_to_retry st) in
  Ok (reduce_partition_tree_helper root (mk_results true []), root, st).

(** Build a partition tree and do a net-decomposing route with it. *)
Definition decompose_route_with_partition_tree (all_nets : list NetId) (st : State R)
    : Outcome (RouteIterResults * PartitionTreeNode * State R) :=
  do root <- PartitionTree.build (route_bb st) (net_sinks_size env) all_nets
                                 (grid_width env) (grid_height env);
  match root with
  | None => Crash      (* tree.root() dereferences a null root *)
  | Some root => decompose_route_partition_tree root st
  end.

End Dispatcher.

End RouteParallel.

(** ** Vocabulary for the properties of the dispatcher *)

Section DispatcherVocabulary.

Import RouteParallel.

Context {R : Type}.
Variable env : Env.
Variable co : Collaborators R.



(** The bounding boxes, the retry counters and the retry collection are the
    same in both states. *)
Definition same_frame (st st' : State R) : Prop :=
  route_bb st' = route_bb st /\
  decomp_retries st' = decomp_retries st /\
  nets_to_retry st' = nets_to_retry st.

(** The loop over [node.nets] reaches net [n] with the accumulated writes
    [acc] and the state [st1]. *)
Definition reaches_net (node : PartitionTreeNode) (level : Z) (st : State R)
    (n : NetId) (acc : NodeAcc) (st1 : State R) : Prop :=
  exists l1 l2,
    sort_by_fanout env (nets node) = l1 ++ n :: l2 /\
    route_nets_at_node env co node level l1 (mk_acc true [] [] []) st = Ok (acc, st1).

(** Net [n] is not decomposed at the node: either it is not eligible, or
    [route_and_decompose] returned no decomposition and left the state
    [st1]. *)
Definition routed_directly (node : PartitionTreeNode) (level : Z) (st : State R)
    (n : NetId) (st1 : State R) : Prop :=
  (should_decompose_net env st n level (cutline_pos node) (cutline_axis node) = Ok false
   /\ st1 = st)
  \/
  (should_decompose_net env st n level (cutline_pos node) (cutline_axis node) = Ok true
   /\ route_and_decompose env co st n node = Ok (None, st1)).

(** The run of the skeleton loop stops at sink [isink]: the sinks before it
    were routed, leaving the state [st1], and the connection to [isink] then
    reports [success = false]. *)
Definition skeleton_fails_at (net_id : NetId) (isinks : list Z) (st : State R)
    (isink : Z) (st1 : State R) : Prop :=
  exists l1 l2,
    isinks = l1 ++ isink :: l2 /\
    route_skeleton env co net_id l1 st = (Some (), st1) /\
    success (fst (timing_driven_route_sink co (rs st1) net_id isink
                    (route_bb st1 net_id) (Z.of_nat (net_sinks_size env net_id))))
    = false.

(** The state in which [route_and_decompose] starts its skeleton loop, and the
    sinks it has selected. *)
Definition skeleton_start (st : State R) (net_id : NetId) (isinks : list Z)
    (st1 : State R) : Prop :=
  exists tree,
    let st0 := set_rs st (setup_routing_resources co (rs st) net_id) in
    route_tree co (rs st0) net_id = Some tree /\
    st1 = set_rs st0 (update_rr_base_costs co (rs st0)
                        (Z.of_nat (net_sinks_size env net_id))) /\
    get_decomposition_isinks env co st1 net_id
      (sort_by_criticality co (rs st0) net_id (remaining_isinks tree)) = Ok isinks.

(** Sink [isink] of the net lies on [side] of the cutline. *)
Definition sink_on_side (net_id : NetId) (cutline_pos : Z) (axis : Axis) (side : Side)
    (isink : Z) : bool :=
  match terminal env net_id isink with
  | Ok rr => bool_decide (which_side env rr cutline_pos axis = side)
  | _ => false
  end.

(** The sinks reached by the route tree of the net that lie on [side]. *)
Definition reached_on_side (r : R) (net_id : NetId) (cutline_pos : Z) (axis : Axis)
    (side : Side) : list Z :=
  match route_tree co r net_id with
  | None => []
  | Some tree =>
      List.filter (sink_on_side net_id cutline_pos axis side) (reached_isinks tree)
  end.

(** *** Skeleton sink selection *)

(** The bin of sink [isink] of the net. *)
Definition sink_bin (net_id : NetId) (net_bb : t_bb) (b : Bins) (isink : Z) : Z * Z :=
  match terminal env net_id isink with
  | Ok rr => bin_of env net_bb b rr
  | _ => (0, 0)
  end.

(** [isink] is a sink index ([>= 1]) of the net whose terminal lies inside
    [net_bb]. *)
Definition valid_sink (net_id : NetId) (net_bb : t_bb) (isink : Z) : bool :=
  bool_decide (1 <= isink)
  && match net_rr_terminals env net_id !! Z.to_nat isink with
     | Some rr => inside_bb env rr net_bb
     | None => false
     end.

(** Skeleton sink selection in the words of the specification: walk the
    unrouted sinks in order and take a sink when its bin holds neither a
    reached sink nor a sink taken before.  [taken] lists the bins that are
    already satisfied. *)
Fixpoint take_first_per_bin (net_id : NetId) (net_bb : t_bb) (b : Bins)
    (taken : list (Z * Z)) (targets : list Z) : list Z :=
  match targets with
  | [] => []
  | t :: rest =>
      if decide (sink_bin net_id net_bb b t ∈ taken)
      then take_first_per_bin net_id net_bb b taken rest
      else t :: take_first_per_bin net_id net_bb b
                  (sink_bin net_id net_bb b t :: taken) rest
  end.

Definition skeleton_sinks_spec (net_id : NetId) (net_bb : t_bb) (b : Bins)
    (reached targets : list Z) : list Z :=
  take_first_per_bin net_id net_bb b (sink_bin net_id net_bb b <$> reached) targets.

(** Bins still marked [NONE] in the sample grid. *)
Definition row_none (row : list Z) : nat := length (filter (fun v => v = NONE) row).
Definition count_none (samples : list (list Z)) : nat := sum_list_with row_none samples.

(** The sample grid has [bins_x] rows of [bins_y] entries. *)
Definition grid_wf (b : Bins) (samples : list (list Z)) : Prop :=
  length samples = Z.to_nat (bins_x b) /\
  Forall (fun row => length row = Z.to_nat (bins_y b)) samples.

Definition in_grid (b : Bins) (p : Z * Z) : Prop :=
  0 <= p.1 < bins_x b /\ 0 <= p.2 < bins_y b.

(** The terminal of the sink exists and falls into a bin of the grid. *)
Definition sink_ok (net_id : NetId) (net_bb : t_bb) (b : Bins) (isink : Z) : Prop :=
  exists rr, terminal env net_id isink = Ok rr /\ in_grid b (bin_of env net_bb b rr).

(** The grid agrees with the list [taken] of satisfied bins, and
    [samples_to_find] counts the bins still marked [NONE]. *)
Definition grid_tracks (b : Bins) (samples : list (list Z)) (to_find : Z)
    (taken : list (Z * Z)) : Prop :=
  grid_wf b samples /\
  Z.of_nat (count_none samples) = to_find /\
  to_find <= bins_x b * bins_y b /\
  forall p v, in_grid b p -> sample_get samples p.1 p.2 = Ok v ->
              (v <> NONE <-> p ∈ taken).

End DispatcherVocabulary.

(** ** Concrete inputs *)

Module Examples.

(** Every net has one sink. *)
Definition one_sink (n : NetId) : nat := 1%nat.

(** Two nets on a 3 x 1 grid: net 0 at [x = 0], net 1 at [x = 2]. *)
Definition row_bb (n : NetId) : t_bb :=
  match n with O => mk_bb 0 0 0 0 | _ => mk_bb 2 2 0 0 end.

(** Two nets on a 1 x 3 grid: net 0 at [y = 0], net 1 at [y = 2]. *)
Definition column_bb (n : NetId) : t_bb :=
  match n with O => mk_bb 0 0 0 0 | _ => mk_bb 0 0 2 2 end.

(** The tree built for [column_bb]: a Y cut at 1 with two leaves. *)
Definition column_tree : PartitionTreeNode :=
  mk_node [] (Some (PartitionTree.leaf [0%nat])) (Some (PartitionTree.leaf [1%nat]))
          false [] [] Y 1.

(** *** A stub connection router

    The collaborators' state is the route tree of every net.  Routing a sink
    succeeds unless the sink is listed in [failing]; a success moves the sink
    from the remaining to the reached sinks.  Routing a whole net routes its
    remaining sinks in order. *)

Import RouteParallel.

Definition StubState : Type := NetId -> RouteTree.

Definition stub_reach (r : StubState) (net_id : NetId) (isink : Z) : StubState :=
  <[net_id := mk_route_tree (root_inode (r net_id))
                (reached_isinks (r net_id) ++ [isink])
                (filter (fun i => i <> isink) (remaining_isinks (r net_id)))]> r.

Definition stub_route_sink (failing : list Z) (retry : bool) (r : StubState)
    (net_id : NetId) (isink : Z) (bb : t_bb) (n_sinks : Z) : NetResultFlags * StubState :=
  if bool_decide (isink ∈ failing) then (mk_flags false false retry, r)
  else (mk_flags true false false, stub_reach r net_id isink).

Fixpoint stub_route_sinks (failing : list Z) (retry : bool) (r : StubState)
    (net_id : NetId) (isinks : list Z) : NetResultFlags * StubState :=
  match isinks with
  | [] => (mk_flags true false false, r)
  | isink :: rest =>
      if bool_decide (isink ∈ failing) then (mk_flags false false retry, r)
      else stub_route_sinks failing retry (stub_reach r net_id isink) net_id rest
  end.

Definition stub (failing : list Z) (retry : bool) : Collaborators StubState :=
  {| route_tree := fun r n => Some (r n);
     is_fixed := fun _ _ => false;
     set_is_routed := fun r _ => r;
     get_should_reroute := fun _ _ => false;
     set_should_reroute_false := fun r _ => r;
     should_route_net := fun r n => bool_decide (remaining_isinks (r n) <> []);
     setup_routing_resources := fun r _ => r;
     sort_by_criticality := fun _ _ l => l;
     update_rr_base_costs := fun r _ => r;
     timing_driven_route_net := fun r _ n =>
       stub_route_sinks failing retry r n (remaining_isinks (r n));
     timing_driven_route_sink := stub_route_sink failing retry;
     update_net_delay_from_isink := fun r _ _ => r;
     update_lower_bound_connection_delay := fun r _ _ => r;
     empty_rcv_route_tree_set := fun r => r |}.

(** One net (net 0) on a 20 x 20 grid, with bbox [(0, 0) - (14, 14)].  RR node
    [k] is terminal [k] of the net: the source at [(0, 0)], and ten sinks, all
    right of [x = 7]. *)
Definition wide_xlow (rr : RRNodeId) : Z :=
  default 13 ([0; 8; 9; 13; 14; 8; 12; 10; 14; 11; 13] !! rr).
Definition wide_ylow (rr : RRNodeId) : Z :=
  default 12 ([0; 1; 7; 2; 8; 13; 14; 3; 0; 9; 12] !! rr).

Definition wide_env : Env :=
  {| net_sinks_size := fun _ => 10%nat;
     net_is_ignored := fun _ => false;
     net_is_global := fun _ => false;
     net_rr_terminals := fun _ => seq 0 11;
     node_xlow := wide_xlow;
     node_ylow := wide_ylow;
     grid_width := 20;
     grid_height := 20;
     num_workers := 4;
     two_stage_clock_routing := false;
     update_lower_bound_delays := false;
     budgeting_if_set := false;
     wns_nonzero := false;
     log2_ceil := fun _ => 2;
     flags_init := mk_flags false false false |}.

(** Nothing routed yet. *)
Definition wide_unrouted : StubState :=
  fun _ => mk_route_tree 0%nat [] (seqZ 1 10).

Definition wide_state : State StubState :=
  mk_state wide_unrouted (fun _ => mk_bb 0 14 0 14) (fun _ => 0) [] 0 0.

(** The root of a partition tree holding net 0 on the X cutline at 7, with
    two empty leaves. *)
Definition wide_root : PartitionTreeNode :=
  mk_node [0%nat] (Some (PartitionTree.leaf [])) (Some (PartitionTree.leaf []))
          false [] [] X 7.

(** Sink 1 routed, the others not. *)
Definition wide_partly : StubState :=
  fun _ => mk_route_tree 0%nat [1] (seqZ 2 9).

Definition wide_partly_state : State StubState :=
  mk_state wide_partly (fun _ => mk_bb 0 14 0 14) (fun _ => 0) [] 0 0.

(** The result of a computation that is known to succeed. *)
Definition unwrap {A} (d : A) (o : Outcome A) : A :=
  match o with Ok a => a | _ => d end.

End Examples.

(** ** Vocabulary for the lookups and the shape of the tree *)

Module TreeShapes.

Section Shapes.

Import PartitionTree TreeVocabulary.

Variable route_bb : NetId -> t_bb.
Variable num_sinks : NetId -> nat.

(** Total fanout of the nets that satisfy [P]. *)
Definition fanout_where (P : NetId -> bool) (net_ids : list NetId) : Z :=
  total_fanout num_sinks (List.filter P net_ids).

(** The bounding box of the net starts at or before coordinate [c] of
    [axis]; it ends at or after [c]. *)
Definition starts_by (axis : Axis) (c : Z) (n : NetId) : bool :=
  bool_decide (bb_min axis (route_bb n) <= c).
Definition ends_from (axis : Axis) (c : Z) (n : NetId) : bool :=
  bool_decide (c <= bb_max axis (route_bb n)).

(** A net with at least one sink whose bounding box starts strictly after
    [c] and before [hi]; one whose bounding box ends strictly before [c] and
    not before [lo]. *)
Definition starts_after (axis : Axis) (c hi : Z) (n : NetId) : bool :=
  bool_decide (0 < num_sinks n)%nat
  && bool_decide (c < bb_min axis (route_bb n) < hi).
Definition ends_before (axis : Axis) (lo c : Z) (n : NetId) : bool :=
  bool_decide (0 < num_sinks n)%nat
  && bool_decide (lo <= bb_max axis (route_bb n) < c).

(** No net of the list lies strictly before another one on [axis]. *)
Definition inseparable (axis : Axis) (net_ids : list NetId) : bool :=
  forallb (fun n =>
             forallb (fun m => bool_decide (bb_min axis (route_bb n)
                                            <= bb_max axis (route_bb m)))
                     net_ids)
          net_ids.

(** A node as the builder leaves it: the routing results still at their
    defaults, and either no child, no cutline and some nets, or two children
    that both hold nets and a cutline. *)
Definition node_shape (nd : PartitionTreeNode) : Prop :=
  is_routable nd = false /\ rerouted_nets nd = [] /\ virtual_nets nd = [] /\
  match left nd, right nd with
  | None, None => cutline_pos nd = -1 /\ cutline_axis nd = X /\ nets nd <> []
  | Some l, Some r => cutline_pos nd <> -1 /\ tree_nets l <> [] /\ tree_nets r <> []
  | _, _ => False
  end.

End Shapes.

End TreeShapes.

(** ** The choice of a cutline in the words of the specification

    Written from the specification alone: the fanout sums, the rejection rule
    and the scan order.  Positions are device coordinates. *)

Module CutlineSpec.

Section Spec.

Variable route_bb : NetId -> t_bb.
Variable num_sinks : NetId -> nat.

Definition bb_lo (axis : Axis) (bb : t_bb) : Z :=
  match axis with X => xmin bb | Y => ymin bb end.
Definition bb_hi (axis : Axis) (bb : t_bb) : Z :=
  match axis with X => xmax bb | Y => ymax bb end.

(** [before[c]]: the fanout of the nets [n] with [bb.min <= c];
    [after[c]]: the fanout of the nets [n] with [bb.max + 1 > c]. *)
Definition weight_before (axis : Axis) (net_ids : list NetId) (c : Z) : Z :=
  foldr (fun n acc =>
           (if bool_decide (bb_lo axis (route_bb n) <= c)
            then Z.of_nat (num_sinks n) else 0) + acc) 0 net_ids.
Definition weight_after (axis : Axis) (net_ids : list NetId) (c : Z) : Z :=
  foldr (fun n acc =>
           (if bool_decide (bb_hi axis (route_bb n) + 1 > c)
            then Z.of_nat (num_sinks n) else 0) + acc) 0 net_ids.

(** [|before - after|] at [c]. *)
Definition imbalance (axis : Axis) (net_ids : list NetId) (c : Z) : Z :=
  Z.abs (weight_before axis net_ids c - weight_after axis net_ids c).

(** The positions of the region [[x1, x2) x [y1, y2)] along [axis]. *)
Definition first_pos (axis : Axis) (x1 y1 : Z) : Z :=
  match axis with X => x1 | Y => y1 end.
Definition end_pos (axis : Axis) (x2 y2 : Z) : Z :=
  match axis with X => x2 | Y => y2 end.

(** [before == max_before] or [after == max_after]: the largest "before" is
    the one of the last position of the region, the largest "after" the one
    of its first position. *)
Definition one_sided (axis : Axis) (net_ids : list NetId) (x1 y1 x2 y2 c : Z) : bool :=
  bool_decide (weight_before axis net_ids c
               = weight_before axis net_ids (end_pos axis x2 y2 - 1))
  || bool_decide (weight_after axis net_ids c
                  = weight_after axis net_ids (first_pos axis x1 y1)).

(** A position of the region that is not rejected. *)
Definition candidate (axis : Axis) (net_ids : list NetId) (x1 y1 x2 y2 c : Z) : bool :=
  bool_decide (first_pos axis x1 y1 <= c < end_pos axis x2 y2)
  && negb (one_sided axis net_ids x1 y1 x2 y2 c).

(** The X axis is scanned before the Y axis, and an axis from its first
    position on. *)
Definition earlier (a : Axis) (c : Z) (a' : Axis) (c' : Z) : Prop :=
  (a = X /\ a' = Y) \/ (a = a' /\ c < c').

End Spec.

End CutlineSpec.

(** ** Vocabulary for the traversal and the virtual nets *)

Module DispatcherTerms.

Section Terms.

Import RouteParallel.

Context {R : Type}.
Variable env : Env.
Variable co : Collaborators R.

(** Sink [isink] of the net has a terminal in [net_rr_terminals]. *)
Definition has_terminal (net_id : NetId) (isink : Z) : bool :=
  match terminal env net_id isink with Ok _ => true | _ => false end.

(** Sink [isink] of the net has a terminal, and it lies inside [bb]. *)
Definition sink_inside (net_id : NetId) (bb : t_bb) (isink : Z) : bool :=
  match terminal env net_id isink with
  | Ok rr => inside_bb env rr bb
  | _ => false
  end.

(** Every retry counter lies between zero and the cap. *)
Definition retries_bounded (st : State R) : Prop :=
  forall n, 0 <= decomp_retries st n <= MAX_DECOMP_REROUTE.

(** No retry counter is smaller in [st'] than in [st]. *)
Definition retries_grow (st st' : State R) : Prop :=
  forall n, decomp_retries st n <= decomp_retries st' n.

(** Net [n] has at least as many sinks as net [m]. *)
Definition fanout_ge (n m : NetId) : Prop :=
  (net_sinks_size env m <= net_sinks_size env n)%nat.

(** Node [nd'] is node [nd] with its nets put in order of fanout: the same
    nets, the same cutline, and children where [nd] has children. *)
Definition node_kept (nd nd' : PartitionTreeNode) : Prop :=
  nets nd' ≡ₚ nets nd /\ StronglySorted fanout_ge (nets nd') /\
  cutline_axis nd' = cutline_axis nd /\ cutline_pos nd' = cutline_pos nd /\
  (left nd' = None <-> left nd = None) /\ (right nd' = None <-> right nd = None).

(** The two virtual nets are the halves of one net of [net_ids], cut from
    its bounding box by the cutline of the node. *)
Definition halves_of (bbs : NetId -> t_bb) (axis : Axis) (pos : Z)
    (net_ids : list NetId) (l r : VirtualNet) : Prop :=
  vnet_id l ∈ net_ids /\ vnet_id r = vnet_id l /\
  clipped_bb l = clip_to_side (bbs (vnet_id l)) axis pos LEFT /\
  clipped_bb r = clip_to_side (bbs (vnet_id l)) axis pos RIGHT.

(** The virtual nets stored in a tree. *)
Definition tree_vnets (t : PartitionTreeNode) : list VirtualNet :=
  concat (map virtual_nets (tree_nodes t)).

(** The loop over [node.nets] decomposes net [n] in state [st]: the net is
    found eligible and [route_and_decompose] returns two virtual nets. *)
Definition is_decomposed (node : PartitionTreeNode) (level : Z) (st : State R)
    (n : NetId) : bool :=
  match should_decompose_net env st n level (cutline_pos node) (cutline_axis node) with
  | Ok true =>
      match route_and_decompose env co st n node with
      | Ok (Some _, _) => true
      | _ => false
      end
  | _ => false
  end.

(** The nets of [net_ids] the loop decomposes, in the order of the loop; the
    state is the one each net is met in. *)
Fixpoint decomposed_at (node : PartitionTreeNode) (level : Z) (net_ids : list NetId)
    (acc : NodeAcc) (st : State R) : list NetId :=
  match net_ids with
  | [] => []
  | n :: rest =>
      (if is_decomposed node level st n then [n] else [])
      ++ match route_net_at_node env co node level acc st n with
         | Ok (acc', st') => decomposed_at node level rest acc' st'
         | _ => []
         end
  end.

(** The half of net [n] on [side] of the cutline of [node]. *)
Definition half_of (bbs : NetId -> t_bb) (node : PartitionTreeNode) (side : Side)
    (n : NetId) : VirtualNet :=
  mk_vnet n (clip_to_side (bbs n) (cutline_axis node) (cutline_pos node) side).

(** The calls of the traversal: started on [node] with the virtual nets
    [inherited] at [level] in state [st], the traversal calls the helper on
    [sub] with [inh] at [lvl] in state [s].  The left child is entered once
    both loops of the node are done, the right child once the traversal of
    the left child has returned. *)
Inductive visits : PartitionTreeNode -> list VirtualNet -> Z -> State R ->
                   PartitionTreeNode -> list VirtualNet -> Z -> State R -> Prop :=
| visits_here node inherited level st :
    visits node inherited level st node inherited level st
| visits_left node inherited level st acc st1 st2 l r sub inh lvl s :
    left node = Some l -> right node = Some r ->
    route_nets_at_node env co node level (sort_by_fanout env (nets node))
                       (mk_acc true [] [] []) st = Ok (acc, st1) ->
    route_vnets_at_node env co (virtual_nets node ++ inherited) st1 = Ok st2 ->
    visits l (acc_left acc) (level + 1) st2 sub inh lvl s ->
    visits node inherited level st sub inh lvl s
| visits_right node inherited level st acc st1 st2 l r l' st3 sub inh lvl s :
    left node = Some l -> right node = Some r ->
    route_nets_at_node env co node level (sort_by_fanout env (nets node))
                       (mk_acc true [] [] []) st = Ok (acc, st1) ->
    route_vnets_at_node env co (virtual_nets node ++ inherited) st1 = Ok st2 ->
    decompose_route_partition_tree_helper env co l (acc_left acc) (level + 1) st2
    = Ok (l', st3) ->
    visits r (acc_right acc) (level + 1) st3 sub inh lvl s ->
    visits node inherited level st sub inh lvl s.

(** [st'] is reached from [st] by further routing iterations, with the
    controller at work between them.  The retry counters are local to the
    routing attempt and handed to the iterations only: whatever else the
    controller changes (bounding boxes, routing state), it leaves them. *)
Inductive later (st : State R) : State R -> Prop :=
| later_now : later st st
| later_controller st1 st2 :
    later st st1 -> decomp_retries st2 = decomp_retries st1 -> later st st2
| later_iteration st1 root res root' st2 :
    later st st1 ->
    decompose_route_partition_tree env co root st1 = Ok (res, root', st2) ->
    later st st2.

End Terms.

End DispatcherTerms.

(** ** Skeleton sink selection in the words of the specification

    Written from the specification alone: the bounding box is divided into
    [W / 5] by [H / 5] bins of width [W / bins_x + 1] and height
    [H / bins_y + 1]; a sink belongs to the bin its position falls into. *)

Module SkeletonSpec.

Section Spec.

Import RouteParallel.

Variable env : Env.

(** Width and height of a bounding box. *)
Definition bb_width (bb : t_bb) : Z := xmax bb - xmin bb + 1.
Definition bb_height (bb : t_bb) : Z := ymax bb - ymin bb + 1.

(** Number of bins along a side of length [side], and the side of a bin. *)
Definition bins_along (side : Z) : Z := side / 5.
Definition bin_side (side : Z) : Z := side / bins_along side + 1.

(** The bin of grid position [(x, y)] within [bb]. *)
Definition spatial_bin (bb : t_bb) (x y : Z) : Z * Z :=
  ((x - xmin bb) / bin_side (bb_width bb), (y - ymin bb) / bin_side (bb_height bb)).

(** The bin of sink [isink] of the net: its position is the low corner of
    the RR node of its terminal. *)
Definition sink_spatial_bin (net_id : NetId) (bb : t_bb) (isink : Z) : Z * Z :=
  match net_rr_terminals env net_id !! Z.to_nat isink with
  | Some rr => spatial_bin bb (node_xlow env rr) (node_ylow env rr)
  | None => (0, 0)
  end.

(** Walk the unrouted sinks in order; take a sink when its bin is not among
    the [satisfied] ones, and count the bin as satisfied from then on. *)
Fixpoint first_per_bin (bin : Z -> Z * Z) (satisfied : list (Z * Z)) (targets : list Z)
    : list Z :=
  match targets with
  | [] => []
  | t :: rest =>
      if decide (bin t ∈ satisfied) then first_per_bin bin satisfied rest
      else t :: first_per_bin bin (bin t :: satisfied) rest
  end.

(** The sinks to route for the skeleton: the bins of the sinks the route
    tree already reaches are satisfied from the start. *)
Definition skeleton_selection (net_id : NetId) (bb : t_bb) (reached targets : list Z)
    : list Z :=
  first_per_bin (sink_spatial_bin net_id bb)
                (sink_spatial_bin net_id bb <$> reached) targets.

End Spec.

End SkeletonSpec.

(** ** The bounding boxes between two iterations

    The part of "Prepare for the next iteration" in [try_parallel_route_tmpl]
    that writes [route_ctx.route_bb]. *)

Module RouteController.

Section Controller.

Import RouteParallel.

Context {R : Type}.
Variable env : Env.

(** [load_route_bb] and [dynamic_update_bounding_boxes] are defined
    elsewhere in the router: they are taken as given. *)
Record BoxLoaders := mk_loaders {
  load_route_bb : Z -> NetId -> t_bb;
  dynamic_update_bounding_boxes : R -> list NetId -> (NetId -> t_bb) -> NetId -> t_bb
}.

Definition BB_SCALE_FACTOR : Z := 2.
Definition BB_SCALE_ITER_COUNT : Z := 5.

(** [bb_fac] and [itry_conflicted_mode]. *)
Record BoxScaling := mk_scaling { bb_fac : Z; itry_conflicted_mode : Z }.

(** [dynamic]: [router_opts.route_bb_update == DYNAMIC]; [conflicted]:
    [router_congestion_mode == CONFLICTED]; [rerouted]:
    [iter_results.rerouted_nets]. *)
Definition update_route_bb (ld : BoxLoaders) (dynamic conflicted : bool)
    (rerouted : list NetId) (sc : BoxScaling) (st : State R) : BoxScaling * State R :=
  let st :=
    if dynamic
    then set_route_bb st (dynamic_update_bounding_boxes ld (rs st) rerouted (route_bb st))
    else st in
  if conflicted then
    if bool_decide (Z.rem (itry_conflicted_mode sc) BB_SCALE_ITER_COUNT = 0) then
      let max_grid_dim := Z.max (grid_width env) (grid_height env) in
      let fac := Z.min max_grid_dim (bb_fac sc * BB_SCALE_FACTOR) in
      (mk_scaling fac (itry_conflicted_mode sc + 1),
       set_route_bb st (load_route_bb ld fac))
    else (mk_scaling (bb_fac sc) (itry_conflicted_mode sc + 1), st)
  else (sc, st).

End Controller.

End RouteController.

(** ** Further concrete inputs *)

Module MoreExamples.

Import RouteParallel RouteController Examples.

(** Two nets on a 40 x 40 grid.  Net 0 has its source at [(0, 0)] and two
    sinks, at [(14, 3)] and [(7, 6)]; net 1 has its source at [(0, 30)] and
    one sink, at [(14, 36)].  RR nodes 0 to 2 are the terminals of net 0, RR
    nodes 3 and 4 those of net 1. *)
Definition pair_xlow (rr : RRNodeId) : Z := default 0 ([0; 14; 7; 0; 14] !! rr).
Definition pair_ylow (rr : RRNodeId) : Z := default 0 ([0; 3; 6; 30; 36] !! rr).

Definition pair_env : Env :=
  {| net_sinks_size := fun n => match n with O => 2%nat | _ => 1%nat end;
     net_is_ignored := fun _ => false;
     net_is_global := fun _ => false;
     net_rr_terminals := fun n => match n with O => [0; 1; 2]%nat | _ => [3; 4]%nat end;
     node_xlow := pair_xlow;
     node_ylow := pair_ylow;
     grid_width := 40;
     grid_height := 40;
     num_workers := 4;
     two_stage_clock_routing := false;
     update_lower_bound_delays := false;
     budgeting_if_set := false;
     wns_nonzero := false;
     log2_ceil := fun _ => 2;
     flags_init := mk_flags false false false |}.

(** A loader of bounding boxes: the box around the terminals of the net,
    grown by [fac] on every side and clipped to the device. *)
Definition pair_pins (n : NetId) : t_bb :=
  match n with O => mk_bb 0 14 0 6 | _ => mk_bb 0 14 30 36 end.
Definition pair_load (fac : Z) (n : NetId) : t_bb :=
  mk_bb (Z.max 0 (xmin (pair_pins n) - fac)) (Z.min 39 (xmax (pair_pins n) + fac))
        (Z.max 0 (ymin (pair_pins n) - fac)) (Z.min 39 (ymax (pair_pins n) + fac)).
Definition pair_loaders : BoxLoaders (R := StubState) :=
  mk_loaders pair_load (fun _ _ bbs => bbs).

Definition pair_unrouted : StubState :=
  fun n => match n with
           | O => mk_route_tree 0%nat [] [1; 2]
           | _ => mk_route_tree 3%nat [] [1]
           end.

(** The boxes loaded with [bb_fac = 3], nothing routed, no retries yet. *)
Definition pair_state : State StubState :=
  mk_state pair_unrouted (pair_load 3) (fun _ => 0) [] 0 0.

(** The tree built for [pair_state]: a Y cut at 10, net 0 below it and net 1
    above it. *)
Definition pair_tree : PartitionTreeNode :=
  mk_node [] (Some (PartitionTree.leaf [0%nat])) (Some (PartitionTree.leaf [1%nat]))
          false [] [] Y 10.

(** Three nets on a 1 x 5 grid, at [y = 0], [y = 2] and [y = 4], with one,
    one and three sinks. *)
Definition stack_bb (n : NetId) : t_bb :=
  match n with
  | O => mk_bb 0 0 0 0
  | S O => mk_bb 0 0 2 2
  | _ => mk_bb 0 0 4 4
  end.
Definition stack_sinks (n : NetId) : nat :=
  match n with O => 1%nat | S O => 1%nat | _ => 3%nat end.

(** Net 0 of [wide_env] with a bounding box only four columns wide. *)
Definition narrow_state : State StubState :=
  mk_state wide_unrouted (fun _ => mk_bb 0 3 0 14) (fun _ => 0) [] 0 0.

(** Net 0 of [wide_env] with a bounding box that starts right of sink 1. *)
Definition shifted_state : State StubState :=
  mk_state wide_unrouted (fun _ => mk_bb 10 24 0 14) (fun _ => 0) [] 0 0.

(** Every sink of every net routed. *)
Definition wide_routed : StubState :=
  fun _ => mk_route_tree 0%nat (seqZ 1 10) [].

Definition wide_routed_state : State StubState :=
  mk_state wide_routed (fun _ => mk_bb 0 14 0 14) (fun _ => 0) [] 0 0.

End MoreExamples.
(** ** Properties of the partition tree builder *)

Section BuilderProofs.

Import PartitionTree TreeVocabulary.

Variable route_bb : NetId -> t_bb.
Variable num_sinks : NetId -> nat.

Local Abbreviation build_helper := (build_helper route_bb num_sinks).
Local Abbreviation choose_cutline := (choose_cutline route_bb num_sinks).
Local Abbreviation build_totals := (build_totals route_bb num_sinks).
Local Abbreviation split_nets := (split_nets route_bb).
Local Abbreviation survives := (survives route_bb num_sinks).
Local Abbreviation cut_score := (cut_score route_bb num_sinks).
Local Abbreviation total_fanout := (total_fanout num_sinks).
Local Abbreviation node_placed := (node_placed route_bb).

(** *** Unfolding lemmas *)

Lemma obind_Ok {A B} (m : Outcome A) (k : A -> Outcome B) (b : B) :
  obind m k = Ok b -> exists a, m = Ok a /\ k a = Ok b.
Proof. destruct m; simpl; intros; try discriminate; eauto. Qed.

Lemma tree_nets_node my l r ir rr vn ax p :
  tree_nets (mk_node my l r ir rr vn ax p)
  = my ++ opt_tree_nets l ++ opt_tree_nets r.
Proof.
  unfold tree_nets; simpl. f_equal.
  rewrite map_app, concat_app. by destruct l, r.
Qed.

Lemma tree_nets_unfold (t : PartitionTreeNode) :
  tree_nets t = nets t ++ opt_tree_nets (left t) ++ opt_tree_nets (right t).
Proof. destruct t; apply tree_nets_node. Qed.

(** Induction on a tree through its two optional children. *)
Lemma tree_induction (P : PartitionTreeNode -> Prop) :
  (forall t,
     (forall l, left t = Some l -> P l) ->
     (forall r, right t = Some r -> P r) -> P t) ->
  forall t, P t.
Proof.
  intros Hstep. fix IH 1. intros [ns l r ir rr vn ax p].
  apply Hstep; simpl.
  - destruct l as [l|]; [|discriminate]. intros ? [= <-]. apply IH.
  - destruct r as [r|]; [|discriminate]. intros ? [= <-]. apply IH.
Qed.

(** One unfolding of [build_helper] on a call that returns a node. *)
Lemma build_helper_Some fuel nets x1 y1 x2 y2 t :
  build_helper (S fuel) nets x1 y1 x2 y2 = Ok (Some t) ->
  let b := choose_cutline nets x1 y1 x2 y2 in
  nets <> [] /\ x2 - x1 > 0 /\ y2 - y1 > 0 /\
  ((best_pos b = -1 /\ t = leaf nets) \/
   (best_pos b <> -1 /\ exists s l r,
      split_nets (best_axis b) (best_pos b) nets = Ok s /\
      (let '((lx1, ly1, lx2, ly2), (rx1, ry1, rx2, ry2)) :=
         child_regions (best_axis b) x1 y1 x2 y2 (best_pos b) in
       build_helper fuel (left_nets s) lx1 ly1 lx2 ly2 = Ok l /\
       build_helper fuel (right_nets s) rx1 ry1 rx2 ry2 = Ok r) /\
      t = mk_node (my_nets s) l r false [] [] (best_axis b) (best_pos b))).
Proof.
  simpl. case_bool_decide as Hn; [discriminate|].
  destruct (bool_decide (x2 - x1 > 0)) eqn:HW; simpl; [|discriminate].
  destruct (bool_decide (y2 - y1 > 0)) eqn:HH; simpl; [|discriminate].
  apply bool_decide_eq_true in HW, HH.
  case_bool_decide as Hp.
  - intros [= <-]. eauto 10.
  - intros H. apply obind_Ok in H as (s & Hs & H).
    destruct (child_regions _ _ _ _ _ _) as [[[[lx1 ly1] lx2] ly2] [[[rx1 ry1] rx2] ry2]].
    apply obind_Ok in H as (l & Hl & H).
    apply obind_Ok in H as (r & Hr & H).
    injection H as <-. split_and!; try done. right. split; [done|].
    exists s, l, r. done.
Qed.

(** *** The partition loop *)

Lemma split_nets_spec axis pos nets s :
  split_nets axis pos nets = Ok s ->
  my_nets s ++ left_nets s ++ right_nets s ≡ₚ nets /\
  Forall (fun n => place axis pos (route_bb n) = GoLeft) (left_nets s) /\
  Forall (fun n => place axis pos (route_bb n) = GoRight) (right_nets s) /\
  Forall (fun n => place axis pos (route_bb n) = Stay) (my_nets s).
Proof.
  revert s. induction nets as [|n rest IH]; intros s; simpl.
  - intros [= <-]. simpl. by repeat constructor.
  - destruct (place axis pos (route_bb n)) eqn:Hp; try discriminate;
      intros H; apply obind_Ok in H as (s' & Hs' & [= <-]);
      destruct (IH _ Hs') as (Hperm & Hl & Hr & Hm); simpl;
      (split_and!; [|by repeat (done || constructor)..]).
    + rewrite <- Hperm. symmetry. apply Permutation_middle.
    + rewrite <- Hperm. rewrite !(app_assoc (my_nets s')).
      symmetry. apply Permutation_middle.
    + by rewrite <- Hperm.
Qed.

Lemma place_GoLeft axis pos bb :
  place axis pos bb = GoLeft <-> bb_min axis bb < pos /\ bb_max axis bb < pos.
Proof.
  unfold place. repeat case_bool_decide; simpl; split; intros; (discriminate || lia || done).
Qed.

Lemma place_GoRight axis pos bb :
  place axis pos bb = GoRight <-> bb_min axis bb > pos /\ bb_max axis bb > pos.
Proof.
  unfold place. repeat case_bool_decide; simpl; split; intros; (discriminate || lia || done).
Qed.

Lemma place_Stay axis pos bb :
  place axis pos bb = Stay <-> bb_min axis bb <= pos <= bb_max axis bb.
Proof.
  unfold place. repeat case_bool_decide; simpl; split; intros; (discriminate || lia || done).
Qed.

Lemma place_Unreachable axis pos bb :
  place axis pos bb = Unreachable -> bb_max axis bb < bb_min axis bb.
Proof.
  unfold place. repeat case_bool_decide; simpl; intros; (discriminate || lia).
Qed.

(** *** The prefix-sum lookups *)

Lemma wrap_int_small z : 0 <= z <= INT_MAX -> wrap_int z = z.
Proof.
  unfold wrap_int, INT_MAX. intros Hz.
  rewrite Z.mod_small; lia.
Qed.

Lemma add_range_length lo hi v arr : length (add_range lo hi v arr) = length arr.
Proof. apply length_imap. Qed.

Lemma add_range_lookup lo hi v arr (i : nat) :
  (i < length arr)%nat ->
  add_range lo hi v arr !!! i
  = if bool_decide (lo <= Z.of_nat i < hi) then wrap_int (arr !!! i + v) else arr !!! i.
Proof.
  intros Hi. unfold add_range.
  rewrite !list_lookup_total_alt, list_lookup_imap.
  destruct (lookup_lt_is_Some_2 arr i Hi) as [a ->]. simpl.
  by case_bool_decide.
Qed.

Section Accumulate.

Variables lo hi v : NetId -> Z.

Local Abbreviation accumulate := (accumulate lo hi v).

Lemma accumulate_length net_ids : forall arr,
  length (accumulate arr net_ids) = length arr.
Proof.
  induction net_ids as [|n rest IH]; intros arr; simpl; [done|].
  unfold accumulate in *. simpl. by rewrite IH, add_range_length.
Qed.

(** Two entries of a lookup differ only if some net covers one and not the
    other. *)
Lemma accumulate_differ net_ids : forall arr (i j : nat),
  (i < length arr)%nat -> (j < length arr)%nat ->
  accumulate arr net_ids !!! i <> accumulate arr net_ids !!! j ->
  arr !!! i <> arr !!! j \/
  exists n, n ∈ net_ids /\
    bool_decide (lo n <= Z.of_nat i < hi n) <> bool_decide (lo n <= Z.of_nat j < hi n).
Proof.
  induction net_ids as [|n rest IH]; intros arr i j Hi Hj Hd; [by left|].
  unfold accumulate in *. simpl in Hd.
  apply IH in Hd; [|by rewrite add_range_length..].
  destruct Hd as [Hd|(m & Hm & Hd)].
  - rewrite !add_range_lookup in Hd by done.
    destruct (decide (bool_decide (lo n <= Z.of_nat i < hi n)
                      = bool_decide (lo n <= Z.of_nat j < hi n))) as [He|He].
    + left. rewrite He in Hd. destruct (bool_decide _); [congruence|done].
    + right. exists n. split; [left|done].
  - right. exists m. split; [by right|done].
Qed.

End Accumulate.

Lemma add_net_proj x1 y1 x2 y2 net_ids : forall t,
  let t' := foldl (add_net route_bb num_sinks x1 y1 x2 y2) t net_ids in
  x_total_before t'
  = accumulate (fun n => Z.max x1 (xmin (route_bb n)) - x1) (fun _ => x2 - x1)
               (fun n => Z.of_nat (num_sinks n)) (x_total_before t) net_ids /\
  x_total_after t'
  = accumulate (fun _ => 0) (fun n => Z.min (xmax (route_bb n) + 1) x2 - x1)
               (fun n => Z.of_nat (num_sinks n)) (x_total_after t) net_ids /\
  y_total_before t'
  = accumulate (fun n => Z.max y1 (ymin (route_bb n)) - y1) (fun _ => y2 - y1)
               (fun n => Z.of_nat (num_sinks n)) (y_total_before t) net_ids /\
  y_total_after t'
  = accumulate (fun _ => 0) (fun n => Z.min (ymax (route_bb n) + 1) y2 - y1)
               (fun n => Z.of_nat (num_sinks n)) (y_total_after t) net_ids.
Proof.
  unfold accumulate.
  induction net_ids as [|n rest IH]; intros t; simpl; [done|].
  apply (IH (add_net route_bb num_sinks x1 y1 x2 y2 t n)).
Qed.

(** *** Candidate cutlines *)

Lemma totals_lengths net_ids x1 y1 x2 y2 axis :
  let t := build_totals net_ids x1 y1 x2 y2 in
  length (before_of axis t) = Z.to_nat (extent axis x1 y1 x2 y2) /\
  length (after_of axis t) = Z.to_nat (extent axis x1 y1 x2 y2).
Proof.
  simpl. unfold PartitionTree.build_totals.
  destruct (add_net_proj x1 y1 x2 y2 net_ids
              (mk_totals (replicate (Z.to_nat (x2 - x1)) 0) (replicate (Z.to_nat (x2 - x1)) 0)
                         (replicate (Z.to_nat (y2 - y1)) 0) (replicate (Z.to_nat (y2 - y1)) 0)))
    as (Hxb & Hxa & Hyb & Hya).
  simpl in Hxb, Hxa, Hyb, Hya.
  destruct axis; simpl.
  - by rewrite Hxb, Hxa, !accumulate_length, !length_replicate.
  - by rewrite Hyb, Hya, !accumulate_length, !length_replicate.
Qed.

(** A surviving cutline has a net strictly beyond it and a net strictly before
    it. *)
Lemma survives_both_sides net_ids x1 y1 x2 y2 axis i :
  survives net_ids x1 y1 x2 y2 axis i = true ->
  (exists n, n ∈ net_ids /\ bb_min axis (route_bb n) > base_of axis x1 y1 + i) /\
  (exists n, n ∈ net_ids /\ bb_max axis (route_bb n) < base_of axis x1 y1 + i).
Proof.
  unfold survives, rejected.
  rewrite andb_true_iff, negb_true_iff, orb_false_iff, !bool_decide_eq_false.
  rewrite bool_decide_eq_true. intros (Hi & Hb & Ha).
  unfold PartitionTree.build_totals in Hb, Ha.
  destruct (add_net_proj x1 y1 x2 y2 net_ids
              (mk_totals (replicate (Z.to_nat (x2 - x1)) 0) (replicate (Z.to_nat (x2 - x1)) 0)
                         (replicate (Z.to_nat (y2 - y1)) 0) (replicate (Z.to_nat (y2 - y1)) 0)))
    as (Hxb & Hxa & Hyb & Hya).
  simpl in Hxb, Hxa, Hyb, Hya.
  destruct axis; simpl in *.
  - rewrite Hxb in Hb. rewrite Hxa in Ha. clear Hxb Hxa Hyb Hya.
    apply accumulate_differ in Hb; [|rewrite length_replicate; lia..].
    apply accumulate_differ in Ha; [|rewrite length_replicate; lia..].
    rewrite !lookup_total_replicate_2 in Hb, Ha by lia.
    destruct Hb as [?|(n & Hn & Hb)]; [done|].
    destruct Ha as [?|(m & Hm & Ha)]; [done|].
    rewrite !Z2Nat.id in Hb, Ha by lia.
    split; [exists n|exists m]; (split; [done|]);
      repeat case_bool_decide; try done; lia.
  - rewrite Hyb in Hb. rewrite Hya in Ha. clear Hxb Hxa Hyb Hya.
    apply accumulate_differ in Hb; [|rewrite length_replicate; lia..].
    apply accumulate_differ in Ha; [|rewrite length_replicate; lia..].
    rewrite !lookup_total_replicate_2 in Hb, Ha by lia.
    destruct Hb as [?|(n & Hn & Hb)]; [done|].
    destruct Ha as [?|(m & Hm & Ha)]; [done|].
    rewrite !Z2Nat.id in Hb, Ha by lia.
    split; [exists n|exists m]; (split; [done|]);
      repeat case_bool_decide; try done; lia.
Qed.

(** *** The scan loops *)

Section Scan.

Variables (axis : Axis) (base n : Z) (before after : list Z).

Local Abbreviation step := (scan_step axis base n before after).
Local Abbreviation rej := (rejected before after n).
Local Abbreviation sc := (score before after).

(** The fold keeps the first position of strictly smallest score, if that
    score beats the incoming one. *)
Lemma scan_first_min l : forall b,
  (foldl step b l = b /\
   forall x, x ∈ l -> rej x = false -> best_score b <= sc x) \/
  (exists l1 x l2, l = l1 ++ x :: l2 /\ rej x = false /\
     foldl step b l = mk_best (sc x) (base + x) axis /\ sc x < best_score b /\
     (forall x', x' ∈ l1 -> rej x' = false -> sc x < sc x') /\
     (forall x', x' ∈ l2 -> rej x' = false -> sc x <= sc x')).
Proof.
  induction l as [|x0 l IH]; intros b; simpl.
  { left. split; [done|]. intros x Hx. by apply elem_of_nil in Hx. }
  unfold scan_step at 2 4.
  destruct (rej x0) eqn:Hr0; [|case_bool_decide as Hlt].
  - destruct (IH b) as [[Hb Hall]|(l1 & x & l2 & -> & Hr & Hb & Hlt & H1 & H2)].
    + left. split; [done|]. intros x [->|Hx]%elem_of_cons Hr; [congruence|eauto].
    + right. exists (x0 :: l1), x, l2. split_and!; try done.
      intros x' [->|Hx']%elem_of_cons Hr'; [congruence|eauto].
  - destruct (IH (mk_best (sc x0) (base + x0) axis))
      as [[Hb Hall]|(l1 & x & l2 & -> & Hr & Hb & Hlt' & H1 & H2)]; simpl in *.
    + right. exists [], x0, l. split_and!; try done.
      intros x' Hx'. by apply elem_of_nil in Hx'.
    + right. exists (x0 :: l1), x, l2. split_and!; try done; [lia|].
      intros x' [->|Hx']%elem_of_cons Hr'; [lia|eauto].
  - destruct (IH b) as [[Hb Hall]|(l1 & x & l2 & -> & Hr & Hb & Hlt' & H1 & H2)].
    + left. split; [done|]. intros x [->|Hx]%elem_of_cons Hr; [lia|eauto].
    + right. exists (x0 :: l1), x, l2. split_and!; try done.
      intros x' [->|Hx']%elem_of_cons Hr'; [lia|eauto].
Qed.

Lemma seqZ_split l1 x l2 :
  seqZ 0 n = l1 ++ x :: l2 ->
  0 <= x < n /\
  (forall x', 0 <= x' < x -> x' ∈ l1) /\
  (forall x', x' ∈ l1 -> x' < x) /\ (forall x', x' ∈ l2 -> x < x').
Proof.
  intros Heq.
  assert (Hlook : forall k y, (l1 ++ x :: l2) !! k = Some y -> y = Z.of_nat k /\ Z.of_nat k < n).
  { intros k y. rewrite <- Heq, lookup_seqZ. lia. }
  assert (Hx : x = Z.of_nat (length l1)).
  { apply (Hlook (length l1) x). by rewrite list_lookup_middle. }
  assert (H1 : forall x', x' ∈ l1 -> x' < x).
  { intros x' [k Hk]%list_elem_of_lookup.
    pose proof (lookup_lt_Some _ _ _ Hk).
    destruct (Hlook k x') as [-> _]; [by rewrite lookup_app_l|lia]. }
  assert (H2 : forall x', x' ∈ l2 -> x < x').
  { intros x' [k Hk]%list_elem_of_lookup.
    destruct (Hlook (length l1 + S k)%nat x') as [-> _]; [|lia].
    rewrite lookup_app_r by lia.
    replace (length l1 + S k - length l1)%nat with (S k) by lia. done. }
  assert (Hin : 0 <= x < n).
  { destruct (Hlook (length l1) x); [by rewrite list_lookup_middle|lia]. }
  split; [exact Hin|]. split; [|by split].
  intros x' Hx'.
  assert (Hel : x' ∈ seqZ 0 n) by (apply elem_of_seqZ; lia).
  rewrite Heq, elem_of_app, elem_of_cons in Hel.
  destruct Hel as [?|[->|Hel]]; [done|lia|]. apply H2 in Hel. lia.
Qed.

Lemma scan_axis_spec b :
  let r := scan_axis axis base n before after b in
  (r = b /\ forall x, 0 <= x < n -> rej x = false -> best_score b <= sc x) \/
  (exists x, 0 <= x < n /\ rej x = false /\
     r = mk_best (sc x) (base + x) axis /\ sc x < best_score b /\
     forall x', 0 <= x' < n -> rej x' = false ->
       sc x <= sc x' /\ (x' < x -> sc x < sc x')).
Proof.
  simpl. unfold scan_axis.
  destruct (scan_first_min (seqZ 0 n) b)
    as [[Hb Hall]|(l1 & x & l2 & Heq & Hr & Hb & Hlt & H1 & H2)].
  - left. split; [done|]. intros x Hx. apply Hall, elem_of_seqZ. lia.
  - right. destruct (seqZ_split _ _ _ Heq) as (Hx & Hin1 & Hlt1 & Hlt2).
    exists x. split; [exact Hx|]. split; [done|]. split; [done|]. split; [done|].
    intros x' Hx' Hr'.
    assert (Hel : x' ∈ seqZ 0 n) by (apply elem_of_seqZ; lia).
    rewrite Heq, elem_of_app, elem_of_cons in Hel.
    destruct Hel as [Hel|[->|Hel]].
    + specialize (H1 _ Hel Hr'). lia.
    + lia.
    + specialize (H2 _ Hel Hr'). apply Hlt2 in Hel. lia.
Qed.

End Scan.

Lemma survives_iff net_ids x1 y1 x2 y2 axis i :
  survives net_ids x1 y1 x2 y2 axis i = true <->
  0 <= i < extent axis x1 y1 x2 y2 /\
  rejected (before_of axis (build_totals net_ids x1 y1 x2 y2))
           (after_of axis (build_totals net_ids x1 y1 x2 y2))
           (extent axis x1 y1 x2 y2) i = false.
Proof.
  unfold survives. by rewrite andb_true_iff, negb_true_iff, bool_decide_eq_true.
Qed.

(** Either both scans leave the initial [best_pos = -1], or the result is the
    first cutline of smallest score in scan order. *)
Lemma choose_cutline_cases net_ids x1 y1 x2 y2 :
  let b := choose_cutline net_ids x1 y1 x2 y2 in
  (b = init_best /\
   forall a i, survives net_ids x1 y1 x2 y2 a i = true ->
               INT_MAX <= cut_score net_ids x1 y1 x2 y2 a i) \/
  (exists i, survives net_ids x1 y1 x2 y2 (best_axis b) i = true /\
     b = mk_best (cut_score net_ids x1 y1 x2 y2 (best_axis b) i)
                 (base_of (best_axis b) x1 y1 + i) (best_axis b) /\
     cut_score net_ids x1 y1 x2 y2 (best_axis b) i < INT_MAX /\
     forall a' i', survives net_ids x1 y1 x2 y2 a' i' = true ->
       cut_score net_ids x1 y1 x2 y2 (best_axis b) i
       <= cut_score net_ids x1 y1 x2 y2 a' i' /\
       (scanned_before a' i' (best_axis b) i ->
        cut_score net_ids x1 y1 x2 y2 (best_axis b) i
        < cut_score net_ids x1 y1 x2 y2 a' i')).
Proof.
  simpl. unfold PartitionTree.choose_cutline.
  set (t := build_totals net_ids x1 y1 x2 y2).
  pose proof (scan_axis_spec X x1 (x2 - x1) (x_total_before t) (x_total_after t) init_best) as HX.
  simpl in HX.
  set (bX := scan_axis X x1 (x2 - x1) (x_total_before t) (x_total_after t) init_best) in *.
  pose proof (scan_axis_spec Y y1 (y2 - y1) (y_total_before t) (y_total_after t) bX) as HY.
  simpl in HY.
  set (b := scan_axis Y y1 (y2 - y1) (y_total_before t) (y_total_after t) bX) in *.
  assert (Hsurv : forall a i, survives net_ids x1 y1 x2 y2 a i = true <->
            0 <= i < extent a x1 y1 x2 y2 /\
            rejected (before_of a t) (after_of a t) (extent a x1 y1 x2 y2) i = false)
    by (intros; apply survives_iff).
  unfold cut_score. fold t.
  destruct HX as [[HbX HallX]|(x & Hx & Hrx & HbX & Hltx & HminX)];
    destruct HY as [[Hb HallY]|(y & Hy & Hry & Hb & Hlty & HminY)].
  - left. split; [congruence|].
    intros a i [Hi Hr]%Hsurv. destruct a; simpl in *.
    + by apply HallX.
    + rewrite HbX in HallY. by apply HallY.
  - right. exists y. rewrite Hb. simpl. rewrite HbX in Hlty. simpl in Hlty.
    split; [by apply (Hsurv Y)|]. split; [done|]. split; [done|].
    intros a' i' [Hi' Hr']%Hsurv. destruct a'; simpl in *.
    + specialize (HallX _ Hi' Hr'). simpl in HallX. unfold scanned_before. lia.
    + destruct (HminY _ Hi' Hr'). unfold scanned_before.
      split; [done|]. intros [[??]|[_ ?]]; [done|auto].
  - right. exists x. rewrite Hb, HbX. simpl. rewrite HbX in HallY. simpl in *.
    split; [by apply (Hsurv X)|]. split; [done|]. split; [done|].
    intros a' i' [Hi' Hr']%Hsurv. destruct a'; simpl in *.
    + destruct (HminX _ Hi' Hr'). unfold scanned_before.
      split; [done|]. intros [[??]|[_ ?]]; [done|auto].
    + specialize (HallY _ Hi' Hr'). unfold scanned_before.
      split; [done|]. intros [[??]|[? _]]; done.
  - right. exists y. rewrite Hb. simpl. rewrite HbX in Hlty. simpl in *.
    split; [by apply (Hsurv Y)|]. split; [done|]. split; [lia|].
    intros a' i' [Hi' Hr']%Hsurv. destruct a'; simpl in *.
    + destruct (HminX _ Hi' Hr'). unfold scanned_before. lia.
    + destruct (HminY _ Hi' Hr'). unfold scanned_before.
      split; [done|]. intros [[??]|[_ ?]]; [done|auto].
Qed.

(** *** Termination of the recursion *)

(** Once a cutline is chosen, each side receives at least one net, so both
    recursive calls work on strictly fewer nets. *)
Lemma cut_sides_nonempty net_ids x1 y1 x2 y2 s :
  let b := choose_cutline net_ids x1 y1 x2 y2 in
  best_pos b <> -1 ->
  split_nets (best_axis b) (best_pos b) net_ids = Ok s ->
  left_nets s <> [] /\ right_nets s <> [] /\
  (length (left_nets s) < length net_ids)%nat /\
  (length (right_nets s) < length net_ids)%nat.
Proof.
  simpl. intros Hpos Hs.
  destruct (choose_cutline_cases net_ids x1 y1 x2 y2) as [[Hb _]|(i & Hsv & Hb & _)];
    simpl in *; [by rewrite Hb in Hpos|].
  apply survives_both_sides in Hsv as [(n & Hn & Hgt) (m & Hm & Hlt)].
  assert (Hp : best_pos (choose_cutline net_ids x1 y1 x2 y2)
               = base_of (best_axis (choose_cutline net_ids x1 y1 x2 y2)) x1 y1 + i)
    by (by rewrite Hb at 1).
  rewrite <- Hp in Hgt, Hlt.
  apply split_nets_spec in Hs as (Hperm & Hl & Hr & Hmy).
  rewrite list.Forall_forall in Hl, Hr, Hmy.
  assert (Hnr : n ∈ right_nets s).
  { rewrite <- Hperm, !elem_of_app in Hn. destruct Hn as [Hin|[Hin|?]]; [..|done].
    - apply Hmy, place_Stay in Hin. lia.
    - apply Hl, place_GoLeft in Hin. lia. }
  assert (Hml : m ∈ left_nets s).
  { rewrite <- Hperm, !elem_of_app in Hm. destruct Hm as [Hin|[?|Hin]]; [|done|].
    - apply Hmy, place_Stay in Hin. lia.
    - apply Hr, place_GoRight in Hin. lia. }
  apply Permutation_length in Hperm. rewrite !length_app in Hperm.
  destruct (left_nets s), (right_nets s); simpl in *;
    try (by apply elem_of_nil in Hnr); try (by apply elem_of_nil in Hml).
  split_and!; (done || lia).
Qed.

Lemma split_nets_outcome axis pos net_ids :
  split_nets axis pos net_ids = AssertFail \/
  exists s, split_nets axis pos net_ids = Ok s.
Proof.
  induction net_ids as [|n rest IH]; simpl; [eauto|].
  destruct (place axis pos (route_bb n)); [..|by left];
    destruct IH as [->|[s ->]]; simpl; eauto.
Qed.

(** With more fuel than nets the model never runs out of fuel, and it never
    leaves defined behaviour: a call returns a tree, returns null on an empty
    net list, or stops on an assertion. *)
Lemma build_helper_fuel fuel : forall net_ids x1 y1 x2 y2,
  (length net_ids < fuel)%nat ->
  build_helper fuel net_ids x1 y1 x2 y2 = AssertFail \/
  exists ot, build_helper fuel net_ids x1 y1 x2 y2 = Ok ot.
Proof.
  induction fuel as [|fuel IH]; intros net_ids x1 y1 x2 y2 Hlen; [lia|].
  simpl. case_bool_decide as Hn; [eauto|].
  destruct (negb _); [eauto|].
  case_bool_decide as Hp; [eauto|].
  destruct (split_nets_outcome (best_axis (choose_cutline net_ids x1 y1 x2 y2))
              (best_pos (choose_cutline net_ids x1 y1 x2 y2)) net_ids) as [->|[s Hs]];
    simpl; [eauto|].
  rewrite Hs. simpl.
  destruct (cut_sides_nonempty _ _ _ _ _ _ Hp Hs) as (_ & _ & Hl & Hr).
  destruct (child_regions _ _ _ _ _ _) as [[[[lx1 ly1] lx2] ly2] [[[rx1 ry1] rx2] ry2]].
  destruct (IH (left_nets s) lx1 ly1 lx2 ly2) as [->|[l ->]]; [lia|simpl; eauto|].
  simpl.
  destruct (IH (right_nets s) rx1 ry1 rx2 ry2) as [->|[r ->]]; [lia|simpl; eauto|].
  simpl. eauto.
Qed.

Lemma build_helper_None fuel nets x1 y1 x2 y2 :
  build_helper fuel nets x1 y1 x2 y2 = Ok None -> nets = [].
Proof.
  destruct fuel as [|fuel]; simpl; [discriminate|].
  case_bool_decide as Hn; [done|].
  destruct (negb _); [discriminate|].
  case_bool_decide; [discriminate|].
  intros Hb. apply obind_Ok in Hb as (s & _ & Hb).
  destruct (child_regions _ _ _ _ _ _) as [[[[lx1 ly1] lx2] ly2] [[[rx1 ry1] rx2] ry2]].
  apply obind_Ok in Hb as (l & _ & Hb).
  apply obind_Ok in Hb as (r & _ & Hb). discriminate.
Qed.

(** *** Net placement in the built tree *)

Lemma build_helper_placed fuel : forall nets x1 y1 x2 y2 ot,
  build_helper fuel nets x1 y1 x2 y2 = Ok ot ->
  opt_tree_nets ot ≡ₚ nets /\ Forall node_placed (opt_tree_nodes ot).
Proof.
  induction fuel as [|fuel IH]; intros nets x1 y1 x2 y2 ot Hb; [discriminate|].
  destruct ot as [t|]; cycle 1.
  { apply build_helper_None in Hb as ->. by split; [|constructor]. }
  apply build_helper_Some in Hb as (Hne & HW & HH & [[Hp ->]|(Hp & s & l & r & Hs & Hlr & ->)]).
  - simpl. split.
    + unfold tree_nets; simpl. by rewrite app_nil_r.
    + constructor; [|constructor]. intros Hc. by simpl in Hc.
  - destruct (child_regions _ _ _ _ _ _) as [[[[lx1 ly1] lx2] ly2] [[[rx1 ry1] rx2] ry2]].
    destruct Hlr as [Hl Hr].
    apply IH in Hl as [Hlp Hlf]. apply IH in Hr as [Hrp Hrf].
    apply split_nets_spec in Hs as (Hperm & Hsl & Hsr & Hsm).
    simpl. split.
    + rewrite tree_nets_node, Hlp, Hrp. done.
    + constructor.
      * intros _. simpl. rewrite Hlp, Hrp. done.
      * apply Forall_app. split; [by destruct l | by destruct r].
Qed.

Lemma bb_valid_axis axis bb : bb_valid bb -> bb_min axis bb <= bb_max axis bb.
Proof. intros [??]. by destruct axis. Qed.

(** C2.  Whenever [build_helper] returns a tree, the nets lists of its nodes
    together are a rearrangement of the nets given to the builder (each net
    sits in exactly one node's list), and at every node with a cutline
    [(A, p)] a net of that node's subtree is held at the node iff
    [bb.min[A] <= p <= bb.max[A]], lies in the left subtree iff
    [bb.max[A] < p] and in the right subtree iff [bb.min[A] > p].  For a bbox
    with [min <= max] on both axes the partition loop takes exactly one of
    the three branches. *)
Theorem build_helper_net_placement fuel net_ids x1 y1 x2 y2 t :
  build_helper fuel net_ids x1 y1 x2 y2 = Ok (Some t) ->
  tree_nets t ≡ₚ net_ids /\
  (forall nd, nd ∈ tree_nodes t -> cutline_pos nd <> -1 ->
     forall n, n ∈ tree_nets nd ->
       (n ∈ nets nd <->
          bb_min (cutline_axis nd) (route_bb n) <= cutline_pos nd
          <= bb_max (cutline_axis nd) (route_bb n)) /\
       (n ∈ opt_tree_nets (left nd) <->
          bb_max (cutline_axis nd) (route_bb n) < cutline_pos nd) /\
       (n ∈ opt_tree_nets (right nd) <->
          bb_min (cutline_axis nd) (route_bb n) > cutline_pos nd)) /\
  (forall A p bb, bb_valid bb ->
     (place A p bb = Stay <-> bb_min A bb <= p <= bb_max A bb) /\
     (place A p bb = GoLeft <-> bb_max A bb < p) /\
     (place A p bb = GoRight <-> bb_min A bb > p) /\
     place A p bb <> Unreachable).
Proof.
  intros Hb. apply build_helper_placed in Hb as [Hperm Hall]. simpl in *.
  split_and!; [done| |].
  - intros nd Hnd Hcut n Hn.
    rewrite Forall_forall in Hall. destruct (Hall nd Hnd Hcut) as (Hm & Hl & Hr).
    rewrite Forall_forall in Hm, Hl, Hr.
    rewrite tree_nets_unfold, !elem_of_app in Hn.
    split_and!; split.
    + intros Hin. by apply place_Stay, Hm.
    + intros Hc. destruct Hn as [?|[Hin|Hin]]; [done|..].
      * apply Hl, place_GoLeft in Hin. lia.
      * apply Hr, place_GoRight in Hin. lia.
    + intros Hin. apply Hl, place_GoLeft in Hin. lia.
    + intros Hc. destruct Hn as [Hin|[?|Hin]]; [|done|].
      * apply Hm, place_Stay in Hin. lia.
      * apply Hr, place_GoRight in Hin. lia.
    + intros Hin. apply Hr, place_GoRight in Hin. lia.
    + intros Hc. destruct Hn as [Hin|[Hin|?]]; [| |done].
      * apply Hm, place_Stay in Hin. lia.
      * apply Hl, place_GoLeft in Hin. lia.
  - intros A p bb Hv. apply (bb_valid_axis A) in Hv.
    rewrite place_Stay, place_GoLeft, place_GoRight.
    split_and!; [done|lia|lia|].
    intros Hu. apply place_Unreachable in Hu. lia.
Qed.

(** *** The regions passed to the recursive calls *)

(** Whenever the X axis is chosen, the call for the right child gets the
    region [[best_pos, x2) x [y2, y2)], whose height is zero, and the builder
    stops on its own [VTR_ASSERT(W > 0 && H > 0)]. *)
Lemma build_helper_x_cut_fails fuel net_ids x1 y1 x2 y2 :
  (length net_ids < fuel)%nat ->
  best_pos (choose_cutline net_ids x1 y1 x2 y2) <> -1 ->
  best_axis (choose_cutline net_ids x1 y1 x2 y2) = X ->
  net_ids <> [] ->
  build_helper fuel net_ids x1 y1 x2 y2 = AssertFail.
Proof.
  intros Hlen Hp Hax Hne. destruct fuel as [|fuel]; [lia|]. simpl.
  rewrite bool_decide_eq_false_2 by done.
  destruct (negb _); [done|].
  rewrite bool_decide_eq_false_2 by done.
  destruct (split_nets_outcome (best_axis (choose_cutline net_ids x1 y1 x2 y2))
              (best_pos (choose_cutline net_ids x1 y1 x2 y2)) net_ids) as [->|[s Hs]];
    [done|].
  rewrite Hs. simpl.
  destruct (cut_sides_nonempty _ _ _ _ _ _ Hp Hs) as (_ & Hr & Hl & Hrl).
  rewrite Hax. simpl.
  destruct (build_helper_fuel fuel (left_nets s) x1 y1
              (best_pos (choose_cutline net_ids x1 y1 x2 y2)) y2) as [->|[l ->]];
    [lia|done|]. simpl.
  destruct fuel as [|fuel]; [lia|]. simpl.
  rewrite bool_decide_eq_false_2 by done.
  rewrite (bool_decide_eq_false_2 (y2 - y2 > 0)) by lia.
  by rewrite andb_false_r.
Qed.

(** A net whose bounding box is the whole device is held at the root. *)
Lemma full_device_net_at_root all_nets W H t n :
  build route_bb num_sinks all_nets W H = Ok (Some t) ->
  n ∈ all_nets ->
  route_bb n = mk_bb 0 (W - 1) 0 (H - 1) ->
  n ∈ nets t.
Proof.
  unfold build. intros Hb Hn Hbb.
  apply build_helper_Some in Hb
    as (_ & HW & HH & [[_ ->]|(Hp & s & l & r & Hs & _ & ->)]); [done|].
  simpl.
  destruct (choose_cutline_cases all_nets 0 0 W H) as [[Hb _]|(i & Hsv & Hb & _)];
    simpl in *; [by rewrite Hb in Hp|].
  apply survives_iff in Hsv as [Hi _].
  assert (Hpos : best_pos (choose_cutline all_nets 0 0 W H)
                 = base_of (best_axis (choose_cutline all_nets 0 0 W H)) 0 0 + i)
    by (by rewrite Hb at 1).
  assert (Hstay : place (best_axis (choose_cutline all_nets 0 0 W H))
                    (best_pos (choose_cutline all_nets 0 0 W H)) (route_bb n) = Stay).
  { apply place_Stay. rewrite Hpos, Hbb.
    destruct (best_axis _); simpl in *; lia. }
  apply split_nets_spec in Hs as (Hperm & Hl & Hr & _).
  rewrite list.Forall_forall in Hl, Hr.
  rewrite <- Hperm, !elem_of_app in Hn.
  destruct Hn as [?|[Hin|Hin]]; [done|..].
  - apply Hl in Hin. congruence.
  - apply Hr in Hin. congruence.
Qed.

End BuilderProofs.

(** *** The builder on concrete inputs *)

Section BuilderExamples.

Import PartitionTree TreeVocabulary Examples.

(** C1.  On a 3 x 1 grid with one net at [x = 0] and one at [x = 2] the
    builder chooses the X cutline at 1; the right child is then built over
    [[1, 3) x [1, 1)] instead of [[1, 3) x [0, 1)], and the builder stops on
    its assertion that the region is not empty.  On a 1 x 3 grid with one net
    at [y = 0] and one at [y = 2] it chooses the Y cutline at 1, and the left
    child, which receives the net at [y = 0], is built over [[0, 1) x [1, 3)]
    while the right child is built over [[0, 1) x [0, 1)]. *)
Theorem build_helper_child_regions_defect :
  choose_cutline row_bb one_sink [0; 1]%nat 0 0 3 1 = mk_best 0 1 X /\
  child_regions X 0 0 3 1 1 = ((0, 0, 1, 1), (1, 1, 3, 1)) /\
  build row_bb one_sink [0; 1]%nat 3 1 = AssertFail /\
  choose_cutline column_bb one_sink [0; 1]%nat 0 0 1 3 = mk_best 0 1 Y /\
  child_regions Y 0 0 1 3 1 = ((0, 1, 1, 3), (0, 0, 1, 1)) /\
  split_nets column_bb Y 1 [0; 1]%nat = Ok (mk_split [0%nat] [1%nat] []) /\
  build column_bb one_sink [0; 1]%nat 1 3 = Ok (Some column_tree).
Proof. repeat split; vm_compute; reflexivity. Qed.

Lemma build_helper_net_placement_witness :
  build_helper column_bb one_sink 3 [0; 1]%nat 0 0 1 3 = Ok (Some column_tree) /\
  tree_nets column_tree ≡ₚ [0; 1]%nat.
Proof.
  assert (H : build_helper column_bb one_sink 3 [0; 1]%nat 0 0 1 3
              = Ok (Some column_tree)) by reflexivity.
  split; [exact H|].
  exact (proj1 (build_helper_net_placement column_bb one_sink 3 [0; 1]%nat 0 0 1 3
                  column_tree H)).
Defined.

End BuilderExamples.


(** ** Properties of the dispatcher *)

Section DispatcherProofs.

Import RouteParallel.

Context {R : Type}.
Variable env : Env.
Variable co : Collaborators R.

Lemma to_size_t_small z : 0 <= z < 2 ^ 64 -> to_size_t z = z.
Proof. intros. unfold to_size_t. by apply Z.mod_small. Qed.

Lemma to_int_small z : - 2 ^ 31 <= z < 2 ^ 31 -> to_int z = z.
Proof. intros. unfold to_int. rewrite Z.mod_small; lia. Qed.

(** *** What each step leaves alone *)

Lemma same_frame_refl (st : State R) : same_frame st st.
Proof. done. Qed.

Lemma same_frame_trans (st1 st2 st3 : State R) :
  same_frame st1 st2 -> same_frame st2 st3 -> same_frame st1 st3.
Proof. intros (?&?&?) (?&?&?). split_and!; congruence. Qed.

Lemma same_frame_set_rs (st : State R) r : same_frame st (set_rs st r).
Proof. done. Qed.

Lemma route_skeleton_frame net_id isinks : forall (st : State R),
  same_frame st (snd (route_skeleton env co net_id isinks st)).
Proof.
  induction isinks as [|isink rest IH]; intros st; simpl; [done|].
  destruct (timing_driven_route_sink _ _ _ _ _ _) as [flags r].
  destruct (negb (success flags)); simpl; [done|].
  eapply same_frame_trans; [|apply IH]. done.
Qed.

Lemma update_lower_bounds_frame net_id isinks (st : State R) :
  same_frame st (update_lower_bounds env co net_id isinks st).
Proof. unfold update_lower_bounds. by destruct (update_lower_bound_delays env). Qed.

Lemma try_parallel_route_net_frame (st : State R) net_id :
  same_frame st (snd (try_parallel_route_net env co st net_id)).
Proof.
  unfold try_parallel_route_net. destruct (negb _); [done|].
  by destruct (timing_driven_route_net _ _ _ _) as [flags r].
Qed.

Lemma route_vnet_sinks_frame vnet n_sinks isinks : forall retry (st : State R),
  same_frame st (snd (route_vnet_sinks co vnet n_sinks isinks retry st)).
Proof.
  induction isinks as [|isink rest IH]; intros retry st; simpl; [done|].
  destruct (timing_driven_route_sink _ _ _ _ _ _) as [flags r].
  destruct (negb (success flags)); simpl; [done|].
  eapply same_frame_trans; [|apply IH]. done.
Qed.

Lemma route_virtual_net_frame (st : State R) vnet flags st' :
  route_virtual_net env co st vnet = Ok (flags, st') -> same_frame st st'.
Proof.
  unfold route_virtual_net. intros Hr.
  apply obind_Ok in Hr as (sinks & Hsinks & Hr).
  destruct (route_tree co (rs st) (vnet_id vnet)) as [tree|]; [|discriminate].
  apply obind_Ok in Hr as (remaining & _ & Hr).
  destruct (route_vnet_sinks co vnet _ _ _ _) as [[ok retry] st1] eqn:Hrun.
  match type of Hrun with
  | route_vnet_sinks co vnet ?n ?l ?b ?s = _ =>
      pose proof (route_vnet_sinks_frame vnet n l b s) as Hf
  end.
  rewrite Hrun in Hf. simpl in Hf.
  assert (Hst : same_frame st st1).
  { eapply same_frame_trans; [|exact Hf]. by destruct (budgeting_if_set env). }
  destruct ok.
  - apply obind_Ok in Hr as (sinks' & _ & [= _ <-]).
    eapply same_frame_trans; [exact Hst|].
    eapply same_frame_trans; [|apply same_frame_set_rs].
    eapply same_frame_trans; [|apply update_lower_bounds_frame]. done.
  - by injection Hr as _ <-.
Qed.

(** [route_and_decompose] never touches the bounding boxes or the retry
    collection, and it counts a retry exactly when it returns a pair. *)
Lemma route_and_decompose_frame (st : State R) net_id node res st' :
  route_and_decompose env co st net_id node = Ok (res, st') ->
  route_bb st' = route_bb st /\
  nets_to_retry st' = nets_to_retry st /\
  match res with
  | None => decomp_retries st' = decomp_retries st
  | Some vp =>
      decomp_retries st'
      = <[net_id := to_size_t (decomp_retries st net_id + 1)]> (decomp_retries st) /\
      make_decomposed_pair env co st' net_id (cutline_pos node) (cutline_axis node)
      = Ok vp
  end.
Proof.
  unfold route_and_decompose.
  destruct (negb _); [by intros [= <- <-]|].
  destruct (route_tree co _ net_id) as [tree|]; [|discriminate].
  intros Hr. apply obind_Ok in Hr as (isinks & _ & Hr).
  destruct (route_skeleton env co net_id isinks _) as [[[]|] st1] eqn:Hsk.
  - match type of Hsk with
    | route_skeleton env co net_id isinks ?s = _ =>
        pose proof (route_skeleton_frame net_id isinks s) as Hf
    end.
    rewrite Hsk in Hf. simpl in Hf. destruct Hf as (Hbb & Hdr & Hnr).
    simpl in Hbb, Hdr, Hnr.
    apply obind_Ok in Hr as (vp & Hvp & [= <- <-]).
    pose proof (update_lower_bounds_frame net_id isinks st1) as (Hbb' & Hdr' & Hnr').
    simpl. rewrite Hbb', Hnr', Hdr', Hbb, Hnr, Hdr. done.
  - match type of Hsk with
    | route_skeleton env co net_id isinks ?s = _ =>
        pose proof (route_skeleton_frame net_id isinks s) as Hf
    end.
    rewrite Hsk in Hf. simpl in Hf. destruct Hf as (Hbb & Hdr & Hnr).
    by injection Hr as <- <-.
Qed.

(** The loops over the nets and over the virtual nets of a node only append
    to the retry collection and leave the bounding boxes alone. *)
Lemma route_net_at_node_retry node level acc (st : State R) net_id acc' st' :
  route_net_at_node env co node level acc st net_id = Ok (acc', st') ->
  route_bb st' = route_bb st /\
  exists extra, nets_to_retry st' = nets_to_retry st ++ extra.
Proof.
  unfold route_net_at_node. intros Hr.
  apply obind_Ok in Hr as (dec & _ & Hr).
  apply obind_Ok in Hr as ([res st1] & Hdn & Hr).
  assert (Hf : route_bb st1 = route_bb st /\ nets_to_retry st1 = nets_to_retry st).
  { destruct dec; [|by injection Hdn as _ <-].
    by apply route_and_decompose_frame in Hdn as (? & ? & _). }
  destruct Hf as [Hbb Hnr].
  destruct res as [[l r]|].
  - destruct (left node), (right node); try discriminate.
    injection Hr as _ <-. split; [done|]. exists []. by rewrite app_nil_r.
  - pose proof (try_parallel_route_net_frame st1 net_id) as (Hbb' & _ & Hnr').
    destruct (try_parallel_route_net env co st1 net_id) as [flags st2].
    simpl in Hbb', Hnr'. injection Hr as _ <-.
    destruct (retry_with_full_bb flags); simpl.
    + split; [congruence|]. exists [net_id]. congruence.
    + split; [congruence|]. exists []. rewrite app_nil_r. congruence.
Qed.

Lemma route_nets_at_node_retry node level net_ids : forall acc (st : State R) acc' st',
  route_nets_at_node env co node level net_ids acc st = Ok (acc', st') ->
  route_bb st' = route_bb st /\
  exists extra, nets_to_retry st' = nets_to_retry st ++ extra.
Proof.
  induction net_ids as [|n rest IH]; intros acc st acc' st'; simpl.
  - intros [= _ <-]. split; [done|]. exists []. by rewrite app_nil_r.
  - intros Hr. apply obind_Ok in Hr as ([acc1 st1] & Hstep & Hr).
    apply route_net_at_node_retry in Hstep as (Hbb & e1 & He1).
    apply IH in Hr as (Hbb' & e2 & He2). simpl in *.
    split; [congruence|]. exists (e1 ++ e2). rewrite He2, He1. by rewrite app_assoc.
Qed.

Lemma route_vnet_at_node_retry (st : State R) vnet st' :
  route_vnet_at_node env co st vnet = Ok st' ->
  route_bb st' = route_bb st /\
  exists extra, nets_to_retry st' = nets_to_retry st ++ extra.
Proof.
  unfold route_vnet_at_node. intros Hr.
  apply obind_Ok in Hr as ([flags st1] & Hv & Hr).
  apply route_virtual_net_frame in Hv as (Hbb & _ & Hnr).
  destruct (negb (success flags) && negb (retry_with_full_bb flags)).
  - injection Hr as <-. simpl. split; [done|]. exists []. by rewrite app_nil_r.
  - destruct (retry_with_full_bb flags); injection Hr as <-; simpl.
    + split; [done|]. exists [vnet_id vnet]. congruence.
    + split; [done|]. exists []. by rewrite app_nil_r.
Qed.

Lemma route_vnets_at_node_retry vnets : forall (st st' : State R),
  route_vnets_at_node env co vnets st = Ok st' ->
  route_bb st' = route_bb st /\
  exists extra, nets_to_retry st' = nets_to_retry st ++ extra.
Proof.
  induction vnets as [|v rest IH]; intros st st'; simpl.
  - intros [= <-]. split; [done|]. exists []. by rewrite app_nil_r.
  - intros Hr. apply obind_Ok in Hr as (st1 & Hstep & Hr).
    apply route_vnet_at_node_retry in Hstep as (Hbb & e1 & He1).
    apply IH in Hr as (Hbb' & e2 & He2).
    split; [congruence|]. exists (e1 ++ e2). rewrite He2, He1. by rewrite app_assoc.
Qed.

(** The traversal of a subtree only appends to the retry collection and
    leaves the bounding boxes alone. *)
Lemma helper_retry node : forall inherited level (st : State R) node' st',
  decompose_route_partition_tree_helper env co node inherited level st = Ok (node', st') ->
  route_bb st' = route_bb st /\
  exists extra, nets_to_retry st' = nets_to_retry st ++ extra.
Proof.
  induction node as [node IHl IHr] using tree_induction.
  intros inherited level st node' st' Hr.
  destruct node as [ns l r ir rr vn ax p]. simpl in *.
  apply obind_Ok in Hr as ([acc st1] & Hnets & Hr).
  apply route_nets_at_node_retry in Hnets as (Hbb1 & e1 & He1).
  apply obind_Ok in Hr as (st2 & Hv & Hr).
  apply route_vnets_at_node_retry in Hv as (Hbb2 & e2 & He2).
  destruct l as [l|], r as [r|]; try discriminate.
  - apply obind_Ok in Hr as ([l' st3] & Hl & Hr).
    apply obind_Ok in Hr as ([r' st4] & Hrr & [= _ <-]).
    apply (IHl l eq_refl) in Hl as (Hbb3 & e3 & He3).
    apply (IHr r eq_refl) in Hrr as (Hbb4 & e4 & He4). simpl in *.
    split; [congruence|]. exists (e1 ++ e2 ++ e3 ++ e4).
    rewrite He4, He3, He2, He1. by rewrite <- !app_assoc.
  - injection Hr as _ <-. split; [congruence|]. exists (e1 ++ e2).
    rewrite He2, He1. by rewrite <- !app_assoc.
Qed.

(** *** Decomposition eligibility *)

Lemma should_decompose_net_worth (st : State R) net_id level cutline_pos axis :
  should_decompose_net env st net_id level cutline_pos axis = Ok true ->
  decomp_retries st net_id < MAX_DECOMP_REROUTE /\
  is_worth_decomposing env st net_id cutline_pos axis = Ok true.
Proof.
  unfold should_decompose_net.
  case_bool_decide; [discriminate|].
  destruct (_ && _); [discriminate|].
  case_bool_decide as Hr; [discriminate|].
  destruct (is_worth_decomposing _ _ _ _ _) as [[]| | |]; simpl; try discriminate.
  intros _. split; [lia|done].
Qed.

(** What [is_worth_decomposing] has checked when it answers yes, for a bbox
    whose width and height fit an [int]. *)
Lemma is_worth_decomposing_true (st : State R) net_id cutline_pos axis :
  let bb := route_bb st net_id in
  let W := xmax bb - xmin bb + 1 in
  let H := ymax bb - ymin bb + 1 in
  0 < W < 2 ^ 31 -> 0 < H < 2 ^ 31 ->
  is_worth_decomposing env st net_id cutline_pos axis = Ok true ->
  5 <= W /\ 5 <= H /\
  PartitionTree.bb_max axis bb - cutline_pos >= W / (W / 5) + 1 /\
  cutline_pos - PartitionTree.bb_min axis bb + 1 >= H / (H / 5) + 1 /\
  Z.of_nat (length (net_rr_terminals env net_id))
    > Z.max (2 * (W / 5 + H / 5) - 4) 4 + 2.
Proof.
  intros bb W H. subst bb W H. unfold is_worth_decomposing, MIN_DECOMP_BIN_WIDTH.
  destruct (route_bb st net_id) as [x0 x1 y0 y1].
  cbn [xmin xmax ymin ymax].
  remember (x1 - x0 + 1) as W eqn:HeqW. remember (y1 - y0 + 1) as H eqn:HeqH.
  intros HW HH.
  assert (HW5 : 0 <= W / 5 < 2 ^ 31) by (split; [apply Z.div_pos|apply Z.div_lt_upper_bound]; lia).
  assert (HH5 : 0 <= H / 5 < 2 ^ 31) by (split; [apply Z.div_pos|apply Z.div_lt_upper_bound]; lia).
  rewrite !(to_size_t_small W), !(to_size_t_small H) by lia.
  rewrite !(to_int_small (W / 5)), !(to_int_small (H / 5)) by lia.
  rewrite !(to_size_t_small (W / 5)), !(to_size_t_small (H / 5)) by lia.
  case_bool_decide as Hbx; [discriminate|].
  case_bool_decide as Hby; [discriminate|].
  assert (Hq : forall V, 0 < V < 2 ^ 31 -> V / 5 <> 0 -> 0 <= V / (V / 5) <= 2 ^ 30).
  { clear. intros V HV Hne.
    pose proof (Z.div_mod V 5 ltac:(lia)). pose proof (Z.mod_pos_bound V 5 ltac:(lia)).
    assert (1 <= V / 5) by (pose proof (Z.div_pos V 5); lia).
    split; [apply Z.div_pos; lia|].
    apply Z.div_le_upper_bound; [lia|].
    destruct (decide (V / 5 = 1)) as [Heq|]; [rewrite Heq in *|]; lia. }
  pose proof (Hq W HW Hbx) as HWq. pose proof (Hq H HH Hby) as HHq. clear Hq.
  rewrite !(to_size_t_small (W / (W / 5) + 1)), !(to_size_t_small (H / (H / 5) + 1)) by lia.
  rewrite !(to_int_small (W / (W / 5) + 1)), !(to_int_small (H / (H / 5) + 1)) by lia.
  rewrite (to_size_t_small (Z.max _ _)) by lia.
  rewrite (to_size_t_small (Z.max _ _ + 2)) by lia.
  destruct (_ || _); [discriminate|].
  assert (H5W : 5 <= W).
  { destruct (decide (5 <= W)); [done|]. by rewrite Z.div_small in Hbx by lia. }
  assert (H5H : 5 <= H).
  { destruct (decide (5 <= H)); [done|]. by rewrite Z.div_small in Hby by lia. }
  destruct axis; cbn [PartitionTree.bb_max PartitionTree.bb_min xmin xmax ymin ymax];
    repeat case_bool_decide; cbn [orb]; intros; try discriminate;
    split_and!; lia.
Qed.

(** C7, amended.  [is_worth_decomposing] (and hence [should_decompose_net])
    answers yes only if the net has more than
    [max(2 * (bins_x + bins_y) - 4, 4) + 2] routing terminals, the source
    included; with one source and [K] sinks this is [K >= max(...) + 2]. *)
Theorem is_worth_decomposing_terminal_threshold (st : State R) net_id level
    cutline_pos axis :
  let bb := route_bb st net_id in
  let W := xmax bb - xmin bb + 1 in
  let H := ymax bb - ymin bb + 1 in
  0 < W < 2 ^ 31 -> 0 < H < 2 ^ 31 ->
  is_worth_decomposing env st net_id cutline_pos axis = Ok true \/
  should_decompose_net env st net_id level cutline_pos axis = Ok true ->
  Z.of_nat (length (net_rr_terminals env net_id))
    > Z.max (2 * (W / 5 + H / 5) - 4) 4 + 2 /\
  (length (net_rr_terminals env net_id) = S (net_sinks_size env net_id) ->
   Z.of_nat (net_sinks_size env net_id) >= Z.max (2 * (W / 5 + H / 5) - 4) 4 + 2).
Proof.
  intros bb W H HW HH Hyes.
  assert (Hw : is_worth_decomposing env st net_id cutline_pos axis = Ok true).
  { destruct Hyes as [?|Hs]; [done|]. by apply should_decompose_net_worth in Hs as [_ ?]. }
  destruct (is_worth_decomposing_true st net_id cutline_pos axis HW HH Hw)
    as (_ & _ & _ & _ & Hn).
  fold bb W H in Hn. split; [done|]. intros Hlen. rewrite Hlen in Hn. lia.
Qed.

(** *** Routing one net *)

Lemma should_really_route_net_skip (st : State R) net_id :
  is_fixed co (rs st) net_id = true \/
  net_is_ignored env net_id = true \/
  ((budgeting_if_set env && get_should_reroute co (rs st) net_id && wns_nonzero env) = false
   /\ should_route_net co (rs st) net_id = false) ->
  should_really_route_net env co st net_id = false.
Proof.
  unfold should_really_route_net.
  intros [->|[->|[Hh ->]]]; [done|by destruct (is_fixed co (rs st) net_id)|].
  destruct (is_fixed co (rs st) net_id), (net_is_ignored env net_id); try done.
  destruct (budgeting_if_set env); simpl in *; by rewrite ?Hh.
Qed.

(** The body of the loop over [node.nets] on a net that is not decomposed. *)
Lemma route_net_at_node_direct node level acc (st : State R) net_id st1 :
  routed_directly env co node level st net_id st1 ->
  let flags := fst (try_parallel_route_net env co st1 net_id) in
  let st2 := snd (try_parallel_route_net env co st1 net_id) in
  route_net_at_node env co node level acc st net_id
  = Ok (mk_acc (if negb (success flags) && negb (retry_with_full_bb flags)
                then false else acc_is_routable acc)
               (if was_rerouted flags then acc_rerouted acc ++ [net_id]
                else acc_rerouted acc)
               (acc_left acc) (acc_right acc),
        if retry_with_full_bb flags
        then set_nets_to_retry st2 (nets_to_retry st2 ++ [net_id]) else st2).
Proof.
  intros Hd. simpl. unfold route_net_at_node.
  destruct Hd as [[-> ->]|[-> Hr]]; simpl.
  - by destruct (try_parallel_route_net env co st net_id) as [flags st2].
  - rewrite Hr. simpl.
    by destruct (try_parallel_route_net env co st1 net_id) as [flags st2].
Qed.


(** *** Nets to retry with the full device *)

Lemma grow_retry_nets_spec l : forall (st : State R),
  let st' := foldl (grow_retry_net env) st l in
  nets_to_retry st' = nets_to_retry st /\
  forall n,
    (n ∈ l -> route_bb st' n = full_device_bb env /\
              decomp_retries st' n = MAX_DECOMP_REROUTE) /\
    (n ∉ l -> route_bb st' n = route_bb st n /\
              decomp_retries st' n = decomp_retries st n).
Proof.
  induction l as [|x l IH]; intros st; simpl.
  { split; [done|]. intros n. split; [by intros ?%elem_of_nil|done]. }
  destruct (IH (grow_retry_net env st x)) as [Hnr Hall]. simpl in *.
  split; [done|]. intros n. destruct (Hall n) as [Hin Hout].
  split.
  - intros Hn. destruct (decide (n ∈ l)) as [?|Hnl]; [by apply Hin|].
    apply elem_of_cons in Hn as [->|?]; [|done].
    destruct (Hout Hnl) as [-> ->]. simpl. by rewrite !fn_lookup_insert.
  - intros Hn. apply not_elem_of_cons in Hn as [Hne Hnl].
    destruct (Hout Hnl) as [-> ->]. simpl. by rewrite !fn_lookup_insert_ne.
Qed.

Lemma full_device_bb_grid :
  0 < grid_width env < 2 ^ 31 -> 0 < grid_height env < 2 ^ 31 ->
  full_device_bb env = mk_bb 0 (grid_width env - 1) 0 (grid_height env - 1).
Proof.
  intros HW HH. unfold full_device_bb.
  rewrite !to_size_t_small by lia. by rewrite !to_int_small by lia.
Qed.

Lemma should_decompose_net_capped (st : State R) net_id level cutline_pos axis :
  decomp_retries st net_id >= MAX_DECOMP_REROUTE ->
  should_decompose_net env st net_id level cutline_pos axis = Ok false.
Proof.
  intros Hcap. unfold should_decompose_net.
  case_bool_decide; [done|]. destruct (_ && _); [done|].
  by rewrite bool_decide_eq_true_2.
Qed.

(** When [decompose_route_partition_tree] returns, the retry collection is the
    one the traversal left (cleared first, then only appended to), and every
    net in it has its bounding box set to the full device and its retry
    counter set to the cap; in the state returned such a net is not eligible
    for decomposition, and a partition tree built from the bounding boxes of
    that state holds it at the root. *)
Lemma iteration_retry_nets (root : PartitionTreeNode)
    (st : State R) res root' st' :
  0 < grid_width env < 2 ^ 31 -> 0 < grid_height env < 2 ^ 31 ->
  decompose_route_partition_tree env co root st = Ok (res, root', st') ->
  (exists st1,
     decompose_route_partition_tree_helper env co root [] 0 (set_nets_to_retry st [])
     = Ok (root', st1) /\
     nets_to_retry st' = nets_to_retry st1) /\
  forall n, n ∈ nets_to_retry st' ->
    route_bb st' n = mk_bb 0 (grid_width env - 1) 0 (grid_height env - 1) /\
    decomp_retries st' n = 5 /\
    (forall level cutline_pos axis,
       should_decompose_net env st' n level cutline_pos axis = Ok false) /\
    (forall all_nets t,
       n ∈ all_nets ->
       PartitionTree.build (route_bb st') (net_sinks_size env) all_nets
                           (grid_width env) (grid_height env) = Ok (Some t) ->
       n ∈ nets t).
Proof.
  intros HW HH. unfold decompose_route_partition_tree. intros Hr.
  apply obind_Ok in Hr as ([root1 st1] & Hh & [= <- <- <-]).
  destruct (grow_retry_nets_spec (nets_to_retry st1) st1) as [Hnr Hall]. simpl in *.
  split; [by exists st1|].
  intros n Hn. rewrite Hnr in Hn. destruct (Hall n) as [[Hbb Hdr] _]; [done|].
  rewrite full_device_bb_grid in Hbb by done.
  split_and!; try done.
  - intros level cutline_pos axis. apply should_decompose_net_capped.
    rewrite Hdr. done.
  - intros all_nets t Hin Hb. by eapply full_device_net_at_root.
Qed.

(** *** Skeleton routing *)

Lemma route_skeleton_app net_id l1 l2 : forall (st : State R),
  route_skeleton env co net_id (l1 ++ l2) st
  = match route_skeleton env co net_id l1 st with
    | (Some _, st1) => route_skeleton env co net_id l2 st1
    | (None, st1) => (None, st1)
    end.
Proof.
  induction l1 as [|isink rest IH]; intros st; simpl; [done|].
  destruct (timing_driven_route_sink _ _ _ _ _ _) as [flags r].
  destruct (negb (success flags)); [done|]. apply IH.
Qed.

(** A failed skeleton connection ends the loop with no result, in the state
    the failed routing call left. *)
Lemma skeleton_fails_at_None net_id isinks (st : State R) isink st1 :
  skeleton_fails_at env co net_id isinks st isink st1 ->
  route_skeleton env co net_id isinks st
  = (None, set_rs st1 (snd (timing_driven_route_sink co (rs st1) net_id isink
                              (route_bb st1 net_id)
                              (Z.of_nat (net_sinks_size env net_id))))).
Proof.
  intros (l1 & l2 & -> & Hl1 & Hfail).
  rewrite route_skeleton_app, Hl1. simpl.
  destruct (timing_driven_route_sink _ _ _ _ _ _) as [flags r]. simpl in *.
  by rewrite Hfail.
Qed.

(** C8, amended.  If the connection to a selected skeleton sink fails,
    [route_and_decompose] returns no decomposition and leaves every retry
    counter as it was; the dispatcher then pushes no virtual net for the net
    and routes it at the node with [try_parallel_route_net], and the counters
    are still unchanged afterwards. *)
Theorem route_and_decompose_skeleton_failure (st : State R) net_id node isinks
    st1 isink st2 :
  should_really_route_net env co st net_id = true ->
  skeleton_start env co st net_id isinks st1 ->
  skeleton_fails_at env co net_id isinks st1 isink st2 ->
  exists st3,
    route_and_decompose env co st net_id node = Ok (None, st3) /\
    decomp_retries st3 = decomp_retries st /\
    forall level acc,
      should_decompose_net env st net_id level (cutline_pos node) (cutline_axis node)
      = Ok true ->
      exists acc' st',
        route_net_at_node env co node level acc st net_id = Ok (acc', st') /\
        acc_left acc' = acc_left acc /\ acc_right acc' = acc_right acc /\
        rs st' = rs (snd (try_parallel_route_net env co st3 net_id)) /\
        decomp_retries st' = decomp_retries st.
Proof.
  intros Hroute (tree & Htree & -> & Hsel) Hfail.
  apply skeleton_fails_at_None in Hfail.
  match type of Hfail with _ = (None, ?s) => set (st3 := s) in * end.
  exists st3.
  assert (Hrd : route_and_decompose env co st net_id node = Ok (None, st3)).
  { unfold route_and_decompose. rewrite Hroute. simpl in *.
    rewrite Htree. rewrite Hsel. simpl. by rewrite Hfail. }
  split; [exact Hrd|].
  apply route_and_decompose_frame in Hrd as Hframe.
  destruct Hframe as (_ & _ & Hdr). split; [done|].
  intros level acc Hdec.
  pose proof (route_net_at_node_direct node level acc st net_id st3
                (or_intror (conj Hdec Hrd))) as Hstep.
  pose proof (try_parallel_route_net_frame st3 net_id) as (_ & Hdr' & _).
  destruct (try_parallel_route_net env co st3 net_id) as [flags st4].
  simpl in Hstep, Hdr'. do 2 eexists. split; [exact Hstep|].
  simpl. split_and!; try done.
  - by destruct (retry_with_full_bb flags).
  - unfold st3 in Hdr. simpl in Hdr.
    destruct (retry_with_full_bb flags); simpl; congruence.
Qed.

(** *** Routability flags *)

Lemma route_nets_at_node_app node level l1 l2 : forall acc (st : State R),
  route_nets_at_node env co node level (l1 ++ l2) acc st
  = obind (route_nets_at_node env co node level l1 acc st)
          (fun p => route_nets_at_node env co node level l2 (fst p) (snd p)).
Proof.
  induction l1 as [|n rest IH]; intros acc st; simpl; [done|].
  destruct (route_net_at_node env co node level acc st n) as [[acc1 st1]| | |];
    simpl; [apply IH|done..].
Qed.

(** Nothing in the loop over the nets sets [is_routable] back to true. *)
Lemma route_net_at_node_unroutable node level acc (st : State R) net_id acc' st' :
  route_net_at_node env co node level acc st net_id = Ok (acc', st') ->
  acc_is_routable acc = false -> acc_is_routable acc' = false.
Proof.
  unfold route_net_at_node. intros Hr Hacc.
  apply obind_Ok in Hr as (dec & _ & Hr).
  apply obind_Ok in Hr as ([[[l r]|] st1] & _ & Hr).
  - destruct (left node), (right node); try discriminate. by injection Hr as <- _.
  - destruct (try_parallel_route_net env co st1 net_id) as [flags st2].
    injection Hr as <- _. simpl. by destruct (_ && _).
Qed.

Lemma route_nets_at_node_unroutable node level net_ids : forall acc (st : State R) acc' st',
  route_nets_at_node env co node level net_ids acc st = Ok (acc', st') ->
  acc_is_routable acc = false -> acc_is_routable acc' = false.
Proof.
  induction net_ids as [|n rest IH]; intros acc st acc' st'; simpl.
  - by intros [= <- _].
  - intros Hr Hacc. apply obind_Ok in Hr as ([acc1 st1] & Hstep & Hr).
    eapply IH; [exact Hr|]. by eapply route_net_at_node_unroutable.
Qed.

(** The flags and lists the traversal writes on a node come from the loop over
    its nets alone, and its children are the traversed children. *)
Lemma helper_node node inherited level (st : State R) node' st' :
  decompose_route_partition_tree_helper env co node inherited level st = Ok (node', st') ->
  exists acc st1 st2,
    route_nets_at_node env co node level (sort_by_fanout env (nets node))
                       (mk_acc true [] [] []) st = Ok (acc, st1) /\
    route_vnets_at_node env co (virtual_nets node ++ inherited) st1 = Ok st2 /\
    nets node' = sort_by_fanout env (nets node) /\
    is_routable node' = acc_is_routable acc /\
    rerouted_nets node' = acc_rerouted acc /\
    virtual_nets node' = virtual_nets node ++ inherited /\
    match left node, right node with
    | Some l, Some r =>
        exists l' r' st3,
          decompose_route_partition_tree_helper env co l (acc_left acc) (level + 1) st2
          = Ok (l', st3) /\
          decompose_route_partition_tree_helper env co r (acc_right acc) (level + 1) st3
          = Ok (r', st') /\
          left node' = Some l' /\ right node' = Some r'
    | None, None => left node' = None /\ right node' = None /\ st' = st2
    | _, _ => False
    end.
Proof.
  destruct node as [ns l r ir rr vn ax p]. simpl. intros Hr.
  apply obind_Ok in Hr as ([acc st1] & Hnets & Hr).
  apply obind_Ok in Hr as (st2 & Hv & Hr).
  exists acc, st1, st2. split; [done|]. split; [done|].
  destruct l as [l|], r as [r|]; try discriminate.
  - apply obind_Ok in Hr as ([l' st3] & Hl & Hr).
    apply obind_Ok in Hr as ([r' st4] & Hrr & [= <- <-]). simpl in *.
    split_and!; try done. by exists l', r', st3.
  - by injection Hr as <- <-.
Qed.

Lemma reduce_partition_tree_helper_spec node : forall results,
  res_is_routable (reduce_partition_tree_helper node results)
  = res_is_routable results && forallb is_routable (tree_nodes node) /\
  res_rerouted_nets (reduce_partition_tree_helper node results)
  = res_rerouted_nets results ++ concat (map rerouted_nets (tree_nodes node)).
Proof.
  induction node as [node IHl IHr] using tree_induction. intros results.
  destruct node as [ns l r ir rr vn ax p]. simpl in *.
  rewrite forallb_app, map_app, concat_app.
  destruct l as [l|], r as [r|]; simpl.
  - destruct (IHl l eq_refl (mk_results (res_is_routable results && ir)
                                        (res_rerouted_nets results ++ rr))) as [Hl1 Hl2].
    destruct (IHr r eq_refl (reduce_partition_tree_helper l
                               (mk_results (res_is_routable results && ir)
                                           (res_rerouted_nets results ++ rr)))) as [-> ->].
    rewrite Hl1, Hl2. simpl. by rewrite !andb_assoc, <- !app_assoc.
  - destruct (IHl l eq_refl (mk_results (res_is_routable results && ir)
                                        (res_rerouted_nets results ++ rr))) as [-> ->].
    simpl. by rewrite !andb_true_r, !app_nil_r, !andb_assoc, <- !app_assoc.
  - destruct (IHr r eq_refl (mk_results (res_is_routable results && ir)
                                        (res_rerouted_nets results ++ rr))) as [-> ->].
    simpl. by rewrite !andb_assoc, <- !app_assoc.
  - by rewrite !andb_true_r, !app_nil_r.
Qed.

(** For a net routed at a node, a result with [success = false] and
    [retry_with_full_bb = false] makes the helper write [is_routable = false]
    on the node it was called on.  A node's flag is decided by the loop over
    its nets alone: the same result for a virtual net sets the retry counter
    of its net to the cap instead. *)
Lemma helper_marks_node node inherited level (st : State R) node' st' :
  decompose_route_partition_tree_helper env co node inherited level st = Ok (node', st') ->
  (forall n acc1 st1 st2,
     reaches_net env co node level st n acc1 st1 ->
     routed_directly env co node level st1 n st2 ->
     success (fst (try_parallel_route_net env co st2 n)) = false ->
     retry_with_full_bb (fst (try_parallel_route_net env co st2 n)) = false ->
     is_routable node' = false) /\
  (exists acc st1,
     route_nets_at_node env co node level (sort_by_fanout env (nets node))
                        (mk_acc true [] [] []) st = Ok (acc, st1) /\
     is_routable node' = acc_is_routable acc) /\
  (forall vnet (sv : State R) flags sv',
     route_virtual_net env co sv vnet = Ok (flags, sv') ->
     success flags = false -> retry_with_full_bb flags = false ->
     route_vnet_at_node env co sv vnet
     = Ok (set_decomp_retries sv'
             (<[vnet_id vnet := MAX_DECOMP_REROUTE]> (decomp_retries sv')))) /\
  (forall results,
     res_is_routable (reduce_partition_tree_helper node' results)
     = res_is_routable results && forallb is_routable (tree_nodes node')) /\
  (is_routable node' = false ->
   forall results,
     res_is_routable (reduce_partition_tree_helper node' results) = false).
Proof.
  intros Hh.
  destruct (helper_node _ _ _ _ _ _ Hh) as (acc & st1 & st2 & Hnets & _ & _ & Hflag & _).
  split_and!.
  - intros n acc1 sn sn' (l1 & l2 & Hsplit & Hl1) Hdirect Hs Hretry.
    rewrite Hflag. rewrite Hsplit, route_nets_at_node_app, Hl1 in Hnets.
    simpl in Hnets. apply obind_Ok in Hnets as ([acc2 sn2] & Hstep & Hrest).
    rewrite (route_net_at_node_direct node level acc1 sn n sn' Hdirect) in Hstep.
    simpl in Hstep. rewrite Hs, Hretry in Hstep. simpl in Hstep.
    injection Hstep as <- _.
    by eapply route_nets_at_node_unroutable.
  - by exists acc, st1.
  - intros vnet sv flags sv' Hv Hs Hretry.
    unfold route_vnet_at_node. rewrite Hv. simpl. by rewrite Hs, Hretry.
  - intros results. apply reduce_partition_tree_helper_spec.
  - intros Hfalse results.
    destruct (reduce_partition_tree_helper_spec node' results) as [-> _].
    destruct node'; simpl in *. rewrite Hfalse. by rewrite andb_false_r.
Qed.

(** The loop over the nets only appends to the node's rerouted nets. *)
Lemma route_net_at_node_rerouted node level acc (st : State R) net_id acc' st' :
  route_net_at_node env co node level acc st net_id = Ok (acc', st') ->
  exists extra, acc_rerouted acc' = acc_rerouted acc ++ extra.
Proof.
  unfold route_net_at_node. intros Hr.
  apply obind_Ok in Hr as (dec & _ & Hr).
  apply obind_Ok in Hr as ([[[l r]|] st1] & _ & Hr).
  - destruct (left node), (right node); try discriminate.
    injection Hr as <- _. by exists [net_id].
  - destruct (try_parallel_route_net env co st1 net_id) as [flags st2].
    injection Hr as <- _. simpl.
    destruct (was_rerouted flags); [by exists [net_id]|].
    exists []. by rewrite app_nil_r.
Qed.

Lemma route_nets_at_node_rerouted node level net_ids : forall acc (st : State R) acc' st',
  route_nets_at_node env co node level net_ids acc st = Ok (acc', st') ->
  exists extra, acc_rerouted acc' = acc_rerouted acc ++ extra.
Proof.
  induction net_ids as [|n rest IH]; intros acc st acc' st'; simpl.
  - intros [= <- _]. exists []. by rewrite app_nil_r.
  - intros Hr. apply obind_Ok in Hr as ([acc1 st1] & Hstep & Hr).
    apply route_net_at_node_rerouted in Hstep as [e1 He1].
    apply IH in Hr as [e2 He2]. simpl in *.
    exists (e1 ++ e2). by rewrite He2, He1, app_assoc.
Qed.

(** C10.  [try_parallel_route_net] answers [success = true] with
    [was_rerouted] left at its initial [false] and the state untouched for a
    net that is fixed, ignored, or needs no rerouting; whenever it calls the
    connection router it answers [was_rerouted = true] whatever the router
    reports, and the dispatcher then appends the net to the node's rerouted
    nets even if routing failed. *)
Theorem try_parallel_route_net_was_rerouted (st : State R) net_id :
  was_rerouted (flags_init env) = false ->
  (is_fixed co (rs st) net_id = true \/
   net_is_ignored env net_id = true \/
   ((budgeting_if_set env && get_should_reroute co (rs st) net_id && wns_nonzero env) = false
    /\ should_route_net co (rs st) net_id = false) ->
   success (fst (try_parallel_route_net env co st net_id)) = true /\
   was_rerouted (fst (try_parallel_route_net env co st net_id)) = false /\
   snd (try_parallel_route_net env co st net_id) = st) /\
  (should_really_route_net env co st net_id = true ->
   was_rerouted (fst (try_parallel_route_net env co st net_id)) = true /\
   success (fst (try_parallel_route_net env co st net_id))
   = success (fst (timing_driven_route_net co (rs st) (route_bb st) net_id)) /\
   retry_with_full_bb (fst (try_parallel_route_net env co st net_id))
   = retry_with_full_bb (fst (timing_driven_route_net co (rs st) (route_bb st) net_id)) /\
   (forall node level acc st0,
      routed_directly env co node level st0 net_id st ->
      exists acc' st',
        route_net_at_node env co node level acc st0 net_id = Ok (acc', st') /\
        acc_rerouted acc' = acc_rerouted acc ++ [net_id]) /\
   (forall node inherited level st0 node' st' acc1 st1,
      decompose_route_partition_tree_helper env co node inherited level st0
      = Ok (node', st') ->
      reaches_net env co node level st0 net_id acc1 st1 ->
      routed_directly env co node level st1 net_id st ->
      net_id ∈ rerouted_nets node')).
Proof.
  intros Hinit. split.
  - intros Hskip%should_really_route_net_skip.
    unfold try_parallel_route_net. rewrite Hskip. simpl. by rewrite Hinit.
  - intros Hroute.
    assert (Hflags : was_rerouted (fst (try_parallel_route_net env co st net_id)) = true /\
              success (fst (try_parallel_route_net env co st net_id))
              = success (fst (timing_driven_route_net co (rs st) (route_bb st) net_id)) /\
              retry_with_full_bb (fst (try_parallel_route_net env co st net_id))
              = retry_with_full_bb
                  (fst (timing_driven_route_net co (rs st) (route_bb st) net_id))).
    { unfold try_parallel_route_net. rewrite Hroute. simpl.
      by destruct (timing_driven_route_net co (rs st) (route_bb st) net_id). }
    destruct Hflags as (Hw & Hs & Hr).
    assert (Hstep : forall node level acc st0,
              routed_directly env co node level st0 net_id st ->
              exists acc' st',
                route_net_at_node env co node level acc st0 net_id = Ok (acc', st') /\
                acc_rerouted acc' = acc_rerouted acc ++ [net_id]).
    { intros node level acc st0 Hd.
      pose proof (route_net_at_node_direct node level acc st0 net_id st Hd) as Hstep.
      simpl in Hstep. rewrite Hw in Hstep. eauto. }
    split_and!; try done.
    intros node inherited level st0 node' st' acc1 st1 Hh (l1 & l2 & Hsplit & Hl1) Hd.
    destruct (helper_node _ _ _ _ _ _ Hh)
      as (acc & sa & sb & Hnets & _ & _ & _ & Hrer & _).
    rewrite Hrer. rewrite Hsplit, route_nets_at_node_app, Hl1 in Hnets.
    simpl in Hnets. apply obind_Ok in Hnets as ([acc2 st2] & Hone & Hrest).
    destruct (Hstep node level acc1 st1 Hd) as (acc2' & st2' & Hone' & Hacc2).
    rewrite Hone' in Hone. injection Hone as -> ->.
    apply route_nets_at_node_rerouted in Hrest as [extra ->]. simpl.
    rewrite Hacc2, !elem_of_app, list_elem_of_singleton. tauto.
Qed.

(** *** The decomposed pair *)

Lemma make_decomposed_pair_spec (st : State R) net_id cutline_pos axis l r :
  make_decomposed_pair env co st net_id cutline_pos axis = Ok (l, r) ->
  l = mk_vnet net_id (clip_to_side (route_bb st net_id) axis cutline_pos LEFT) /\
  r = mk_vnet net_id (clip_to_side (route_bb st net_id) axis cutline_pos RIGHT).
Proof.
  unfold make_decomposed_pair.
  destruct (route_tree co (rs st) net_id) as [tree|]; [|discriminate].
  destruct (which_side env (root_inode tree) cutline_pos axis); simpl;
    by intros [= <- <-].
Qed.


(** *** The sample grid *)

Lemma row_none_insert row : forall (j : nat) v,
  row !! j = Some NONE -> v <> NONE ->
  (row_none (<[j:=v]> row) + 1 = row_none row)%nat.
Proof.
  unfold row_none.
  induction row as [|a row IH]; intros [|j] v Hj Hv; [done..| |].
  - injection Hj as ->. change (<[0%nat:=v]> (NONE :: row)) with (v :: row).
    rewrite filter_cons_False, filter_cons_True by done. simpl. lia.
  - change (<[S j:=v]> (a :: row)) with (a :: <[j:=v]> row).
    specialize (IH j v Hj Hv). rewrite !filter_cons.
    destruct (decide (a = NONE)); simpl; lia.
Qed.

Lemma count_none_alter f samples : forall (i : nat) row,
  samples !! i = Some row ->
  (count_none (alter f i samples) + row_none row
   = count_none samples + row_none (f row))%nat.
Proof.
  unfold count_none.
  induction samples as [|r samples IH]; intros [|i] row Hi; simplify_eq/=.
  - lia.
  - specialize (IH i row Hi). lia.
Qed.

Lemma sample_get_Ok samples x y v :
  sample_get samples x y = Ok v <->
  exists row, samples !! Z.to_nat x = Some row /\ row !! Z.to_nat y = Some v.
Proof.
  unfold sample_get. split.
  - destruct (samples !! Z.to_nat x) as [row|]; [|discriminate].
    destruct (row !! Z.to_nat y) as [w|] eqn:Hy; [|discriminate].
    intros [= ->]. eauto.
  - intros (row & -> & ->). done.
Qed.

Lemma count_none_set samples x y v :
  sample_get samples x y = Ok NONE -> v <> NONE ->
  (count_none (sample_set samples x y v) + 1 = count_none samples)%nat.
Proof.
  intros (row & Hx & Hy)%sample_get_Ok Hv. unfold sample_set.
  pose proof (count_none_alter (fun row => <[Z.to_nat y:=v]> row) samples _ _ Hx).
  pose proof (row_none_insert row _ v Hy Hv). lia.
Qed.

Lemma count_none_zero samples x y v :
  count_none samples = 0%nat -> sample_get samples x y = Ok v -> v <> NONE.
Proof.
  intros Hc (row & Hx & Hy)%sample_get_Ok ->.
  assert (Hrow : (row_none row <= count_none samples)%nat).
  { apply sum_list_with_in. by eapply list_elem_of_lookup_2. }
  assert (Hin : NONE ∈ filter (fun v => v = NONE) row).
  { apply list_elem_of_filter. split; [done|]. by eapply list_elem_of_lookup_2. }
  unfold row_none in Hrow. destruct (filter _ row); [by apply elem_of_nil in Hin|].
  simpl in Hrow. lia.
Qed.

Lemma count_none_replicate (n m : nat) :
  count_none (replicate n (replicate m NONE)) = (n * m)%nat.
Proof.
  assert (Hrow : row_none (replicate m NONE) = m).
  { unfold row_none. induction m as [|m IH]; [done|].
    change (replicate (S m) NONE) with (NONE :: replicate m NONE).
    rewrite filter_cons_True by done. simpl. by rewrite IH. }
  unfold count_none. induction n as [|n IH]; simpl; [done|]. rewrite IH, Hrow. done.
Qed.

Section Grid.

Variable b : Bins.

Lemma grid_wf_get samples x y :
  grid_wf b samples -> in_grid b (x, y) -> exists v, sample_get samples x y = Ok v.
Proof.
  intros [Hlen Hrows] [Hx Hy]. simpl in *.
  destruct (lookup_lt_is_Some_2 samples (Z.to_nat x)) as [row Hrow]; [lia|].
  rewrite list.Forall_forall in Hrows.
  assert (Hr : length row = Z.to_nat (bins_y b))
    by (apply Hrows; by eapply list_elem_of_lookup_2).
  destruct (lookup_lt_is_Some_2 row (Z.to_nat y)) as [v Hv]; [lia|].
  exists v. apply sample_get_Ok. eauto.
Qed.

Lemma grid_wf_set samples x y v :
  grid_wf b samples -> grid_wf b (sample_set samples x y v).
Proof.
  intros [Hlen Hrows]. unfold sample_set. split; [by rewrite length_alter|].
  rewrite list.Forall_forall in Hrows. apply list.Forall_forall.
  intros row [i Hi]%list_elem_of_lookup.
  destruct (decide (i = Z.to_nat x)) as [->|Hne].
  - rewrite list_lookup_alter_eq in Hi.
    destruct (samples !! Z.to_nat x) as [row0|] eqn:Hx; simplify_eq/=.
    rewrite length_insert. apply Hrows. by eapply list_elem_of_lookup_2.
  - rewrite list_lookup_alter_ne in Hi by done.
    apply Hrows. by eapply list_elem_of_lookup_2.
Qed.

Lemma sample_get_set_eq samples x y v :
  grid_wf b samples -> in_grid b (x, y) ->
  sample_get (sample_set samples x y v) x y = Ok v.
Proof.
  intros Hwf Hin. destruct (grid_wf_get _ _ _ Hwf Hin) as [w (row & Hx & Hy)%sample_get_Ok].
  apply sample_get_Ok. exists (<[Z.to_nat y:=v]> row). unfold sample_set. split.
  - by rewrite list_lookup_alter_eq, Hx.
  - apply list_lookup_insert_eq. by eapply lookup_lt_Some.
Qed.

Lemma sample_get_set_ne samples x y v x' y' :
  0 <= x -> 0 <= y -> 0 <= x' -> 0 <= y' -> (x, y) <> (x', y') ->
  sample_get (sample_set samples x y v) x' y' = sample_get samples x' y'.
Proof.
  intros Hx Hy Hx' Hy' Hne. unfold sample_get, sample_set.
  destruct (decide (Z.to_nat x = Z.to_nat x')) as [Hex|Hnx].
  - assert (x = x') as <- by lia.
    rewrite list_lookup_alter_eq.
    destruct (samples !! Z.to_nat x) as [row|]; simpl; [|done].
    rewrite list_lookup_insert_ne; [done|]. intros Hey.
    assert (y = y') by lia. congruence.
  - by rewrite list_lookup_alter_ne.
Qed.

End Grid.

(** *** The two sampling loops refine the specification *)

Section Sampling.

Variables (net_id : NetId) (net_bb : t_bb) (b : Bins).
Hypothesis Hbins : 0 <= bins_x b /\ 0 <= bins_y b /\ bins_x b * bins_y b < 2 ^ 64.

Local Abbreviation bin := (sink_bin env net_id net_bb b).
Local Abbreviation take_first := (take_first_per_bin env net_id net_bb b).

Local Abbreviation sink_ok := (sink_ok env net_id net_bb b).
Local Abbreviation grid_tracks := (grid_tracks b).

Lemma sink_ok_bin isink : sink_ok isink -> in_grid b (bin isink).
Proof. intros (rr & Hrr & Hin). unfold sink_bin. by rewrite Hrr. Qed.

Lemma grid_tracks_full samples taken p :
  grid_tracks samples 0 taken -> in_grid b p -> p ∈ taken.
Proof.
  intros (Hwf & Hc & _ & Hcells) Hin.
  destruct p as [x y]. destruct (grid_wf_get b samples x y Hwf Hin) as [v Hv].
  apply (Hcells (x, y) v Hin Hv). eapply count_none_zero; [|exact Hv]. lia.
Qed.

Lemma take_first_all_taken taken targets :
  (forall t, t ∈ targets -> bin t ∈ taken) -> take_first taken targets = [].
Proof.
  induction targets as [|t rest IH]; intros Hall; simpl; [done|].
  rewrite decide_True by (apply Hall; left).
  apply IH. intros u Hu. apply Hall. by right.
Qed.

(** Marking or sampling the bin [p] keeps the grid in step with the list. *)
Lemma grid_tracks_set samples to_find taken x y v :
  grid_tracks samples to_find taken -> in_grid b (x, y) ->
  sample_get samples x y = Ok NONE -> v <> NONE ->
  grid_tracks (sample_set samples x y v) (to_size_t (to_find - 1)) ((x, y) :: taken).
Proof.
  intros (Hwf & Hc & Hle & Hcells) Hin Hget Hv.
  pose proof (count_none_set samples x y v Hget Hv) as Hcount.
  rewrite to_size_t_small by lia.
  split; [by apply grid_wf_set|]. split; [lia|]. split; [lia|].
  intros [x' y'] w Hin' Hget'. simpl in Hget'.
  destruct (decide ((x, y) = (x', y'))) as [[= <- <-]|Hne].
  - rewrite (sample_get_set_eq b) in Hget' by done. injection Hget' as <-.
    split; [intros _; left|done].
  - destruct Hin as [??], Hin' as [??]. simpl in *.
    rewrite sample_get_set_ne in Hget' by (done || lia).
    rewrite elem_of_cons. rewrite (Hcells (x', y') w); [|done..].
    split; [by right|]. intros [Heq|?]; [by symmetry in Heq|done].
Qed.

Lemma grid_tracks_add samples to_find taken p v :
  grid_tracks samples to_find taken -> in_grid b p ->
  sample_get samples p.1 p.2 = Ok v -> v <> NONE ->
  grid_tracks samples to_find (p :: taken).
Proof.
  intros (Hwf & Hc & Hle & Hcells) Hin Hget Hv.
  split_and!; try done. intros q w Hq Hw. rewrite elem_of_cons.
  rewrite (Hcells q w Hq Hw). split; [by right|].
  intros [->|?]; [|done]. by apply (Hcells p v Hin Hget).
Qed.

Lemma sample_targets_cons t rest samples to_find out :
  sample_targets env net_id net_bb b (t :: rest) samples to_find out
  = if bool_decide (to_find = 0) then Ok out
    else
      do rr_sink <- terminal env net_id t;
      do v <- sample_get samples (bin_of env net_bb b rr_sink).1
                         (bin_of env net_bb b rr_sink).2;
      if bool_decide (v = NONE)
      then sample_targets env net_id net_bb b rest
             (sample_set samples (bin_of env net_bb b rr_sink).1
                         (bin_of env net_bb b rr_sink).2 t)
             (to_size_t (to_find - 1)) (out ++ [t])
      else sample_targets env net_id net_bb b rest samples to_find out.
Proof.
  simpl. case_bool_decide; [done|].
  destruct (terminal env net_id t) as [rr| | |]; simpl; [|done..].
  by destruct (bin_of env net_bb b rr).
Qed.

Lemma take_first_cons taken t rest :
  take_first taken (t :: rest)
  = if decide (bin t ∈ taken) then take_first taken rest
    else t :: take_first (bin t :: taken) rest.
Proof. done. Qed.

(** The second loop returns [out] followed by the first unrouted sink of every
    bin that is not yet satisfied. *)
Lemma sample_targets_spec targets : forall samples to_find taken out,
  grid_tracks samples to_find taken ->
  Forall sink_ok targets -> Forall (fun i => i <> NONE) targets ->
  sample_targets env net_id net_bb b targets samples to_find out
  = Ok (out ++ take_first taken targets) /\
  Z.of_nat (length (take_first taken targets)) <= to_find.
Proof.
  induction targets as [|t rest IH]; intros samples to_find taken out Hg Hok Hnz.
  { simpl. rewrite app_nil_r. split; [done|]. destruct Hg as (_ & <- & _). lia. }
  apply Forall_cons in Hok as [Ht Hok]. apply Forall_cons in Hnz as [Htnz Hnz].
  rewrite sample_targets_cons. case_bool_decide as Hz.
  - subst to_find. rewrite take_first_all_taken.
    + by rewrite app_nil_r.
    + intros u Hu. apply (grid_tracks_full samples); [done|].
      apply sink_ok_bin. rewrite list.Forall_forall in Hok.
      apply elem_of_cons in Hu as [->|Hu]; [done|by apply Hok].
  - pose proof (sink_ok_bin t Ht) as Hin.
    destruct Ht as (rr & Hrr & _).
    assert (Hbint : bin t = bin_of env net_bb b rr) by (unfold sink_bin; by rewrite Hrr).
    rewrite take_first_cons, Hbint. rewrite Hbint in Hin. rewrite Hrr. cbn [obind].
    destruct (bin_of env net_bb b rr) as [x y] eqn:Hbin. cbn [fst snd].
    destruct Hg as (Hwf & Hc & Hle & Hcells).
    destruct (grid_wf_get b samples x y Hwf Hin) as [v Hv]. rewrite Hv. cbn [obind].
    case_bool_decide as Hnone.
    + subst v.
      assert (Hnot : (x, y) ∉ taken).
      { intros Hel. by apply (Hcells (x, y) NONE Hin Hv) in Hel. }
      rewrite decide_False by done.
      destruct (IH (sample_set samples x y t) (to_size_t (to_find - 1))
                   ((x, y) :: taken) (out ++ [t])) as [-> Hlen]; try done.
      { by apply grid_tracks_set. }
      rewrite to_size_t_small in Hlen by lia.
      rewrite <- app_assoc. simpl. split; [done|lia].
    + assert (Hel : (x, y) ∈ taken) by (by apply (Hcells (x, y) v Hin Hv)).
      rewrite decide_True by done. by apply IH.
Qed.

Lemma mark_reached_cons r rest samples to_find :
  mark_reached env net_id net_bb b (r :: rest) samples to_find
  = if bool_decide (to_find = 0) then Ok None
    else
      do rr_sink <- terminal env net_id r;
      do v <- sample_get samples (bin_of env net_bb b rr_sink).1
                         (bin_of env net_bb b rr_sink).2;
      if bool_decide (v <> REACHED)
      then mark_reached env net_id net_bb b rest
             (sample_set samples (bin_of env net_bb b rr_sink).1
                         (bin_of env net_bb b rr_sink).2 REACHED)
             (to_size_t (to_find - 1))
      else mark_reached env net_id net_bb b rest samples to_find.
Proof.
  simpl. case_bool_decide; [done|].
  destruct (terminal env net_id r) as [rr| | |]; simpl; [|done..].
  by destruct (bin_of env net_bb b rr).
Qed.

(** The first loop either finds every bin already reached, or leaves a grid
    that tracks the bins of the reached sinks. *)
Lemma mark_reached_spec reached : forall samples to_find done_,
  grid_tracks samples to_find (bin <$> done_) ->
  (forall p v, in_grid b p -> sample_get samples p.1 p.2 = Ok v ->
               v = NONE \/ v = REACHED) ->
  Forall sink_ok reached ->
  (mark_reached env net_id net_bb b reached samples to_find = Ok None /\
   forall p, in_grid b p -> p ∈ bin <$> (done_ ++ reached)) \/
  (exists samples' to_find',
     mark_reached env net_id net_bb b reached samples to_find
     = Ok (Some (samples', to_find')) /\
     grid_tracks samples' to_find' (bin <$> (done_ ++ reached))).
Proof.
  induction reached as [|r rest IH]; intros samples to_find done_ Hg Hshape Hok.
  { right. exists samples, to_find. by rewrite app_nil_r. }
  apply Forall_cons in Hok as [Hr Hok].
  rewrite mark_reached_cons. case_bool_decide as Hz.
  - left. split; [done|]. subst to_find. intros p Hp.
    rewrite fmap_app, elem_of_app. left. by eapply grid_tracks_full.
  - pose proof (sink_ok_bin r Hr) as Hin.
    destruct Hr as (rr & Hrr & _).
    assert (Hbinr : bin r = bin_of env net_bb b rr) by (unfold sink_bin; by rewrite Hrr).
    rewrite Hbinr in Hin. rewrite Hrr. cbn [obind].
    destruct (bin_of env net_bb b rr) as [x y] eqn:Hbin. cbn [fst snd].
    destruct (grid_wf_get b samples x y (proj1 Hg) Hin) as [v Hv]. rewrite Hv.
    cbn [obind].
    replace (done_ ++ r :: rest) with ((done_ ++ [r]) ++ rest)
      by (by rewrite <- app_assoc).
    assert (Hperm : forall samples1 tf1,
              grid_tracks samples1 tf1 ((x, y) :: (bin <$> done_)) ->
              grid_tracks samples1 tf1 (bin <$> (done_ ++ [r]))).
    { intros samples1 tf1 (Hwf & Hc & Hle & Hcells). split_and!; try done.
      intros q w Hq Hw. rewrite (Hcells q w Hq Hw).
      rewrite fmap_app, elem_of_app, elem_of_cons. simpl.
      rewrite Hbinr, list_elem_of_singleton. tauto. }
    case_bool_decide as Hreached.
    + assert (v = NONE) as -> by (destruct (Hshape (x, y) v Hin Hv); done).
      apply IH; [|..|done].
      * apply Hperm. by apply grid_tracks_set.
      * intros [x' y'] w Hq Hw. simpl in Hw.
        destruct (decide ((x, y) = (x', y'))) as [[= <- <-]|Hne].
        -- rewrite (sample_get_set_eq b) in Hw by (done || apply Hg).
           injection Hw as <-. by right.
        -- destruct Hin as [??], Hq as [??]. simpl in *.
           rewrite sample_get_set_ne in Hw by (done || lia).
           by apply (Hshape (x', y')).
    + apply IH; [|done..].
      apply Hperm.
      apply (grid_tracks_add samples to_find _ (x, y) v); try done.
      by subst v.
Qed.

(** What the specification selects. *)
Lemma take_first_sublist targets : forall taken,
  take_first taken targets `sublist_of` targets.
Proof.
  induction targets as [|t rest IH]; intros taken; [done|].
  rewrite take_first_cons. case_decide.
  - by apply sublist_cons.
  - by apply sublist_skip.
Qed.

Lemma take_first_fresh targets : forall taken s,
  s ∈ take_first taken targets -> bin s ∉ taken.
Proof.
  induction targets as [|t rest IH]; intros taken s; [by intros ?%elem_of_nil|].
  rewrite take_first_cons. case_decide as Ht.
  - apply IH.
  - intros [->|Hs]%elem_of_cons; [done|].
    apply IH in Hs. by apply not_elem_of_cons in Hs as [_ ?].
Qed.

Lemma take_first_NoDup targets : forall taken,
  NoDup (bin <$> take_first taken targets).
Proof.
  induction targets as [|t rest IH]; intros taken; [constructor|].
  rewrite take_first_cons. case_decide as Ht; [apply IH|].
  rewrite fmap_cons. constructor; [|apply IH].
  intros (s & Hbs & Hs)%list_elem_of_fmap.
  apply take_first_fresh in Hs. apply Hs. rewrite <- Hbs. left.
Qed.

(** Every unsatisfied bin that holds an unrouted sink gets the first unrouted
    sink that falls into it. *)
Lemma take_first_first targets : forall taken t,
  t ∈ targets -> bin t ∉ taken ->
  exists s l1 l2,
    s ∈ take_first taken targets /\ bin s = bin t /\
    targets = l1 ++ s :: l2 /\ forall u, u ∈ l1 -> bin u <> bin s.
Proof.
  induction targets as [|a rest IH]; intros taken t Ht Hfresh;
    [by apply elem_of_nil in Ht|].
  rewrite take_first_cons. case_decide as Ha.
  - apply elem_of_cons in Ht as [->|Ht]; [done|].
    destruct (IH taken t Ht Hfresh) as (s & l1 & l2 & Hs & Hb & -> & Hl1).
    exists s, (a :: l1), l2. split_and!; try done.
    intros u [->|Hu]%elem_of_cons; [|by apply Hl1]. congruence.
  - destruct (decide (bin a = bin t)) as [Heq|Hne].
    + exists a, [], rest. split_and!; try done; [left|].
      intros u Hu. by apply elem_of_nil in Hu.
    + apply elem_of_cons in Ht as [->|Ht]; [done|].
      destruct (IH (bin a :: taken) t Ht) as (s & l1 & l2 & Hs & Hb & -> & Hl1).
      { apply not_elem_of_cons. split; [congruence|done]. }
      exists s, (a :: l1), l2. split_and!; try done; [by right|].
      intros u [->|Hu]%elem_of_cons; [|by apply Hl1]. congruence.
Qed.

(** [get_decomposition_isinks] computes what the specification selects. *)
Lemma get_decomposition_isinks_refines (st : State R) tree targets :
  net_bb = route_bb st net_id ->
  route_tree co (rs st) net_id = Some tree ->
  sampling_bins net_bb = Some b ->
  Forall sink_ok (reached_isinks tree) ->
  Forall sink_ok targets -> Forall (fun i => i <> NONE) targets ->
  get_decomposition_isinks env co st net_id targets
  = Ok (skeleton_sinks_spec env net_id net_bb b (reached_isinks tree) targets) /\
  Z.of_nat (length (skeleton_sinks_spec env net_id net_bb b (reached_isinks tree) targets))
  <= bins_x b * bins_y b.
Proof.
  intros Hbb Htree Hsb Hreached Htargets Hnz.
  unfold get_decomposition_isinks, skeleton_sinks_spec.
  rewrite Htree, <- Hbb, Hsb.
  destruct Hbins as (Hbx & Hby & Hcells).
  rewrite to_size_t_small by nia.
  assert (Hinit : grid_tracks
            (replicate (Z.to_nat (bins_x b)) (replicate (Z.to_nat (bins_y b)) NONE))
            (bins_x b * bins_y b) (bin <$> [])).
  { split_and!.
    - split; [by rewrite length_replicate|].
      apply Forall_replicate. by rewrite length_replicate.
    - rewrite count_none_replicate. lia.
    - lia.
    - intros p v _ (row & Hrow & Hv)%sample_get_Ok.
      apply lookup_replicate in Hrow as [-> _]. apply lookup_replicate in Hv as [-> _].
      split; [done|]. by intros ?%elem_of_nil. }
  destruct (mark_reached_spec (reached_isinks tree) _ _ [] Hinit)
    as [[-> Hall]|(samples' & to_find' & -> & Hg)]; [|done| |].
  - intros p v _ (row & Hrow & Hv)%sample_get_Ok.
    apply lookup_replicate in Hrow as [-> _]. apply lookup_replicate in Hv as [-> _].
    by left.
  - simpl. rewrite take_first_all_taken.
    + split; [done|simpl; nia].
    + intros t Ht. apply Hall. apply sink_ok_bin.
      rewrite list.Forall_forall in Htargets. by apply Htargets.
  - simpl in *.
    destruct (sample_targets_spec targets samples' to_find'
                (bin <$> reached_isinks tree) [] Hg Htargets Hnz) as [-> Hlen].
    simpl. split; [done|]. destruct Hg as (_ & _ & Hle & _). lia.
Qed.

End Sampling.

Lemma bin_index_bound V q :
  5 <= V -> 0 <= q < V -> 0 <= q / (V / (V / 5) + 1) < V / 5.
Proof.
  intros HV Hq.
  assert (HB : 1 <= V / 5) by (apply Z.div_le_lower_bound; lia).
  assert (Hd : 0 <= V / (V / 5)) by (apply Z.div_pos; lia).
  split; [apply Z.div_pos; lia|].
  apply Z.div_lt_upper_bound; [lia|].
  pose proof (Z.div_mod V (V / 5) ltac:(lia)).
  pose proof (Z.mod_pos_bound V (V / 5) ltac:(lia)). nia.
Qed.

Lemma sampling_bins_sane bb :
  5 <= xmax bb - xmin bb + 1 < 2 ^ 31 -> 5 <= ymax bb - ymin bb + 1 < 2 ^ 31 ->
  sampling_bins bb
  = Some (mk_bins ((xmax bb - xmin bb + 1) / 5) ((ymax bb - ymin bb + 1) / 5)
                  ((xmax bb - xmin bb + 1) / ((xmax bb - xmin bb + 1) / 5) + 1)
                  ((ymax bb - ymin bb + 1) / ((ymax bb - ymin bb + 1) / 5) + 1)).
Proof.
  intros HW HH. unfold sampling_bins, MIN_DECOMP_BIN_WIDTH.
  remember (xmax bb - xmin bb + 1) as W eqn:HeqW.
  remember (ymax bb - ymin bb + 1) as H eqn:HeqH.
  rewrite !(to_size_t_small W), !(to_size_t_small H) by lia.
  assert (1 <= W / 5) by (apply Z.div_le_lower_bound; lia).
  assert (1 <= H / 5) by (apply Z.div_le_lower_bound; lia).
  rewrite !bool_decide_eq_false_2 by lia. simpl.
  assert (0 <= W / (W / 5) <= W).
  { split; [apply Z.div_pos; lia|]. apply Z.div_le_upper_bound; [lia|nia]. }
  assert (0 <= H / (H / 5) <= H).
  { split; [apply Z.div_pos; lia|]. apply Z.div_le_upper_bound; [lia|nia]. }
  by rewrite !to_size_t_small by lia.
Qed.

Lemma valid_sink_ok net_id bb isink :
  5 <= xmax bb - xmin bb + 1 < 2 ^ 31 -> 5 <= ymax bb - ymin bb + 1 < 2 ^ 31 ->
  valid_sink env net_id bb isink = true ->
  sink_ok env net_id bb
    (mk_bins ((xmax bb - xmin bb + 1) / 5) ((ymax bb - ymin bb + 1) / 5)
             ((xmax bb - xmin bb + 1) / ((xmax bb - xmin bb + 1) / 5) + 1)
             ((ymax bb - ymin bb + 1) / ((ymax bb - ymin bb + 1) / 5) + 1)) isink
  /\ isink <> NONE.
Proof.
  intros HW HH. unfold valid_sink, sink_ok, terminal.
  rewrite andb_true_iff, bool_decide_eq_true. intros [Hpos Hin].
  destruct (net_rr_terminals env net_id !! Z.to_nat isink) as [rr|]; [|discriminate].
  split; [|unfold NONE; lia].
  exists rr. rewrite bool_decide_eq_false_2 by lia. split; [done|].
  unfold inside_bb in Hin. rewrite andb_true_iff, !bool_decide_eq_true in Hin.
  destruct Hin as [Hx Hy]. unfold in_grid, bin_of. simpl.
  rewrite !to_size_t_small by lia.
  split; apply bin_index_bound; lia.
Qed.

(** For a net whose bbox is at least [MIN_DECOMP_BIN_WIDTH = 5] wide and tall,
    with its reached and unrouted sinks inside the bbox, the sample grid of
    [get_decomposition_isinks] selects one sink per bin index it computes,
    the first of the unrouted sinks with that index. *)
Lemma get_decomposition_isinks_grid (st : State R) net_id tree remaining_targets :
  5 <= xmax (route_bb st net_id) - xmin (route_bb st net_id) + 1 < 2 ^ 31 ->
  5 <= ymax (route_bb st net_id) - ymin (route_bb st net_id) + 1 < 2 ^ 31 ->
  route_tree co (rs st) net_id = Some tree ->
  forallb (valid_sink env net_id (route_bb st net_id)) (reached_isinks tree) = true ->
  forallb (valid_sink env net_id (route_bb st net_id)) remaining_targets = true ->
  exists b out,
    sampling_bins (route_bb st net_id) = Some b /\
    bins_x b = (xmax (route_bb st net_id) - xmin (route_bb st net_id) + 1) / 5 /\
    bins_y b = (ymax (route_bb st net_id) - ymin (route_bb st net_id) + 1) / 5 /\
    get_decomposition_isinks env co st net_id remaining_targets = Ok out /\
    out = skeleton_sinks_spec env net_id (route_bb st net_id) b (reached_isinks tree)
                              remaining_targets /\
    Z.of_nat (length out) <= bins_x b * bins_y b /\
    NoDup (sink_bin env net_id (route_bb st net_id) b <$> out) /\
    out `sublist_of` remaining_targets /\
    (forall s r, s ∈ out -> r ∈ reached_isinks tree ->
       sink_bin env net_id (route_bb st net_id) b s
       <> sink_bin env net_id (route_bb st net_id) b r) /\
    (forall t, t ∈ remaining_targets ->
       (forall r, r ∈ reached_isinks tree ->
          sink_bin env net_id (route_bb st net_id) b r
          <> sink_bin env net_id (route_bb st net_id) b t) ->
       exists s l1 l2,
         s ∈ out /\
         sink_bin env net_id (route_bb st net_id) b s
         = sink_bin env net_id (route_bb st net_id) b t /\
         remaining_targets = l1 ++ s :: l2 /\
         forall u, u ∈ l1 ->
           sink_bin env net_id (route_bb st net_id) b u
           <> sink_bin env net_id (route_bb st net_id) b s) /\
    (forall more_critical : Z -> Z -> Prop,
       StronglySorted more_critical remaining_targets ->
       forall t, t ∈ remaining_targets ->
         (forall r, r ∈ reached_isinks tree ->
            sink_bin env net_id (route_bb st net_id) b r
            <> sink_bin env net_id (route_bb st net_id) b t) ->
         exists s,
           s ∈ out /\
           sink_bin env net_id (route_bb st net_id) b s
           = sink_bin env net_id (route_bb st net_id) b t /\
           (s = t \/ more_critical s t)).
Proof.
  intros HW HH Htree Hreached Htargets.
  set (bb := route_bb st net_id) in *.
  set (b := mk_bins ((xmax bb - xmin bb + 1) / 5) ((ymax bb - ymin bb + 1) / 5)
                    ((xmax bb - xmin bb + 1) / ((xmax bb - xmin bb + 1) / 5) + 1)
                    ((ymax bb - ymin bb + 1) / ((ymax bb - ymin bb + 1) / 5) + 1)).
  assert (Hsb : sampling_bins bb = Some b) by (by apply sampling_bins_sane).
  assert (Hbins : 0 <= bins_x b /\ 0 <= bins_y b /\ bins_x b * bins_y b < 2 ^ 64).
  { simpl.
    assert (0 <= (xmax bb - xmin bb + 1) / 5 < 2 ^ 31)
      by (split; [apply Z.div_pos|apply Z.div_lt_upper_bound]; lia).
    assert (0 <= (ymax bb - ymin bb + 1) / 5 < 2 ^ 31)
      by (split; [apply Z.div_pos|apply Z.div_lt_upper_bound]; lia).
    split_and!; [lia|lia|nia]. }
  assert (Hok : forall l, forallb (valid_sink env net_id bb) l = true ->
                  Forall (sink_ok env net_id bb b) l /\ Forall (fun i => i <> NONE) l).
  { intros l Hl. rewrite forallb_forall in Hl.
    split; apply list.Forall_forall; intros i Hi%list_elem_of_In;
      by apply (valid_sink_ok net_id bb i HW HH), Hl. }
  destruct (Hok _ Hreached) as [Hr _]. destruct (Hok _ Htargets) as [Ht Hnz].
  destruct (get_decomposition_isinks_refines net_id bb b Hbins st tree remaining_targets
              eq_refl Htree Hsb Hr Ht Hnz) as [Hget Hlen].
  exists b, (skeleton_sinks_spec env net_id bb b (reached_isinks tree) remaining_targets).
  unfold skeleton_sinks_spec in *.
  assert (Hfresh : forall s r,
            s ∈ take_first_per_bin env net_id bb b
                  (sink_bin env net_id bb b <$> reached_isinks tree) remaining_targets ->
            r ∈ reached_isinks tree ->
            sink_bin env net_id bb b s <> sink_bin env net_id bb b r).
  { intros s r Hs Hrr Heq. apply take_first_fresh in Hs. apply Hs.
    rewrite Heq. by apply list_elem_of_fmap_2. }
  assert (Hfirst : forall t, t ∈ remaining_targets ->
            (forall r, r ∈ reached_isinks tree ->
               sink_bin env net_id bb b r <> sink_bin env net_id bb b t) ->
            sink_bin env net_id bb b t ∉ (sink_bin env net_id bb b <$> reached_isinks tree)).
  { intros t _ Hnot (r & Hbr & Hrr)%list_elem_of_fmap. by apply (Hnot r). }
  split_and!; try done.
  - apply take_first_NoDup.
  - apply take_first_sublist.
  - intros t Hin Hnot. apply take_first_first; [done|by apply Hfirst].
  - intros more_critical Hsorted t Hin Hnot.
    destruct (take_first_first net_id bb b remaining_targets _ t Hin (Hfirst t Hin Hnot))
      as (s & l1 & l2 & Hs & Hb & Heq & Hl1).
    exists s. split_and!; try done.
    rewrite Heq in Hin, Hsorted.
    apply elem_of_app in Hin as [Hin|Hin]; [by apply Hl1 in Hin|].
    apply elem_of_cons in Hin as [->|Hin]; [by left|]. right.
    apply StronglySorted_app_1_r, StronglySorted_cons in Hsorted as [Hall _].
    rewrite list.Forall_forall in Hall. by apply Hall.
Qed.

End DispatcherProofs.

(** *** The dispatcher on concrete inputs *)

Section DispatcherExamples.

Import RouteParallel Examples.

Local Ltac by_evaluation :=
  vm_compute; repeat split; try first [reflexivity | discriminate | lia].



(** C7 as stated fails: net 0 has exactly
    [max(2 * (3 + 3) - 4, 4) + 2 = 10] sinks, so not more than that many, and
    is found worth decomposing. *)
Lemma sink_threshold_counterexample :
  is_worth_decomposing wide_env wide_state 0%nat 7 X = Ok true /\
  should_decompose_net wide_env wide_state 0%nat 0 7 X = Ok true /\
  net_sinks_size wide_env 0%nat = 10%nat /\
  length (net_rr_terminals wide_env 0%nat) = 11%nat /\
  ~ (10 > Z.max (2 * (15 / 5 + 15 / 5) - 4) 4 + 2).
Proof. by_evaluation. Qed.

Lemma is_worth_decomposing_terminal_threshold_witness :
  is_worth_decomposing wide_env wide_state 0%nat 7 X = Ok true /\
  Z.of_nat (length (net_rr_terminals wide_env 0%nat)) > 10 /\
  Z.of_nat (net_sinks_size wide_env 0%nat) >= 10.
Proof.
  assert (HW : 0 < xmax (route_bb wide_state 0%nat) - xmin (route_bb wide_state 0%nat) + 1
               < 2 ^ 31) by (simpl; lia).
  assert (HH : 0 < ymax (route_bb wide_state 0%nat) - ymin (route_bb wide_state 0%nat) + 1
               < 2 ^ 31) by (simpl; lia).
  assert (Hw : is_worth_decomposing wide_env wide_state 0%nat 7 X = Ok true) by reflexivity.
  split; [exact Hw|].
  destruct (is_worth_decomposing_terminal_threshold wide_env wide_state 0%nat 0 7 X HW HH
              (or_introl Hw)) as [Ht Hs].
  split; [exact Ht|]. exact (Hs eq_refl).
Defined.

(** C8 as stated fails: the connection to the selected skeleton sink 3 fails,
    [route_and_decompose] returns no decomposition, and the retry counter of
    the net is still 0, also after the dispatcher has routed the net at the
    node. *)
Lemma skeleton_failure_keeps_retry_count :
  get_decomposition_isinks wide_env (stub [3] false) wide_state 0%nat (seqZ 1 10)
  = Ok [1; 2; 3; 4; 5; 6] /\
  decomp_retries wide_state 0%nat = 0 /\
  match route_and_decompose wide_env (stub [3] false) wide_state 0%nat wide_root with
  | Ok (None, st') =>
      reached_isinks (rs st' 0%nat) = [1; 2] /\ decomp_retries st' 0%nat = 0
  | _ => False
  end /\
  match route_net_at_node wide_env (stub [3] false) wide_root 0 (mk_acc true [] [] [])
                          wide_state 0%nat with
  | Ok (acc, st') =>
      acc_left acc = [] /\ acc_right acc = [] /\ decomp_retries st' 0%nat = 0
  | _ => False
  end.
Proof. by_evaluation. Qed.

Lemma route_and_decompose_skeleton_failure_witness :
  should_really_route_net wide_env (stub [3] false) wide_state 0%nat = true /\
  exists st3,
    route_and_decompose wide_env (stub [3] false) wide_state 0%nat wide_root
    = Ok (None, st3) /\
    decomp_retries st3 = decomp_retries wide_state.
Proof.
  assert (Hroute : should_really_route_net wide_env (stub [3] false) wide_state 0%nat = true)
    by reflexivity.
  split; [exact Hroute|].
  assert (Hstart : skeleton_start wide_env (stub [3] false) wide_state 0%nat
                     [1; 2; 3; 4; 5; 6] wide_state).
  { exists (wide_unrouted 0%nat). split; [reflexivity|]. split; reflexivity. }
  assert (Hfail : skeleton_fails_at wide_env (stub [3] false) 0%nat [1; 2; 3; 4; 5; 6]
                    wide_state 3
                    (snd (route_skeleton wide_env (stub [3] false) 0%nat [1; 2] wide_state))).
  { exists [1; 2], [4; 5; 6]. split; [reflexivity|]. split; reflexivity. }
  destruct (route_and_decompose_skeleton_failure wide_env (stub [3] false) wide_state 0%nat
              wide_root _ _ _ _ Hroute Hstart Hfail) as (st3 & Hrd & Hdr & _).
  exists st3. split; [exact Hrd|exact Hdr].
Defined.

(** C9 as stated fails for virtual nets: net 0 is decomposed at the root, the
    virtual net of the right child fails on sink 7 with [success = false] and
    [retry_with_full_bb = false], and yet every node, and the iteration, stay
    routable; the retry counter of the net is set to the cap instead. *)
Lemma failed_virtual_net_keeps_node_routable :
  match route_and_decompose wide_env (stub [7] false) wide_state 0%nat wide_root with
  | Ok (Some (l, r), st1) =>
      match route_vnet_at_node wide_env (stub [7] false) st1 l with
      | Ok st2 =>
          match route_virtual_net wide_env (stub [7] false) st2 r with
          | Ok (flags, _) => flags = mk_flags false false false
          | _ => False
          end
      | _ => False
      end
  | _ => False
  end /\
  match decompose_route_partition_tree wide_env (stub [7] false) wide_root wide_state with
  | Ok (res, root', st') =>
      res_is_routable res = true /\
      forallb is_routable (tree_nodes root') = true /\
      (virtual_nets <$> right root') = Some [mk_vnet 0%nat (mk_bb 8 14 0 14)] /\
      decomp_retries st' 0%nat = 5
  | _ => False
  end.
Proof. by_evaluation. Qed.

Lemma try_parallel_route_net_was_rerouted_witness :
  was_rerouted (flags_init wide_env) = false /\
  should_really_route_net wide_env (stub [4] false) wide_state 0%nat = true /\
  was_rerouted (fst (try_parallel_route_net wide_env (stub [4] false) wide_state 0%nat))
  = true /\
  success (fst (try_parallel_route_net wide_env (stub [4] false) wide_state 0%nat)) = false /\
  fst (fst (unwrap (mk_results true [], wide_root, wide_state)
              (decompose_route_partition_tree wide_env (stub [4] false) wide_root
                                              wide_state)))
  = mk_results false [0%nat].
Proof.
  assert (Hinit : was_rerouted (flags_init wide_env) = false) by reflexivity.
  assert (Hroute : should_really_route_net wide_env (stub [4] false) wide_state 0%nat = true)
    by reflexivity.
  split; [exact Hinit|]. split; [exact Hroute|].
  destruct (try_parallel_route_net_was_rerouted wide_env (stub [4] false) wide_state 0%nat
              Hinit) as [_ Hrouted].
  destruct (Hrouted Hroute) as (Hw & _).
  split; [exact Hw|]. split; reflexivity.
Defined.

End DispatcherExamples.
(** ** The lookups and the shape of the built tree *)

Section BuilderFacts.

Import PartitionTree TreeVocabulary TreeShapes CutlineSpec.

Variable route_bb : NetId -> t_bb.
Variable num_sinks : NetId -> nat.

Local Abbreviation build_helper := (build_helper route_bb num_sinks).
Local Abbreviation choose_cutline := (choose_cutline route_bb num_sinks).
Local Abbreviation build_totals := (build_totals route_bb num_sinks).
Local Abbreviation split_nets := (split_nets route_bb).
Local Abbreviation survives := (survives route_bb num_sinks).
Local Abbreviation fanout_where := (fanout_where num_sinks).
Local Abbreviation starts_by := (starts_by route_bb).
Local Abbreviation ends_from := (ends_from route_bb).
Local Abbreviation starts_after := (starts_after route_bb num_sinks).
Local Abbreviation ends_before := (ends_before route_bb num_sinks).
Local Abbreviation inseparable := (inseparable route_bb).
Local Abbreviation total_fanout := (total_fanout num_sinks).
Local Abbreviation weight_before := (weight_before route_bb num_sinks).
Local Abbreviation weight_after := (weight_after route_bb num_sinks).
Local Abbreviation imbalance := (imbalance route_bb num_sinks).
Local Abbreviation one_sided := (one_sided route_bb num_sinks).
Local Abbreviation candidate := (candidate route_bb num_sinks).

(** *** What the lookups hold *)

(** The weight of the nets of the list for which [c] holds. *)
Local Abbreviation weight_where c v net_ids :=
  (foldr (fun n acc => (if c n : bool then v n else 0) + acc) 0 net_ids).

Lemma weight_where_bounds (c : NetId -> bool) (v : NetId -> Z) net_ids :
  (forall n, 0 <= v n) ->
  0 <= weight_where c v net_ids <= foldr (fun n acc => v n + acc) 0 net_ids.
Proof.
  intros Hv. induction net_ids as [|n rest IH]; simpl; [done|].
  specialize (Hv n). destruct (c n); lia.
Qed.

(** As long as the sum of the weights fits an [int], no addition wraps, and
    an entry holds the weight of the nets that cover it. *)
Lemma accumulate_lookup (lo hi v : NetId -> Z) net_ids : forall arr (i : nat),
  (i < length arr)%nat ->
  (forall n, 0 <= v n) ->
  0 <= arr !!! i ->
  arr !!! i + foldr (fun n acc => v n + acc) 0 net_ids <= INT_MAX ->
  accumulate lo hi v arr net_ids !!! i
  = arr !!! i
    + weight_where (fun n => bool_decide (lo n <= Z.of_nat i < hi n)) v net_ids.
Proof.
  unfold accumulate.
  induction net_ids as [|n rest IH]; intros arr i Hi Hv H0 Hmax; simpl; [lia|].
  simpl in Hmax.
  pose proof (weight_where_bounds (fun _ => true) v rest Hv) as [Hrest _].
  pose proof (Hv n) as Hvn.
  assert (Hrest' : 0 <= foldr (fun n acc => v n + acc) 0 rest).
  { pose proof (weight_where_bounds (fun _ => false) v rest Hv). lia. }
  assert (Hstep : add_range (lo n) (hi n) (v n) arr !!! i
                  = arr !!! i + (if bool_decide (lo n <= Z.of_nat i < hi n)
                                 then v n else 0)).
  { rewrite add_range_lookup by done.
    case_bool_decide; [apply wrap_int_small|]; lia. }
  rewrite IH; rewrite ?add_range_length, ?Hstep; try done;
    case_bool_decide; lia.
Qed.

Lemma weight_where_ext (c1 c2 : NetId -> bool) (v : NetId -> Z) net_ids :
  (forall n, n ∈ net_ids -> c1 n = c2 n) ->
  weight_where c1 v net_ids = weight_where c2 v net_ids.
Proof.
  induction net_ids as [|n rest IH]; intros Hc; simpl; [done|].
  rewrite (Hc n) by left. rewrite IH; [done|]. intros m Hm. apply Hc. by right.
Qed.

Lemma fanout_where_weight P net_ids :
  fanout_where P net_ids
  = weight_where P (fun n => Z.of_nat (num_sinks n)) net_ids.
Proof.
  unfold TreeShapes.fanout_where, TreeVocabulary.total_fanout.
  induction net_ids as [|n rest IH]; simpl; [done|].
  destruct (P n); simpl; lia.
Qed.

Lemma weight_where_mono (c1 c2 : NetId -> bool) (v : NetId -> Z) net_ids :
  (forall n, 0 <= v n) ->
  (forall n, n ∈ net_ids -> c1 n = true -> c2 n = true) ->
  weight_where c1 v net_ids <= weight_where c2 v net_ids.
Proof.
  intros Hv. induction net_ids as [|n rest IH]; intros Hc; simpl; [done|].
  assert (weight_where c1 v rest <= weight_where c2 v rest)
    by (apply IH; intros m Hm; apply Hc; by right).
  specialize (Hc n (list_elem_of_here _ _)). specialize (Hv n).
  destruct (c1 n), (c2 n); first [lia | by specialize (Hc eq_refl)].
Qed.

(** The difference of two weights is the weight of the nets the two
    conditions tell apart. *)
Lemma weight_where_diff (c1 c2 : NetId -> bool) (v : NetId -> Z) net_ids :
  (forall n, n ∈ net_ids -> c1 n = true -> c2 n = true) ->
  weight_where c2 v net_ids - weight_where c1 v net_ids
  = weight_where (fun n => c2 n && negb (c1 n)) v net_ids.
Proof.
  induction net_ids as [|n rest IH]; intros Hc; simpl; [done|].
  assert (weight_where c2 v rest - weight_where c1 v rest
          = weight_where (fun n => c2 n && negb (c1 n)) v rest)
    by (apply IH; intros m Hm; apply Hc; by right).
  specialize (Hc n (list_elem_of_here _ _)). cbv beta in *.
  destruct (c1 n), (c2 n); simpl; first [lia | by specialize (Hc eq_refl)].
Qed.

Lemma weight_where_pos (c : NetId -> bool) (v : NetId -> Z) net_ids :
  (forall n, 0 <= v n) ->
  (weight_where c v net_ids <> 0 <-> exists n, n ∈ net_ids /\ c n = true /\ 0 < v n).
Proof.
  intros Hv. induction net_ids as [|n rest IH]; simpl.
  { split; [done|]. intros (n & Hn & _). by apply elem_of_nil in Hn. }
  assert (Hge : 0 <= weight_where c v rest).
  { clear IH. induction rest as [|m rest IH]; simpl; [done|].
    specialize (Hv m). destruct (c m); lia. }
  split.
  - intros Hne. destruct (c n) eqn:Hc.
    + destruct (decide (v n = 0)) as [Hz|Hz].
      * rewrite Hz in Hne. destruct IH as [IH _].
        destruct IH as (m & Hm & ?); [lia|]. exists m. split; [by right|done].
      * exists n. specialize (Hv n). split; [left|]. split; [done|lia].
    + destruct IH as [IH _]. destruct IH as (m & Hm & ?); [lia|].
      exists m. split; [by right|done].
  - intros (m & [->|Hm]%elem_of_cons & Hc & Hpos).
    + rewrite Hc. lia.
    + assert (weight_where c v rest <> 0) by (apply IH; eauto).
      specialize (Hv n). destruct (c n); lia.
Qed.

(** The lookups of [build_totals], read back: entry [i] of a "before" lookup
    is the fanout of the nets that start at or before position [i] of the
    region, entry [i] of an "after" lookup the fanout of the nets that end at
    or after it. *)
Lemma totals_lookup net_ids x1 y1 x2 y2 axis i :
  total_fanout net_ids <= INT_MAX ->
  0 <= i < extent axis x1 y1 x2 y2 ->
  let t := build_totals net_ids x1 y1 x2 y2 in
  before_of axis t !!! Z.to_nat i
  = fanout_where (starts_by axis (base_of axis x1 y1 + i)) net_ids /\
  after_of axis t !!! Z.to_nat i
  = fanout_where (ends_from axis (base_of axis x1 y1 + i)) net_ids.
Proof.
  intros Htot Hi. simpl. unfold PartitionTree.build_totals.
  assert (Hv : forall n : NetId, 0 <= Z.of_nat (num_sinks n)) by (intros; lia).
  destruct (add_net_proj route_bb num_sinks x1 y1 x2 y2 net_ids
              (mk_totals (replicate (Z.to_nat (x2 - x1)) 0) (replicate (Z.to_nat (x2 - x1)) 0)
                         (replicate (Z.to_nat (y2 - y1)) 0) (replicate (Z.to_nat (y2 - y1)) 0)))
    as (Hxb & Hxa & Hyb & Hya).
  simpl in Hxb, Hxa, Hyb, Hya.
  rewrite !fanout_where_weight.
  destruct axis; simpl in *.
  - rewrite Hxb, Hxa. clear Hxb Hxa Hyb Hya.
    rewrite !accumulate_lookup
      by (rewrite ?length_replicate, ?lookup_total_replicate_2; (done || lia)).
    rewrite !lookup_total_replicate_2 by lia. rewrite !Z2Nat.id by lia.
    split; (rewrite Z.add_0_l; apply weight_where_ext; intros n _;
            unfold TreeShapes.starts_by, TreeShapes.ends_from; simpl;
            repeat case_bool_decide; try done; lia).
  - rewrite Hyb, Hya. clear Hxb Hxa Hyb Hya.
    rewrite !accumulate_lookup
      by (rewrite ?length_replicate, ?lookup_total_replicate_2; (done || lia)).
    rewrite !lookup_total_replicate_2 by lia. rewrite !Z2Nat.id by lia.
    split; (rewrite Z.add_0_l; apply weight_where_ext; intros n _;
            unfold TreeShapes.starts_by, TreeShapes.ends_from; simpl;
            repeat case_bool_decide; try done; lia).
Qed.

(** X1.  As long as the fanouts of the candidate nets sum to at most
    [INT_MAX] (so that no entry of the [int] lookups wraps around), after the
    loop over the nets entry [i] of [x_total_before] (of [y_total_before]) is
    the summed fanout of the nets whose bounding box starts at or before
    column (row) [x1 + i] ([y1 + i]), and entry [i] of [x_total_after]
    ([y_total_after]) the summed fanout of the nets whose bounding box ends
    at or after it. *)
Theorem build_totals_prefix_sums net_ids x1 y1 x2 y2 axis i :
  total_fanout net_ids <= INT_MAX ->
  0 <= i < extent axis x1 y1 x2 y2 ->
  before_of axis (build_totals net_ids x1 y1 x2 y2) !!! Z.to_nat i
  = fanout_where (starts_by axis (base_of axis x1 y1 + i)) net_ids /\
  after_of axis (build_totals net_ids x1 y1 x2 y2) !!! Z.to_nat i
  = fanout_where (ends_from axis (base_of axis x1 y1 + i)) net_ids.
Proof. intros Htot Hi. by apply totals_lookup. Qed.

Lemma fanout_where_mono (P Q : NetId -> bool) net_ids :
  (forall n, P n = true -> Q n = true) ->
  0 <= fanout_where P net_ids <= fanout_where Q net_ids.
Proof.
  intros HPQ. rewrite !fanout_where_weight. split.
  - transitivity (weight_where (fun _ => false) (fun n => Z.of_nat (num_sinks n)) net_ids).
    + clear. induction net_ids as [|n rest IH]; simpl; lia.
    + apply (weight_where_mono (fun _ => false) P (fun n => Z.of_nat (num_sinks n)));
        [lia|done].
  - apply weight_where_mono; [lia|auto].
Qed.

(** X2.  As long as the fanouts of the candidate nets sum to at most
    [INT_MAX], a "before" lookup never decreases and an "after" lookup never
    increases along its axis, and no entry is negative; so the entries the
    scan reads as [max_x_before = x_total_before[W - 1]] and
    [max_x_after = x_total_after[0]] (and their Y counterparts) are the
    largest of their lookups. *)
Theorem build_totals_monotone net_ids x1 y1 x2 y2 axis i j :
  total_fanout net_ids <= INT_MAX ->
  0 <= i -> i <= j -> j < extent axis x1 y1 x2 y2 ->
  let t := build_totals net_ids x1 y1 x2 y2 in
  0 <= before_of axis t !!! Z.to_nat i <= before_of axis t !!! Z.to_nat j /\
  0 <= after_of axis t !!! Z.to_nat j <= after_of axis t !!! Z.to_nat i /\
  before_of axis t !!! Z.to_nat j
    <= before_of axis t !!! Z.to_nat (extent axis x1 y1 x2 y2 - 1) /\
  after_of axis t !!! Z.to_nat i <= after_of axis t !!! 0%nat.
Proof.
  intros Htot H0 Hij Hj. simpl.
  destruct (totals_lookup net_ids x1 y1 x2 y2 axis i) as [Hbi Hai]; [done|lia|].
  destruct (totals_lookup net_ids x1 y1 x2 y2 axis j) as [Hbj Haj]; [done|lia|].
  destruct (totals_lookup net_ids x1 y1 x2 y2 axis (extent axis x1 y1 x2 y2 - 1))
    as [Hbm _]; [done|lia|].
  destruct (totals_lookup net_ids x1 y1 x2 y2 axis 0) as [_ Ha0]; [done|lia|].
  simpl in *. change (Z.to_nat 0) with 0%nat in Ha0.
  rewrite Hbi, Hai, Hbj, Haj, Hbm, Ha0.
  split; [|split; [|split]].
  1,2: apply fanout_where_mono.
  3,4: eapply proj2, fanout_where_mono.
  all: unfold TreeShapes.starts_by, TreeShapes.ends_from; intros n;
    rewrite !bool_decide_eq_true; lia.
Qed.

Lemma before_gap net_ids x1 y1 x2 y2 axis i :
  total_fanout net_ids <= INT_MAX ->
  0 <= i < extent axis x1 y1 x2 y2 ->
  let t := build_totals net_ids x1 y1 x2 y2 in
  before_of axis t !!! Z.to_nat i
    <> before_of axis t !!! Z.to_nat (extent axis x1 y1 x2 y2 - 1) <->
  exists n, n ∈ net_ids /\
    starts_after axis (base_of axis x1 y1 + i)
                 (base_of axis x1 y1 + extent axis x1 y1 x2 y2) n = true.
Proof.
  intros Htot Hi. simpl.
  destruct (totals_lookup net_ids x1 y1 x2 y2 axis i) as [-> _]; [done|lia|].
  destruct (totals_lookup net_ids x1 y1 x2 y2 axis (extent axis x1 y1 x2 y2 - 1))
    as [-> _]; [done|lia|].
  rewrite !fanout_where_weight.
  pose (f := fun n : NetId => Z.of_nat (num_sinks n)).
  assert (Hf : forall n, 0 <= f n) by (intros; unfold f; lia).
  pose proof (weight_where_diff
                (starts_by axis (base_of axis x1 y1 + i))
                (starts_by axis (base_of axis x1 y1 + (extent axis x1 y1 x2 y2 - 1)))
                f net_ids) as Hd.
  cbv beta in Hd.
  assert (Hgap : forall n,
            (starts_by axis (base_of axis x1 y1 + (extent axis x1 y1 x2 y2 - 1)) n
             && negb (starts_by axis (base_of axis x1 y1 + i) n) = true /\ 0 < f n)
            <-> starts_after axis (base_of axis x1 y1 + i)
                  (base_of axis x1 y1 + extent axis x1 y1 x2 y2) n = true).
  { intros n. unfold TreeShapes.starts_by, TreeShapes.starts_after, f.
    rewrite !andb_true_iff, negb_true_iff, !bool_decide_eq_true, bool_decide_eq_false.
    lia. }
  assert (Hsub : forall n, n ∈ net_ids ->
            starts_by axis (base_of axis x1 y1 + i) n = true ->
            starts_by axis (base_of axis x1 y1 + (extent axis x1 y1 x2 y2 - 1)) n = true).
  { unfold TreeShapes.starts_by. intros n _. rewrite !bool_decide_eq_true. lia. }
  specialize (Hd Hsub). unfold f in Hd. cbv beta in Hd.
  split.
  - intros Hne.
    destruct (proj1 (weight_where_pos
                       (fun n => starts_by axis (base_of axis x1 y1
                                                 + (extent axis x1 y1 x2 y2 - 1)) n
                                 && negb (starts_by axis (base_of axis x1 y1 + i) n))
                       f net_ids Hf)) as (n & Hn & Hc & Hpos); [unfold f; cbv beta; lia|].
    exists n. split; [done|]. by apply Hgap.
  - intros (n & Hn & Hs). apply Hgap in Hs as [Hc Hpos].
    assert (weight_where
              (fun n => starts_by axis (base_of axis x1 y1
                                        + (extent axis x1 y1 x2 y2 - 1)) n
                        && negb (starts_by axis (base_of axis x1 y1 + i) n))
              f net_ids <> 0) as Hw
      by (apply weight_where_pos; [done|]; exists n; done).
    unfold f in Hw. cbv beta in Hw. lia.
Qed.

Lemma after_gap net_ids x1 y1 x2 y2 axis i :
  total_fanout net_ids <= INT_MAX ->
  0 <= i < extent axis x1 y1 x2 y2 ->
  let t := build_totals net_ids x1 y1 x2 y2 in
  after_of axis t !!! Z.to_nat i <> after_of axis t !!! 0%nat <->
  exists n, n ∈ net_ids /\
    ends_before axis (base_of axis x1 y1) (base_of axis x1 y1 + i) n = true.
Proof.
  intros Htot Hi. simpl.
  destruct (totals_lookup net_ids x1 y1 x2 y2 axis i) as [_ ->]; [done|lia|].
  destruct (totals_lookup net_ids x1 y1 x2 y2 axis 0) as [_ Ha0]; [done|lia|].
  simpl in Ha0. change (Z.to_nat 0) with 0%nat in Ha0. rewrite Ha0.
  rewrite !fanout_where_weight.
  pose (f := fun n : NetId => Z.of_nat (num_sinks n)).
  assert (Hf : forall n, 0 <= f n) by (intros; unfold f; lia).
  pose proof (weight_where_diff
                (ends_from axis (base_of axis x1 y1 + i))
                (ends_from axis (base_of axis x1 y1 + 0))
                f net_ids) as Hd.
  cbv beta in Hd.
  assert (Hsub : forall n, n ∈ net_ids ->
            ends_from axis (base_of axis x1 y1 + i) n = true ->
            ends_from axis (base_of axis x1 y1 + 0) n = true).
  { unfold TreeShapes.ends_from. intros n _. rewrite !bool_decide_eq_true. lia. }
  specialize (Hd Hsub). unfold f in Hd. cbv beta in Hd.
  assert (Hgap : forall n,
            (ends_from axis (base_of axis x1 y1 + 0) n
             && negb (ends_from axis (base_of axis x1 y1 + i) n) = true /\ 0 < f n)
            <-> ends_before axis (base_of axis x1 y1) (base_of axis x1 y1 + i) n = true).
  { intros n. unfold TreeShapes.ends_from, TreeShapes.ends_before, f.
    rewrite !andb_true_iff, negb_true_iff, !bool_decide_eq_true, bool_decide_eq_false.
    lia. }
  split.
  - intros Hne.
    destruct (proj1 (weight_where_pos
                       (fun n => ends_from axis (base_of axis x1 y1 + 0) n
                                 && negb (ends_from axis (base_of axis x1 y1 + i) n))
                       f net_ids Hf)) as (n & Hn & Hc & Hpos); [unfold f; cbv beta; lia|].
    exists n. split; [done|]. by apply Hgap.
  - intros (n & Hn & Hs). apply Hgap in Hs as [Hc Hpos].
    assert (weight_where
              (fun n => ends_from axis (base_of axis x1 y1 + 0) n
                        && negb (ends_from axis (base_of axis x1 y1 + i) n))
              f net_ids <> 0) as Hw
      by (apply weight_where_pos; [done|]; exists n; done).
    unfold f in Hw. cbv beta in Hw. lia.
Qed.

(** X3.  As long as the fanouts of the candidate nets sum to at most
    [INT_MAX], the scan keeps position [i] of an axis exactly when some net
    with at least one sink starts strictly after it inside the region and
    some net with at least one sink ends strictly before it inside the
    region; the comparison with the two maxima rejects every other
    position. *)
Theorem survives_iff_nets_on_both_sides net_ids x1 y1 x2 y2 axis i :
  total_fanout net_ids <= INT_MAX ->
  survives net_ids x1 y1 x2 y2 axis i = true <->
  0 <= i < extent axis x1 y1 x2 y2 /\
  (exists n, n ∈ net_ids /\
     starts_after axis (base_of axis x1 y1 + i)
                  (base_of axis x1 y1 + extent axis x1 y1 x2 y2) n = true) /\
  (exists n, n ∈ net_ids /\
     ends_before axis (base_of axis x1 y1) (base_of axis x1 y1 + i) n = true).
Proof.
  intros Htot. rewrite survives_iff. unfold rejected.
  rewrite orb_false_iff, !bool_decide_eq_false.
  split; intros [Hi [Hb Ha]]; (split; [done|]).
  - split; [exact (proj1 (before_gap net_ids x1 y1 x2 y2 axis i Htot Hi) Hb)
           |exact (proj1 (after_gap net_ids x1 y1 x2 y2 axis i Htot Hi) Ha)].
  - split; [exact (proj2 (before_gap net_ids x1 y1 x2 y2 axis i Htot Hi) Hb)
           |exact (proj2 (after_gap net_ids x1 y1 x2 y2 axis i Htot Hi) Ha)].
Qed.

(** *** Cutline selection *)

(** The lookups, read at a device coordinate of the region. *)
Lemma totals_spec net_ids x1 y1 x2 y2 axis c :
  total_fanout net_ids <= INT_MAX ->
  first_pos axis x1 y1 <= c < end_pos axis x2 y2 ->
  let t := build_totals net_ids x1 y1 x2 y2 in
  before_of axis t !!! Z.to_nat (c - first_pos axis x1 y1) = weight_before axis net_ids c /\
  after_of axis t !!! Z.to_nat (c - first_pos axis x1 y1) = weight_after axis net_ids c.
Proof.
  intros Htot Hc. simpl.
  destruct (totals_lookup net_ids x1 y1 x2 y2 axis (c - first_pos axis x1 y1))
    as [-> ->]; [done|destruct axis; simpl in *; lia|].
  rewrite !fanout_where_weight.
  replace (base_of axis x1 y1 + (c - first_pos axis x1 y1)) with c
    by (destruct axis; simpl; lia).
  unfold CutlineSpec.weight_before, CutlineSpec.weight_after.
  split; apply weight_where_ext; intros n _;
    unfold TreeShapes.starts_by, TreeShapes.ends_from, bb_lo, bb_hi, bb_min, bb_max;
    destruct axis; repeat case_bool_decide; (done || lia).
Qed.

Lemma imbalance_bound net_ids axis c :
  imbalance axis net_ids c <= total_fanout net_ids.
Proof.
  unfold CutlineSpec.imbalance, CutlineSpec.weight_before, CutlineSpec.weight_after.
  assert (Hv : forall n : NetId, 0 <= Z.of_nat (num_sinks n)) by (intros; lia).
  pose proof (weight_where_bounds
                (fun n => bool_decide (bb_lo axis (route_bb n) <= c))
                (fun n => Z.of_nat (num_sinks n)) net_ids Hv) as Hb.
  pose proof (weight_where_bounds
                (fun n => bool_decide (bb_hi axis (route_bb n) + 1 > c))
                (fun n => Z.of_nat (num_sinks n)) net_ids Hv) as Ha.
  unfold TreeVocabulary.total_fanout. cbv beta in *. lia.
Qed.

(** A position is a candidate of the specification exactly when the scan of
    the builder does not reject it, and its score is the imbalance there. *)
Lemma candidate_survives net_ids x1 y1 x2 y2 axis c :
  total_fanout net_ids <= INT_MAX ->
  candidate axis net_ids x1 y1 x2 y2 c
  = survives net_ids x1 y1 x2 y2 axis (c - first_pos axis x1 y1) /\
  (first_pos axis x1 y1 <= c < end_pos axis x2 y2 ->
   let t := build_totals net_ids x1 y1 x2 y2 in
   rejected (before_of axis t) (after_of axis t) (extent axis x1 y1 x2 y2)
            (c - first_pos axis x1 y1)
   = one_sided axis net_ids x1 y1 x2 y2 c /\
   cut_score route_bb num_sinks net_ids x1 y1 x2 y2 axis (c - first_pos axis x1 y1)
   = imbalance axis net_ids c).
Proof.
  intros Htot.
  assert (Hin : first_pos axis x1 y1 <= c < end_pos axis x2 y2 ->
    let t := build_totals net_ids x1 y1 x2 y2 in
    rejected (before_of axis t) (after_of axis t) (extent axis x1 y1 x2 y2)
             (c - first_pos axis x1 y1)
    = one_sided axis net_ids x1 y1 x2 y2 c /\
    cut_score route_bb num_sinks net_ids x1 y1 x2 y2 axis (c - first_pos axis x1 y1)
    = imbalance axis net_ids c).
  { intros Hc. simpl.
    destruct (totals_spec net_ids x1 y1 x2 y2 axis c Htot Hc) as [Hb Ha].
    destruct (totals_spec net_ids x1 y1 x2 y2 axis (end_pos axis x2 y2 - 1) Htot)
      as [Hbm _]; [lia|].
    destruct (totals_spec net_ids x1 y1 x2 y2 axis (first_pos axis x1 y1) Htot)
      as [_ Ha0]; [lia|].
    simpl in *. rewrite Z.sub_diag in Ha0. change (Z.to_nat 0) with 0%nat in Ha0.
    replace (end_pos axis x2 y2 - 1 - first_pos axis x1 y1)
      with (extent axis x1 y1 x2 y2 - 1) in Hbm by (destruct axis; simpl; lia).
    unfold rejected, CutlineSpec.one_sided, TreeVocabulary.cut_score, score,
      CutlineSpec.imbalance.
    by rewrite Hb, Ha, Hbm, Ha0. }
  split; [|done].
  unfold CutlineSpec.candidate, TreeVocabulary.survives.
  destruct (decide (first_pos axis x1 y1 <= c < end_pos axis x2 y2)) as [Hc|Hc].
  - destruct (Hin Hc) as [-> _].
    rewrite !bool_decide_eq_true_2; [done|destruct axis; simpl in *; lia|done].
  - rewrite !bool_decide_eq_false_2; [done|destruct axis; simpl in *; lia|done].
Qed.

(** C6.  As long as the fanouts of the candidate nets sum to less than
    [INT_MAX], the lookups hold the fanout sums of the specification
    ([before[c]] the fanout of the nets with [bb.min <= c], [after[c]] the
    fanout of the nets with [bb.max + 1 > c]), a position's score is
    [|before - after|], and a position is rejected exactly when
    [before == max_before] or [after == max_after].  If no position of either
    axis survives, [best_pos] stays [-1] and the builder returns a node with
    all candidate nets, no child and no cutline.  Otherwise the chosen
    [(axis, pos)] survives, its score is the smallest [|before - after|] of
    all surviving positions, and every surviving position scanned earlier (X
    before Y, lower positions first) has a strictly larger one. *)
Theorem choose_cutline_first_minimum net_ids x1 y1 x2 y2 :
  0 <= x1 -> 0 <= y1 -> total_fanout net_ids < INT_MAX ->
  let b := choose_cutline net_ids x1 y1 x2 y2 in
  let t := build_totals net_ids x1 y1 x2 y2 in
  (forall a c, first_pos a x1 y1 <= c < end_pos a x2 y2 ->
     before_of a t !!! Z.to_nat (c - first_pos a x1 y1) = weight_before a net_ids c /\
     after_of a t !!! Z.to_nat (c - first_pos a x1 y1) = weight_after a net_ids c /\
     score (before_of a t) (after_of a t) (c - first_pos a x1 y1)
     = Z.abs (weight_before a net_ids c - weight_after a net_ids c) /\
     rejected (before_of a t) (after_of a t) (end_pos a x2 y2 - first_pos a x1 y1)
              (c - first_pos a x1 y1)
     = one_sided a net_ids x1 y1 x2 y2 c) /\
  ((forall a c, candidate a net_ids x1 y1 x2 y2 c = false) ->
     best_pos b = -1 /\
     (net_ids <> [] -> x2 - x1 > 0 -> y2 - y1 > 0 -> forall fuel,
        build_helper (S fuel) net_ids x1 y1 x2 y2
        = Ok (Some (mk_node net_ids None None false [] [] X (-1))))) /\
  ((exists a c, candidate a net_ids x1 y1 x2 y2 c = true) ->
     candidate (best_axis b) net_ids x1 y1 x2 y2 (best_pos b) = true /\
     best_pos b <> -1 /\
     best_score b
     = Z.abs (weight_before (best_axis b) net_ids (best_pos b)
              - weight_after (best_axis b) net_ids (best_pos b)) /\
     forall a' c', candidate a' net_ids x1 y1 x2 y2 c' = true ->
       imbalance (best_axis b) net_ids (best_pos b) <= imbalance a' net_ids c' /\
       (earlier a' c' (best_axis b) (best_pos b) ->
        imbalance (best_axis b) net_ids (best_pos b) < imbalance a' net_ids c')).
Proof.
  intros Hx1 Hy1 Htot. simpl.
  assert (Htot' : total_fanout net_ids <= INT_MAX) by lia.
  split.
  { intros a c Hc.
    destruct (totals_spec net_ids x1 y1 x2 y2 a c Htot' Hc) as [Hb Ha].
    destruct (candidate_survives net_ids x1 y1 x2 y2 a c Htot') as [_ Hrs].
    destruct (Hrs Hc) as [Hr Hs].
    split; [done|]. split; [done|]. split.
    - unfold score. by rewrite Hb, Ha.
    - rewrite <- Hr. by destruct a. }
  assert (Hrange : forall a c, candidate a net_ids x1 y1 x2 y2 c = true ->
            first_pos a x1 y1 <= c < end_pos a x2 y2).
  { intros a c Hc. unfold CutlineSpec.candidate in Hc.
    apply andb_true_iff in Hc as [Hc _]. by apply bool_decide_eq_true in Hc. }
  destruct (choose_cutline_cases route_bb num_sinks net_ids x1 y1 x2 y2)
    as [[Hb Hall]|(i & Hsv & Hb & Hlt & Hmin)]; simpl in *.
  - assert (Hnone : forall a c, candidate a net_ids x1 y1 x2 y2 c = false).
    { intros a c. destruct (candidate a net_ids x1 y1 x2 y2 c) eqn:Hc; [|done].
      pose proof (Hrange _ _ Hc) as Hin.
      destruct (candidate_survives net_ids x1 y1 x2 y2 a c Htot') as [Hcs Hrs].
      destruct (Hrs Hin) as [_ Hs].
      rewrite Hcs in Hc. specialize (Hall _ _ Hc). rewrite Hs in Hall.
      pose proof (imbalance_bound net_ids a c). lia. }
    split.
    + intros _. split; [by rewrite Hb|].
      intros Hne HW HH fuel. simpl.
      rewrite bool_decide_eq_false_2 by done.
      rewrite !bool_decide_eq_true_2 by done. simpl.
      by rewrite bool_decide_eq_true_2 by (by rewrite Hb).
    + intros (a & c & Hc). by rewrite Hnone in Hc.
  - set (b := choose_cutline net_ids x1 y1 x2 y2) in *.
    assert (Hp : best_pos b = first_pos (best_axis b) x1 y1 + i)
      by (by rewrite Hb at 1).
    assert (Hs : best_score b
                 = cut_score route_bb num_sinks net_ids x1 y1 x2 y2 (best_axis b) i)
      by (by rewrite Hb at 1).
    assert (Hi : i = best_pos b - first_pos (best_axis b) x1 y1) by lia.
    destruct (candidate_survives net_ids x1 y1 x2 y2 (best_axis b) (best_pos b) Htot')
      as [Hcs Hrs].
    rewrite <- Hi in Hcs, Hrs.
    assert (Hcand : candidate (best_axis b) net_ids x1 y1 x2 y2 (best_pos b) = true)
      by (by rewrite Hcs).
    destruct (Hrs (Hrange _ _ Hcand)) as [_ Hsc].
    split.
    + intros Hnone. by rewrite Hnone in Hcand.
    + intros _. split; [done|]. split.
      { pose proof (Hrange _ _ Hcand). destruct (best_axis b); simpl in *; lia. }
      split; [by rewrite Hs, Hsc|].
      intros a' c' Hc'. pose proof (Hrange _ _ Hc') as Hin'.
      destruct (candidate_survives net_ids x1 y1 x2 y2 a' c' Htot') as [Hcs' Hrs'].
      destruct (Hrs' Hin') as [_ Hsc'].
      rewrite Hcs' in Hc'. destruct (Hmin _ _ Hc') as [Hle Hst].
      rewrite Hsc, Hsc' in Hle, Hst. split; [done|].
      intros He. apply Hst. unfold scanned_before.
      destruct He as [[??]|[-> ?]]; [by left|right]. split; [done|lia].
Qed.

(** *** The shape of the built tree *)

Lemma build_helper_child_Some fuel net_ids x1 y1 x2 y2 ot :
  build_helper fuel net_ids x1 y1 x2 y2 = Ok ot -> net_ids <> [] ->
  exists f t, fuel = S f /\ ot = Some t.
Proof.
  intros Hb Hne. destruct fuel as [|f]; [discriminate|].
  destruct ot as [t|]; [eauto|]. by apply build_helper_None in Hb.
Qed.

(** A freshly built tree carries no virtual nets. *)
Lemma build_helper_no_vnets fuel : forall net_ids x1 y1 x2 y2 ot,
  build_helper fuel net_ids x1 y1 x2 y2 = Ok ot ->
  Forall (fun nd => virtual_nets nd = []) (opt_tree_nodes ot).
Proof.
  induction fuel as [|fuel IH]; intros net_ids x1 y1 x2 y2 ot Hb; [discriminate|].
  destruct ot as [t|]; [|constructor].
  apply build_helper_Some in Hb
    as (_ & _ & _ & [[_ ->]|(_ & s & l & r & _ & Hlr & ->)]).
  { simpl. by constructor. }
  destruct (child_regions _ _ _ _ _ _) as [[[[lx1 ly1] lx2] ly2] [[[rx1 ry1] rx2] ry2]].
  destruct Hlr as [Hl Hr]. apply IH in Hl. apply IH in Hr.
  simpl. constructor; [done|]. apply Forall_app. by destruct l, r.
Qed.

(** X4.  Every node of a tree the builder returns still has the default
    routing results, and is either a leaf (no child, no cutline, at least one
    net) or a branch with a cutline and two children that both hold nets:
    there is no node with a single branch. *)
Theorem build_helper_node_shapes fuel : forall net_ids x1 y1 x2 y2 t,
  build_helper fuel net_ids x1 y1 x2 y2 = Ok (Some t) ->
  Forall node_shape (tree_nodes t).
Proof.
  induction fuel as [|fuel IH]; intros net_ids x1 y1 x2 y2 t Hb; [discriminate|].
  apply build_helper_Some in Hb
    as (Hne & HW & HH & [[Hp ->]|(Hp & s & l & r & Hs & Hlr & ->)]).
  { simpl. constructor; [|constructor]. by repeat split. }
  destruct (cut_sides_nonempty _ _ _ _ _ _ _ _ Hp Hs) as (Hln & Hrn & _).
  destruct (child_regions _ _ _ _ _ _) as [[[[lx1 ly1] lx2] ly2] [[[rx1 ry1] rx2] ry2]].
  destruct Hlr as [Hl Hr].
  destruct (build_helper_child_Some _ _ _ _ _ _ _ Hl Hln) as (fl & tl & _ & ->).
  destruct (build_helper_child_Some _ _ _ _ _ _ _ Hr Hrn) as (fr & tr & _ & ->).
  pose proof (build_helper_placed _ _ _ _ _ _ _ _ _ Hl) as [Hlp _].
  pose proof (build_helper_placed _ _ _ _ _ _ _ _ _ Hr) as [Hrp _].
  simpl in Hlp, Hrp.
  apply IH in Hl. apply IH in Hr.
  simpl. constructor; [|by apply Forall_app].
  repeat split; simpl; [done|..].
  - intros Hnil. rewrite Hnil in Hlp. by apply Permutation_nil_l in Hlp.
  - intros Hnil. rewrite Hnil in Hrp. by apply Permutation_nil_l in Hrp.
Qed.

(** X5.  Nets that cannot be told apart on either axis (no net ends before
    another one starts) are never divided: the builder returns a single leaf
    that holds them in the order given.  This covers a single net and a
    netlist of nets that all span the device. *)
Theorem inseparable_nets_single_leaf fuel net_ids x1 y1 x2 y2 :
  net_ids <> [] -> x2 - x1 > 0 -> y2 - y1 > 0 ->
  inseparable X net_ids = true -> inseparable Y net_ids = true ->
  build_helper (S fuel) net_ids x1 y1 x2 y2 = Ok (Some (leaf net_ids)).
Proof.
  intros Hne HW HH HX HY.
  assert (Hb : choose_cutline net_ids x1 y1 x2 y2 = init_best).
  { destruct (choose_cutline_cases route_bb num_sinks net_ids x1 y1 x2 y2)
      as [[Hb _]|(i & Hsv & _)]; simpl in *; [done|].
    apply survives_both_sides in Hsv as [(n & Hn & Hgt) (m & Hm & Hlt)].
    assert (Hins : inseparable (best_axis (choose_cutline net_ids x1 y1 x2 y2)) net_ids
                   = true) by (by destruct (best_axis _)).
    unfold TreeShapes.inseparable in Hins.
    rewrite forallb_forall in Hins. apply list_elem_of_In, Hins in Hn.
    rewrite forallb_forall in Hn. apply list_elem_of_In, Hn in Hm.
    apply bool_decide_eq_true in Hm. lia. }
  simpl.
  rewrite bool_decide_eq_false_2 by done.
  rewrite !bool_decide_eq_true_2 by done. simpl.
  by rewrite bool_decide_eq_true_2 by (by rewrite Hb).
Qed.

(** A branch of a returned tree never has an X cutline: the call for its
    right child would have stopped on the assertion. *)
Lemma build_helper_cut_axis fuel net_ids x1 y1 x2 y2 t :
  build_helper fuel net_ids x1 y1 x2 y2 = Ok (Some t) ->
  cutline_pos t <> -1 -> cutline_axis t = Y.
Proof.
  intros Hb Hcut. destruct fuel as [|fuel]; [discriminate|].
  apply build_helper_Some in Hb
    as (Hne & HW & HH & [[Hp ->]|(Hp & s & l & r & Hs & Hlr & ->)]); [done|].
  destruct (cut_sides_nonempty _ _ _ _ _ _ _ _ Hp Hs) as (_ & Hrn & _).
  simpl. destruct (best_axis _) eqn:Hax; [exfalso|done]. simpl in Hlr. destruct Hlr as [_ Hr].
  destruct (build_helper_child_Some _ _ _ _ _ _ _ Hr Hrn) as (fr & tr & -> & ->).
  apply build_helper_Some in Hr as (_ & _ & ? & _). lia.
Qed.

(** A child of a Y cutline is a leaf: the region it is built over lies on the
    other side of the cutline than its nets, so no Y position survives in
    it, and an X cutline would stop the builder. *)
Lemma build_helper_swapped_child fuel net_ids x1 y1 x2 y2 t :
  build_helper fuel net_ids x1 y1 x2 y2 = Ok (Some t) ->
  (forall n, n ∈ net_ids -> ymin (route_bb n) < y1) \/
  (forall n, n ∈ net_ids -> ymax (route_bb n) > y2) ->
  t = leaf net_ids.
Proof.
  intros Hb Hside. pose proof Hb as Hb0.
  destruct fuel as [|fuel]; [discriminate|].
  apply build_helper_Some in Hb
    as (Hne & HW & HH & [[Hp ->]|(Hp & s & l & r & Hs & Hlr & ->)]); [done|].
  exfalso.
  apply build_helper_cut_axis in Hb0; [|done]. simpl in Hb0.
  destruct (choose_cutline_cases route_bb num_sinks net_ids x1 y1 x2 y2)
    as [[Hb _]|(i & Hsv & _)]; simpl in *; [by rewrite Hb in Hp|].
  rewrite Hb0 in Hsv. pose proof Hsv as Hi. apply survives_iff in Hi as [Hi _].
  apply survives_both_sides in Hsv as [(n & Hn & Hgt) (m & Hm & Hlt)].
  simpl in *. destruct Hside as [Hlow|Hhigh].
  - specialize (Hlow n Hn). lia.
  - specialize (Hhigh m Hm). lia.
Qed.

(** X6.  Every tree the builder returns has at most one cutline: it is a
    single leaf, or a root with a Y cutline inside the region and two leaves
    holding the nets entirely below and entirely above it.  (A chosen X
    cutline stops the builder, and the regions handed to the children of a
    Y cutline lie on the wrong side of it.) *)
Theorem build_helper_at_most_one_cutline fuel net_ids x1 y1 x2 y2 t :
  build_helper fuel net_ids x1 y1 x2 y2 = Ok (Some t) ->
  t = leaf net_ids \/
  exists s,
    split_nets Y (cutline_pos t) net_ids = Ok s /\
    y1 <= cutline_pos t < y2 /\
    t = mk_node (my_nets s) (Some (leaf (left_nets s))) (Some (leaf (right_nets s)))
                false [] [] Y (cutline_pos t).
Proof.
  intros Hb. pose proof Hb as Hb0.
  destruct fuel as [|fuel]; [discriminate|].
  apply build_helper_Some in Hb
    as (Hne & HW & HH & [[Hp ->]|(Hp & s & l & r & Hs & Hlr & Ht)]); [by left|].
  right. exists s.
  destruct (cut_sides_nonempty _ _ _ _ _ _ _ _ Hp Hs) as (Hln & Hrn & _).
  apply build_helper_cut_axis in Hb0; [|by rewrite Ht].
  rewrite Ht in Hb0. simpl in Hb0. rewrite Hb0 in Hs, Hlr, Ht. simpl in Hlr.
  destruct Hlr as [Hl Hr].
  destruct (build_helper_child_Some _ _ _ _ _ _ _ Hl Hln) as (fl & tl & _ & ->).
  destruct (build_helper_child_Some _ _ _ _ _ _ _ Hr Hrn) as (fr & tr & _ & ->).
  pose proof (split_nets_spec _ _ _ _ _ Hs) as (_ & Hgl & Hgr & _).
  rewrite list.Forall_forall in Hgl, Hgr.
  apply build_helper_swapped_child in Hl; cycle 1.
  { left. intros n Hn. apply Hgl, place_GoLeft in Hn. simpl in Hn. lia. }
  apply build_helper_swapped_child in Hr; cycle 1.
  { right. intros n Hn. apply Hgr, place_GoRight in Hn. simpl in Hn. lia. }
  subst tl tr. rewrite Ht. simpl. split; [done|]. split; [|done].
  destruct (choose_cutline_cases route_bb num_sinks net_ids x1 y1 x2 y2)
    as [[Hb _]|(i & Hsv & Hb & _)]; simpl in *; [by rewrite Hb in Hp|].
  apply survives_iff in Hsv as [Hi _]. rewrite Hb0 in Hi, Hb.
  assert (best_pos (choose_cutline net_ids x1 y1 x2 y2) = y1 + i)
    by (by rewrite Hb at 1).
  simpl in Hi. lia.
Qed.

End BuilderFacts.
(** *** The lookups and the tree on concrete inputs *)

Section BuilderFactsExamples.

Import PartitionTree TreeVocabulary TreeShapes CutlineSpec Examples MoreExamples.

Lemma build_totals_prefix_sums_witness :
  total_fanout one_sink [0; 1]%nat <= INT_MAX /\
  0 <= 1 < extent Y 0 0 1 3 /\
  before_of Y (build_totals column_bb one_sink [0; 1]%nat 0 0 1 3) !!! Z.to_nat 1
  = fanout_where one_sink (starts_by column_bb Y (base_of Y 0 0 + 1)) [0; 1]%nat /\
  fanout_where one_sink (starts_by column_bb Y (base_of Y 0 0 + 1)) [0; 1]%nat = 1.
Proof.
  assert (Ht : total_fanout one_sink [0; 1]%nat <= INT_MAX) by (vm_compute; discriminate).
  assert (Hi : 0 <= 1 < extent Y 0 0 1 3) by (simpl; lia).
  split; [exact Ht|]. split; [exact Hi|]. split; [|reflexivity].
  exact (proj1 (build_totals_prefix_sums column_bb one_sink [0; 1]%nat 0 0 1 3 Y 1
                  Ht Hi)).
Defined.

Lemma build_totals_monotone_witness :
  total_fanout one_sink [0; 1]%nat <= INT_MAX /\
  0 <= 0 /\ 0 <= 2 /\ 2 < extent Y 0 0 1 3 /\
  before_of Y (build_totals column_bb one_sink [0; 1]%nat 0 0 1 3) !!! Z.to_nat 2
  <= before_of Y (build_totals column_bb one_sink [0; 1]%nat 0 0 1 3)
       !!! Z.to_nat (extent Y 0 0 1 3 - 1).
Proof.
  assert (Ht : total_fanout one_sink [0; 1]%nat <= INT_MAX) by (vm_compute; discriminate).
  assert (H0 : 0 <= 0) by lia.
  assert (H2 : 0 <= 2) by lia.
  assert (Hj : 2 < extent Y 0 0 1 3) by (simpl; lia).
  split; [exact Ht|]. split; [exact H0|]. split; [exact H2|]. split; [exact Hj|].
  exact (proj1 (proj2 (proj2 (build_totals_monotone column_bb one_sink [0; 1]%nat
                                0 0 1 3 Y 0 2 Ht H0 H2 Hj)))).
Defined.

Lemma survives_iff_nets_on_both_sides_witness :
  total_fanout one_sink [0; 1]%nat <= INT_MAX /\
  survives column_bb one_sink [0; 1]%nat 0 0 1 3 Y 1 = true /\
  (exists n, n ∈ [0; 1]%nat /\
     starts_after column_bb one_sink Y (base_of Y 0 0 + 1)
                  (base_of Y 0 0 + extent Y 0 0 1 3) n = true) /\
  (exists n, n ∈ [0; 1]%nat /\
     ends_before column_bb one_sink Y (base_of Y 0 0) (base_of Y 0 0 + 1) n = true).
Proof.
  assert (Ht : total_fanout one_sink [0; 1]%nat <= INT_MAX) by (vm_compute; discriminate).
  assert (Hs : survives column_bb one_sink [0; 1]%nat 0 0 1 3 Y 1 = true) by reflexivity.
  split; [exact Ht|]. split; [exact Hs|].
  exact (proj2 (proj1 (survives_iff_nets_on_both_sides column_bb one_sink [0; 1]%nat
                         0 0 1 3 Y 1 Ht) Hs)).
Defined.

(** The three nets of [stack_bb]: the Y positions 1, 2 and 3 survive with
    the scores 3, 2 and 1, and the last one is chosen.  A single net leaves no
    position, and the builder returns a leaf. *)
Lemma choose_cutline_first_minimum_witness :
  (0 <= 0 /\ total_fanout stack_sinks [0; 1; 2]%nat < INT_MAX /\
   choose_cutline stack_bb stack_sinks [0; 1; 2]%nat 0 0 1 5 = mk_best 1 3 Y /\
   imbalance stack_bb stack_sinks Y [0; 1; 2]%nat 1 = 3 /\
   imbalance stack_bb stack_sinks Y [0; 1; 2]%nat 2 = 2 /\
   candidate stack_bb stack_sinks Y [0; 1; 2]%nat 0 0 1 5 3 = true /\
   3 <> -1 /\
   1 = Z.abs (weight_before stack_bb stack_sinks Y [0; 1; 2]%nat 3
              - weight_after stack_bb stack_sinks Y [0; 1; 2]%nat 3) /\
   forall a' c', candidate stack_bb stack_sinks a' [0; 1; 2]%nat 0 0 1 5 c' = true ->
     imbalance stack_bb stack_sinks Y [0; 1; 2]%nat 3
     <= imbalance stack_bb stack_sinks a' [0; 1; 2]%nat c' /\
     (earlier a' c' Y 3 ->
      imbalance stack_bb stack_sinks Y [0; 1; 2]%nat 3
      < imbalance stack_bb stack_sinks a' [0; 1; 2]%nat c')) /\
  (total_fanout one_sink [0%nat] < INT_MAX /\
   (forall a c, candidate column_bb one_sink a [0%nat] 0 0 1 3 c = false) /\
   best_pos (choose_cutline column_bb one_sink [0%nat] 0 0 1 3) = -1 /\
   build_helper column_bb one_sink 1 [0%nat] 0 0 1 3
   = Ok (Some (mk_node [0%nat] None None false [] [] X (-1)))).
Proof.
  assert (H0 : 0 <= 0) by lia.
  split.
  - assert (Ht : total_fanout stack_sinks [0; 1; 2]%nat < INT_MAX) by reflexivity.
    assert (Hex : exists a c, candidate stack_bb stack_sinks a [0; 1; 2]%nat 0 0 1 5 c
                              = true) by (exists Y, 3; reflexivity).
    split; [exact H0|]. split; [exact Ht|]. split; [reflexivity|].
    split; [reflexivity|]. split; [reflexivity|].
    exact (proj2 (proj2 (choose_cutline_first_minimum stack_bb stack_sinks
                           [0; 1; 2]%nat 0 0 1 5 H0 H0 Ht)) Hex).
  - assert (Ht : total_fanout one_sink [0%nat] < INT_MAX) by reflexivity.
    assert (Hnone : forall a c, candidate column_bb one_sink a [0%nat] 0 0 1 3 c = false).
    { intros a c. unfold candidate.
      destruct (bool_decide (first_pos a 0 0 <= c < end_pos a 1 3)) eqn:Hc; [|done].
      apply bool_decide_eq_true in Hc.
      destruct a; simpl in Hc.
      - assert (c = 0) as -> by lia. reflexivity.
      - assert (c = 0 \/ c = 1 \/ c = 2) as [->|[->| ->]] by lia; reflexivity. }
    assert (Hne : [0%nat] <> []) by discriminate.
    assert (HW : 1 - 0 > 0) by lia.
    assert (HH : 3 - 0 > 0) by lia.
    split; [exact Ht|]. split; [exact Hnone|].
    pose proof (proj1 (proj2 (choose_cutline_first_minimum column_bb one_sink
                                [0%nat] 0 0 1 3 H0 H0 Ht)) Hnone) as [Hp Hleaf].
    split; [exact Hp|]. exact (Hleaf Hne HW HH 0%nat).
Defined.

Lemma build_helper_node_shapes_witness :
  build_helper column_bb one_sink 3 [0; 1]%nat 0 0 1 3 = Ok (Some column_tree) /\
  Forall node_shape (tree_nodes column_tree).
Proof.
  assert (H : build_helper column_bb one_sink 3 [0; 1]%nat 0 0 1 3
              = Ok (Some column_tree)) by reflexivity.
  split; [exact H|].
  exact (build_helper_node_shapes column_bb one_sink 3 [0; 1]%nat 0 0 1 3 column_tree H).
Defined.

Lemma inseparable_nets_single_leaf_witness :
  inseparable (fun n => mk_bb (Z.of_nat n) 4 0 (Z.of_nat n)) X [0; 1; 2]%nat = true /\
  inseparable (fun n => mk_bb (Z.of_nat n) 4 0 (Z.of_nat n)) Y [0; 1; 2]%nat = true /\
  build_helper (fun n => mk_bb (Z.of_nat n) 4 0 (Z.of_nat n)) one_sink 1 [0; 1; 2]%nat
               0 0 5 5
  = Ok (Some (leaf [0; 1; 2]%nat)).
Proof.
  assert (Hne : [0; 1; 2]%nat <> []) by discriminate.
  assert (HW : 5 - 0 > 0) by lia.
  assert (HX : inseparable (fun n => mk_bb (Z.of_nat n) 4 0 (Z.of_nat n)) X [0; 1; 2]%nat
               = true) by reflexivity.
  assert (HY : inseparable (fun n => mk_bb (Z.of_nat n) 4 0 (Z.of_nat n)) Y [0; 1; 2]%nat
               = true) by reflexivity.
  split; [exact HX|]. split; [exact HY|].
  exact (inseparable_nets_single_leaf (fun n => mk_bb (Z.of_nat n) 4 0 (Z.of_nat n))
           one_sink 0 [0; 1; 2]%nat 0 0 5 5 Hne HW HW HX HY).
Defined.

Lemma build_helper_at_most_one_cutline_witness :
  build_helper column_bb one_sink 3 [0; 1]%nat 0 0 1 3 = Ok (Some column_tree) /\
  (column_tree = leaf [0; 1]%nat \/
   exists s,
     split_nets column_bb Y (cutline_pos column_tree) [0; 1]%nat = Ok s /\
     0 <= cutline_pos column_tree < 3 /\
     column_tree
     = mk_node (my_nets s) (Some (leaf (left_nets s))) (Some (leaf (right_nets s)))
               false [] [] Y (cutline_pos column_tree)).
Proof.
  assert (H : build_helper column_bb one_sink 3 [0; 1]%nat 0 0 1 3
              = Ok (Some column_tree)) by reflexivity.
  split; [exact H|].
  exact (build_helper_at_most_one_cutline column_bb one_sink 3 [0; 1]%nat 0 0 1 3
           column_tree H).
Defined.

End BuilderFactsExamples.
(** ** Further properties of the dispatcher *)

Section DispatcherFacts.

Import RouteParallel DispatcherTerms SkeletonSpec RouteController.

Context {R : Type}.
Variable env : Env.
Variable co : Collaborators R.

(** *** The two sides of a cutline *)

Lemma which_side_cases rr pos axis :
  (which_side env rr pos axis = LEFT /\
   match axis with X => node_xlow env rr | Y => node_ylow env rr end <= pos) \/
  (which_side env rr pos axis = RIGHT /\
   match axis with X => node_xlow env rr | Y => node_ylow env rr end > pos).
Proof.
  unfold which_side. destruct axis; case_bool_decide; first [left; split; [done|lia] | by right].
Qed.

(** X7.  A RR node inside a bounding box lies inside the half that
    [clip_to_side] cuts for the side [which_side] names, and outside the
    other half; a node inside a half is on that half's side; and when the
    cutline runs through the box (or along its edge) both halves lie within
    the box. *)
Theorem clip_to_side_splits_bb bb axis pos rr :
  (inside_bb env rr bb = true ->
   inside_bb env rr (clip_to_side bb axis pos (which_side env rr pos axis)) = true /\
   inside_bb env rr (clip_to_side bb axis pos (flip_side (which_side env rr pos axis)))
   = false) /\
  (forall side, inside_bb env rr (clip_to_side bb axis pos side) = true ->
                which_side env rr pos axis = side) /\
  (PartitionTree.bb_min axis bb - 1 <= pos <= PartitionTree.bb_max axis bb ->
   forall side,
     inside_bb env rr (clip_to_side bb axis pos side)
     = inside_bb env rr bb && bool_decide (which_side env rr pos axis = side)).
Proof.
  unfold inside_bb.
  split; [|split].
  - rewrite andb_true_iff, !bool_decide_eq_true. intros [Hx Hy].
    destruct (which_side_cases rr pos axis) as [[-> Hs]|[-> Hs]];
      destruct axis; simpl;
      rewrite andb_true_iff, andb_false_iff, !bool_decide_eq_true, !bool_decide_eq_false;
      lia.
  - intros side.
    rewrite andb_true_iff, !bool_decide_eq_true. intros [Hx Hy].
    destruct (which_side_cases rr pos axis) as [[-> Hs]|[-> Hs]];
      destruct axis, side; simpl in *; first [done | lia].
  - intros Hpos side.
    destruct (which_side_cases rr pos axis) as [[-> Hs]|[-> Hs]];
      destruct axis, side; simpl in *;
      repeat case_bool_decide; simpl; first [done | lia].
Qed.

Lemma inside_clip bb axis pos side rr :
  PartitionTree.bb_min axis bb - 1 <= pos <= PartitionTree.bb_max axis bb ->
  inside_bb env rr (clip_to_side bb axis pos side)
  = inside_bb env rr bb && bool_decide (which_side env rr pos axis = side).
Proof.
  intros Hpos. unfold inside_bb.
  destruct (which_side_cases rr pos axis) as [[-> Hs]|[-> Hs]];
    destruct axis, side; simpl in *;
    repeat case_bool_decide; simpl; first [done | lia].
Qed.

(** *** The sinks of a virtual net *)

(** [filter_inside] reads the terminal of every sink index it is given, and
    keeps the indices whose terminal lies inside the box. *)
Lemma filter_inside_spec net_id bb isinks :
  filter_inside env net_id bb isinks
  = if forallb (has_terminal env net_id) isinks
    then Ok (List.filter (sink_inside env net_id bb) isinks)
    else Crash.
Proof.
  induction isinks as [|i rest IH]; [done|].
  simpl. unfold has_terminal, sink_inside.
  destruct (terminal env net_id i) as [rr| | |] eqn:Ht; simpl; try done.
  - rewrite IH. by destruct (forallb _ rest); simpl; [destruct (inside_bb env rr bb)|].
  - unfold terminal in Ht. case_bool_decide; [done|].
    by destruct (net_rr_terminals env net_id !! Z.to_nat i).
  - unfold terminal in Ht. case_bool_decide; [done|].
    by destruct (net_rr_terminals env net_id !! Z.to_nat i).
Qed.

Lemma has_terminal_iff net_id isink :
  has_terminal env net_id isink = true <->
  0 <= isink < Z.of_nat (length (net_rr_terminals env net_id)).
Proof.
  unfold has_terminal, terminal. case_bool_decide as Hneg.
  { split; [done|lia]. }
  destruct (net_rr_terminals env net_id !! Z.to_nat isink) as [rr|] eqn:Hl.
  - apply lookup_lt_Some in Hl. split; [lia|done].
  - apply lookup_ge_None in Hl. split; [done|lia].
Qed.

Lemma filter_twice {A} (f g h : A -> bool) (l : list A) :
  (forall a, f a = g a && h a) ->
  List.filter f l = List.filter h (List.filter g l).
Proof.
  intros Hf. induction l as [|a l IH]; [done|]. simpl.
  rewrite Hf. destruct (g a); simpl; [|done].
  by destruct (h a); rewrite IH.
Qed.

Lemma filter_two_sides {A} (f g : A -> bool) (l : list A) :
  (forall a, a ∈ l -> f a = negb (g a)) ->
  List.filter f l ++ List.filter g l ≡ₚ l.
Proof.
  induction l as [|a l IH]; intros Hfg; [done|]. simpl.
  rewrite (Hfg a) by left.
  assert (IH' : List.filter f l ++ List.filter g l ≡ₚ l)
    by (apply IH; intros b Hb; apply Hfg; by right).
  destruct (g a); simpl.
  - rewrite <- Permutation_middle. by constructor.
  - by constructor.
Qed.

Lemma sink_inside_clip net_id bb axis pos side isink :
  PartitionTree.bb_min axis bb - 1 <= pos <= PartitionTree.bb_max axis bb ->
  sink_inside env net_id (clip_to_side bb axis pos side) isink
  = sink_inside env net_id bb isink && sink_on_side env net_id pos axis side isink.
Proof.
  intros Hpos. unfold sink_inside, sink_on_side.
  destruct (terminal env net_id isink); [by apply inside_clip|done..].
Qed.

Lemma sink_on_side_flip net_id bb pos axis isink :
  sink_inside env net_id bb isink = true ->
  sink_on_side env net_id pos axis LEFT isink
  = negb (sink_on_side env net_id pos axis RIGHT isink).
Proof.
  unfold sink_inside, sink_on_side.
  destruct (terminal env net_id isink) as [rr| | |]; [|done..]. intros _.
  by destruct (which_side env rr pos axis).
Qed.

(** The sinks a box keeps, divided between its two halves. *)
Lemma filter_inside_halves net_id bb axis pos isinks all :
  PartitionTree.bb_min axis bb - 1 <= pos <= PartitionTree.bb_max axis bb ->
  filter_inside env net_id bb isinks = Ok all ->
  filter_inside env net_id (clip_to_side bb axis pos LEFT) isinks
  = Ok (List.filter (sink_on_side env net_id pos axis LEFT) all) /\
  filter_inside env net_id (clip_to_side bb axis pos RIGHT) isinks
  = Ok (List.filter (sink_on_side env net_id pos axis RIGHT) all) /\
  List.filter (sink_on_side env net_id pos axis LEFT) all
    ++ List.filter (sink_on_side env net_id pos axis RIGHT) all ≡ₚ all /\
  (forall i, i ∈ List.filter (sink_on_side env net_id pos axis LEFT) all ->
             i ∉ List.filter (sink_on_side env net_id pos axis RIGHT) all).
Proof.
  intros Hpos. rewrite !filter_inside_spec.
  destruct (forallb _ isinks); [|discriminate]. intros [= <-].
  split; [|split; [|split]].
  - f_equal. apply filter_twice. intros i. by apply sink_inside_clip.
  - f_equal. apply filter_twice. intros i. by apply sink_inside_clip.
  - apply filter_two_sides. intros i Hi.
    apply list_elem_of_In, filter_In in Hi as [_ Hi].
    by apply sink_on_side_flip with bb.
  - intros i Hl Hr.
    apply list_elem_of_In, filter_In in Hl as [Hin Hl].
    apply list_elem_of_In, filter_In in Hr as [_ Hr].
    apply filter_In in Hin as [_ Hin].
    rewrite (sink_on_side_flip net_id bb) in Hl by done. by rewrite Hr in Hl.
Qed.

(** X8.  Decomposition loses no sink and duplicates none: when the cutline
    runs through the bounding box of the net, the sinks of the net inside
    the box (and likewise its remaining sinks) are divided between the two
    virtual nets that [make_decomposed_pair] returns, the left/up half
    getting exactly those on the left/up side of the cutline and the
    right/down half exactly the others. *)
Theorem decomposed_pair_splits_sinks (st : State R) net_id pos axis l r :
  PartitionTree.bb_min axis (route_bb st net_id) - 1 <= pos
    <= PartitionTree.bb_max axis (route_bb st net_id) ->
  make_decomposed_pair env co st net_id pos axis = Ok (l, r) ->
  (forall all,
     get_vnet_isinks env (mk_vnet net_id (route_bb st net_id)) = Ok all ->
     get_vnet_isinks env l
     = Ok (List.filter (sink_on_side env net_id pos axis LEFT) all) /\
     get_vnet_isinks env r
     = Ok (List.filter (sink_on_side env net_id pos axis RIGHT) all) /\
     List.filter (sink_on_side env net_id pos axis LEFT) all
       ++ List.filter (sink_on_side env net_id pos axis RIGHT) all ≡ₚ all /\
     (forall i, i ∈ List.filter (sink_on_side env net_id pos axis LEFT) all ->
                i ∉ List.filter (sink_on_side env net_id pos axis RIGHT) all)) /\
  (forall remaining,
     get_vnet_remaining_isinks env co st (mk_vnet net_id (route_bb st net_id))
     = Ok remaining ->
     get_vnet_remaining_isinks env co st l
     = Ok (List.filter (sink_on_side env net_id pos axis LEFT) remaining) /\
     get_vnet_remaining_isinks env co st r
     = Ok (List.filter (sink_on_side env net_id pos axis RIGHT) remaining) /\
     List.filter (sink_on_side env net_id pos axis LEFT) remaining
       ++ List.filter (sink_on_side env net_id pos axis RIGHT) remaining ≡ₚ remaining).
Proof.
  intros Hpos Hpair.
  apply make_decomposed_pair_spec in Hpair as [-> ->].
  unfold get_vnet_isinks, get_vnet_remaining_isinks. simpl.
  split.
  - intros all Hall. by apply filter_inside_halves.
  - intros remaining.
    destruct (route_tree co (rs st) net_id) as [tree|]; [|discriminate].
    intros Hrem.
    destruct (filter_inside_halves _ _ _ _ _ _ Hpos Hrem) as (Hl & Hr & Hp & _).
    done.
Qed.

(** X9.  [get_vnet_isinks] reads [net_rr_terminals] at the indices
    [1 .. num_sinks]: it returns, in increasing order, the sink indices
    whose terminal lies inside the clipped box when the net has no sink or
    the terminal list has more than [num_sinks] entries, and reads past the
    end of the list otherwise. *)
Theorem get_vnet_isinks_bounds vnet :
  let n := net_sinks_size env (vnet_id vnet) in
  get_vnet_isinks env vnet
  = if bool_decide (n = 0%nat \/ (n < length (net_rr_terminals env (vnet_id vnet)))%nat)
    then Ok (List.filter (sink_inside env (vnet_id vnet) (clipped_bb vnet))
                         (seqZ 1 (Z.of_nat n)))
    else Crash.
Proof.
  simpl. unfold get_vnet_isinks. rewrite filter_inside_spec.
  set (n := net_sinks_size env (vnet_id vnet)).
  destruct (forallb _ _) eqn:Hall; case_bool_decide as Hn; try done; exfalso.
  - apply Hn. destruct (decide (n = 0%nat)) as [?|Hpos]; [by left|right].
    rewrite forallb_forall in Hall.
    assert (Hin : In (Z.of_nat n) (seqZ 1 (Z.of_nat n))).
    { apply list_elem_of_In, elem_of_seqZ. lia. }
    apply Hall, has_terminal_iff in Hin. lia.
  - apply not_true_iff_false in Hall. apply Hall, forallb_forall.
    intros i Hi. apply list_elem_of_In, elem_of_seqZ in Hi.
    apply has_terminal_iff. lia.
Qed.

(** X10.  [is_routing_over_cutline] answers whether some sink reached by
    the route tree lies on the other side of the cutline than the root of
    the tree; it reads the position of the root and of the reached sinks
    only.  Without a route tree it dereferences an empty optional. *)
Theorem is_routing_over_cutline_spec (st : State R) net_id pos axis tree :
  route_tree co (rs st) net_id = Some tree ->
  forallb (has_terminal env net_id) (reached_isinks tree) = true ->
  let other := flip_side (which_side env (root_inode tree) pos axis) in
  is_routing_over_cutline env co st net_id pos axis
  = Ok (existsb (sink_on_side env net_id pos axis other) (reached_isinks tree)) /\
  (is_routing_over_cutline env co st net_id pos axis = Ok true <->
   reached_on_side env co (rs st) net_id pos axis other <> []).
Proof.
  intros Htree Hall. simpl.
  assert (Hrun : is_routing_over_cutline env co st net_id pos axis
                 = Ok (existsb (sink_on_side env net_id pos axis
                                  (flip_side (which_side env (root_inode tree) pos axis)))
                               (reached_isinks tree))).
  { unfold is_routing_over_cutline. rewrite Htree.
    revert Hall. generalize (reached_isinks tree) as isinks.
    induction isinks as [|i rest IH]; [done|]. intros Hall.
    simpl in Hall. apply andb_true_iff in Hall as [Hi Hrest].
    unfold has_terminal in Hi. cbn [existsb]. unfold sink_on_side at 1.
    destruct (terminal env net_id i) as [rr| | |]; try discriminate.
    cbn [obind].
    destruct (which_side env (root_inode tree) pos axis),
             (which_side env rr pos axis);
      repeat case_bool_decide; simpl in *; try done; by apply IH. }
  split; [done|]. rewrite Hrun. unfold reached_on_side. rewrite Htree.
  clear. generalize (reached_isinks tree) as isinks.
  induction isinks as [|i rest IH]; [done|]. simpl.
  destruct (sink_on_side env net_id pos axis _ i); simpl; [done|by apply IH].
Qed.

(** *** Sampling bins and eligibility *)

(** X11.  For a net whose bounding box is narrower or lower than
    [MIN_DECOMP_BIN_WIDTH = 5], the bin count of that dimension is zero and
    both [is_worth_decomposing] and [get_decomposition_isinks] divide by
    it; [should_decompose_net] therefore answers only when one of its three
    earlier checks (depth, clock net, retry cap) already said no. *)
Theorem narrow_bbox_divides_by_zero (st : State R) net_id level pos axis targets :
  let bb := route_bb st net_id in
  let W := xmax bb - xmin bb + 1 in
  let H := ymax bb - ymin bb + 1 in
  0 < W < 2 ^ 31 -> 0 < H < 2 ^ 31 -> W < 5 \/ H < 5 ->
  is_worth_decomposing env st net_id pos axis = Crash /\
  get_decomposition_isinks env co st net_id targets = Crash /\
  should_decompose_net env st net_id level pos axis
  = if bool_decide (to_size_t level > to_size_t (log2_ceil env (num_workers env) - 1))
       || (net_is_global env net_id && two_stage_clock_routing env)
       || bool_decide (decomp_retries st net_id >= MAX_DECOMP_REROUTE)
    then Ok false else Crash.
Proof.
  intros bb W H HW HH Hnarrow. subst bb W H.
  assert (Hworth : is_worth_decomposing env st net_id pos axis = Crash).
  { unfold is_worth_decomposing, MIN_DECOMP_BIN_WIDTH.
    remember (xmax (route_bb st net_id) - xmin (route_bb st net_id) + 1) as W eqn:HeqW.
    remember (ymax (route_bb st net_id) - ymin (route_bb st net_id) + 1) as H eqn:HeqH.
    assert (HW5 : 0 <= W / 5 < 2 ^ 31)
      by (split; [apply Z.div_pos|apply Z.div_lt_upper_bound]; lia).
    assert (HH5 : 0 <= H / 5 < 2 ^ 31)
      by (split; [apply Z.div_pos|apply Z.div_lt_upper_bound]; lia).
    rewrite !(to_size_t_small W), !(to_size_t_small H) by lia.
    rewrite !(to_int_small (W / 5)), !(to_int_small (H / 5)) by lia.
    rewrite !(to_size_t_small (W / 5)), !(to_size_t_small (H / 5)) by lia.
    case_bool_decide as Hbx; [done|].
    case_bool_decide as Hby; [done|].
    destruct Hnarrow; [rewrite Z.div_small in Hbx by lia|rewrite Z.div_small in Hby by lia];
      done. }
  split; [done|]. split.
  - unfold get_decomposition_isinks.
    destruct (route_tree co (rs st) net_id); [|done].
    unfold sampling_bins, MIN_DECOMP_BIN_WIDTH.
    rewrite !to_size_t_small by lia.
    destruct Hnarrow.
    + rewrite (Z.div_small (xmax _ - _ + 1)) by lia. by rewrite bool_decide_eq_true_2.
    + rewrite (Z.div_small (ymax _ - _ + 1)) by lia.
      rewrite (bool_decide_eq_true_2 (0 = 0)) by done. by rewrite orb_true_r.
  - unfold should_decompose_net. rewrite Hworth.
    case_bool_decide; [done|]. simpl.
    destruct (_ && _); [done|]. simpl.
    by case_bool_decide.
Qed.

Lemma bin_width_bounds V : 5 <= V -> 5 <= V / (V / 5) <= 9.
Proof.
  intros HV.
  assert (HB : 1 <= V / 5) by (apply Z.div_le_lower_bound; lia).
  pose proof (Z.div_mod V 5 ltac:(lia)). pose proof (Z.mod_pos_bound V 5 ltac:(lia)).
  split.
  - apply Z.div_le_lower_bound; lia.
  - apply Z.lt_succ_r. apply Z.div_lt_upper_bound; nia.
Qed.

(** X12.  A net is found eligible for decomposition only if its bounding
    box is at least 5 wide and 5 high and the cutline leaves at least five
    columns (rows) of the box before it and at least six after it; so the
    cutline of an eligible net runs strictly inside the box, and a node
    without a cutline ([cutline_pos = -1], a leaf) never decomposes a net
    whose box starts at a non-negative coordinate. *)
Theorem eligible_cutline_margins (st : State R) net_id level pos axis :
  let bb := route_bb st net_id in
  0 < xmax bb - xmin bb + 1 < 2 ^ 31 -> 0 < ymax bb - ymin bb + 1 < 2 ^ 31 ->
  should_decompose_net env st net_id level pos axis = Ok true ->
  5 <= xmax bb - xmin bb + 1 /\ 5 <= ymax bb - ymin bb + 1 /\
  PartitionTree.bb_min axis bb + 5 <= pos <= PartitionTree.bb_max axis bb - 6 /\
  (0 <= PartitionTree.bb_min axis bb -> pos <> -1).
Proof.
  intros bb HW HH Hdec.
  apply should_decompose_net_worth in Hdec as [_ Hw].
  destruct (is_worth_decomposing_true env st net_id pos axis HW HH Hw)
    as (HW5 & HH5 & Hhi & Hlo & _).
  fold bb in HW5, HH5, Hhi, Hlo.
  pose proof (bin_width_bounds _ HW5). pose proof (bin_width_bounds _ HH5).
  split; [done|]. split; [done|]. split; lia.
Qed.

(** X13.  For a bounding box at least 5 wide and 5 high the sampling grid
    has [W / 5] by [H / 5] bins, each between 6 and 10 columns (rows) wide,
    together wider than the box; so every RR node inside the box falls into
    a bin of the grid and the accesses [samples[x][y]] stay in range. *)
Theorem sampling_bins_cover_bb bb :
  5 <= xmax bb - xmin bb + 1 < 2 ^ 31 -> 5 <= ymax bb - ymin bb + 1 < 2 ^ 31 ->
  exists b,
    sampling_bins bb = Some b /\
    bins_x b = (xmax bb - xmin bb + 1) / 5 /\
    bins_y b = (ymax bb - ymin bb + 1) / 5 /\
    6 <= bin_width_x b <= 10 /\ 6 <= bin_width_y b <= 10 /\
    xmax bb - xmin bb + 1 < bins_x b * bin_width_x b /\
    ymax bb - ymin bb + 1 < bins_y b * bin_width_y b /\
    forall rr, inside_bb env rr bb = true -> in_grid b (bin_of env bb b rr).
Proof.
  intros HW HH. eexists. split; [by apply sampling_bins_sane|]. simpl.
  pose proof (bin_width_bounds _ (proj1 HW)). pose proof (bin_width_bounds _ (proj1 HH)).
  assert (Hcover : forall V, 5 <= V -> V < V / 5 * (V / (V / 5) + 1)).
  { intros V HV.
    assert (HB : 1 <= V / 5) by (apply Z.div_le_lower_bound; lia).
    pose proof (Z.div_mod V (V / 5) ltac:(lia)).
    pose proof (Z.mod_pos_bound V (V / 5) ltac:(lia)). nia. }
  split_and!; try done; try lia; try (apply Hcover; lia).
  intros rr Hin. unfold inside_bb in Hin.
  rewrite andb_true_iff, !bool_decide_eq_true in Hin. destruct Hin as [Hx Hy].
  unfold in_grid, bin_of. simpl. rewrite !to_size_t_small by lia.
  split; apply bin_index_bound; lia.
Qed.

(** *** What one step of the traversal does *)

(** The body of the loop over [node.nets]: either the net is decomposed, or
    it is routed at the node. *)
Lemma route_net_at_node_effects node level acc (st : State R) net_id acc' st' :
  route_net_at_node env co node level acc st net_id = Ok (acc', st') ->
  route_bb st' = route_bb st /\
  ((should_decompose_net env st net_id level (cutline_pos node) (cutline_axis node)
    = Ok true /\
    acc' = mk_acc (acc_is_routable acc) (acc_rerouted acc ++ [net_id])
             (acc_left acc
              ++ [mk_vnet net_id (clip_to_side (route_bb st net_id) (cutline_axis node)
                                               (cutline_pos node) LEFT)])
             (acc_right acc
              ++ [mk_vnet net_id (clip_to_side (route_bb st net_id) (cutline_axis node)
                                               (cutline_pos node) RIGHT)]) /\
    decomp_retries st'
    = <[net_id := to_size_t (decomp_retries st net_id + 1)]> (decomp_retries st) /\
    nets_to_retry st' = nets_to_retry st)
   \/
   (acc_left acc' = acc_left acc /\ acc_right acc' = acc_right acc /\
    (acc_rerouted acc' = acc_rerouted acc \/
     acc_rerouted acc' = acc_rerouted acc ++ [net_id]) /\
    decomp_retries st' = decomp_retries st /\
    (nets_to_retry st' = nets_to_retry st \/
     nets_to_retry st' = nets_to_retry st ++ [net_id]))).
Proof.
  unfold route_net_at_node. intros Hr.
  apply obind_Ok in Hr as (dec & Hdec & Hr).
  apply obind_Ok in Hr as ([res st1] & Hdn & Hr).
  assert (Hf : route_bb st1 = route_bb st /\ nets_to_retry st1 = nets_to_retry st /\
               match res with
               | None => decomp_retries st1 = decomp_retries st
               | Some vp =>
                   dec = true /\
                   decomp_retries st1
                   = <[net_id := to_size_t (decomp_retries st net_id + 1)]>
                       (decomp_retries st) /\
                   make_decomposed_pair env co st1 net_id (cutline_pos node)
                                        (cutline_axis node) = Ok vp
               end).
  { destruct dec; [|by injection Hdn as <- <-].
    apply route_and_decompose_frame in Hdn as (? & ? & Hres).
    split; [done|]. split; [done|]. destruct res; [|done]. by destruct Hres. }
  destruct Hf as (Hbb & Hnr & Hres).
  destruct res as [[l r]|].
  - destruct Hres as (-> & Hdr & Hpair).
    destruct (left node), (right node); try discriminate.
    injection Hr as <- <-. split; [done|]. left.
    apply make_decomposed_pair_spec in Hpair as [-> ->]. rewrite Hbb.
    by split_and!.
  - pose proof (try_parallel_route_net_frame env co st1 net_id) as (Hbb' & Hdr' & Hnr').
    destruct (try_parallel_route_net env co st1 net_id) as [flags st2].
    simpl in Hbb', Hdr', Hnr'. injection Hr as <- <-.
    split.
    { destruct (retry_with_full_bb flags); simpl; congruence. }
    right. simpl. split; [done|]. split; [done|].
    split; [destruct (was_rerouted flags); auto|].
    split; [destruct (retry_with_full_bb flags); simpl; congruence|].
    destruct (retry_with_full_bb flags); simpl; [right|left]; congruence.
Qed.

(** The body of the loop over [node.virtual_nets]. *)
Lemma route_vnet_at_node_effects (st : State R) vnet st' :
  route_vnet_at_node env co st vnet = Ok st' ->
  route_bb st' = route_bb st /\
  ((decomp_retries st' = <[vnet_id vnet := MAX_DECOMP_REROUTE]> (decomp_retries st) /\
    nets_to_retry st' = nets_to_retry st)
   \/
   (decomp_retries st' = decomp_retries st /\
    (nets_to_retry st' = nets_to_retry st \/
     nets_to_retry st' = nets_to_retry st ++ [vnet_id vnet]))).
Proof.
  unfold route_vnet_at_node. intros Hr.
  apply obind_Ok in Hr as ([flags st1] & Hv & Hr).
  apply route_virtual_net_frame in Hv as (Hbb & Hdr & Hnr).
  destruct (negb (success flags) && negb (retry_with_full_bb flags)).
  - injection Hr as <-. simpl. split; [done|]. left. by rewrite Hdr, Hnr.
  - destruct (retry_with_full_bb flags); injection Hr as <-; simpl.
    + split; [done|]. right. split; [done|]. right. by rewrite Hnr.
    + split; [done|]. right. split; [done|]. by left.
Qed.

(** A relation between states that every step of the traversal respects is
    respected by the traversal of a subtree. *)
Section Steps.

Variable Rel : State R -> State R -> Prop.
Hypothesis Rel_refl : forall st, Rel st st.
Hypothesis Rel_trans : forall a b c, Rel a b -> Rel b c -> Rel a c.
Hypothesis Rel_net : forall node level acc st net_id acc' st',
  route_net_at_node env co node level acc st net_id = Ok (acc', st') -> Rel st st'.
Hypothesis Rel_vnet : forall st vnet st',
  route_vnet_at_node env co st vnet = Ok st' -> Rel st st'.

Lemma route_nets_at_node_steps node level net_ids : forall acc st acc' st',
  route_nets_at_node env co node level net_ids acc st = Ok (acc', st') -> Rel st st'.
Proof.
  induction net_ids as [|n rest IH]; intros acc st acc' st'; simpl.
  - by intros [= _ <-].
  - intros Hr. apply obind_Ok in Hr as ([acc1 st1] & Hstep & Hr).
    apply Rel_net in Hstep. apply IH in Hr. simpl in Hr. eauto.
Qed.

Lemma route_vnets_at_node_steps vnets : forall st st',
  route_vnets_at_node env co vnets st = Ok st' -> Rel st st'.
Proof.
  induction vnets as [|v rest IH]; intros st st'; simpl.
  - by intros [= <-].
  - intros Hr. apply obind_Ok in Hr as (st1 & Hstep & Hr).
    apply Rel_vnet in Hstep. apply IH in Hr. eauto.
Qed.

Lemma helper_steps node : forall inherited level st node' st',
  decompose_route_partition_tree_helper env co node inherited level st = Ok (node', st') ->
  Rel st st'.
Proof.
  induction node as [node IHl IHr] using tree_induction.
  intros inherited level st node' st' Hr.
  apply helper_node in Hr as (acc & st1 & st2 & Hnets & Hv & _ & _ & _ & _ & Hch).
  apply route_nets_at_node_steps in Hnets. apply route_vnets_at_node_steps in Hv.
  destruct (left node) as [l|], (right node) as [r|]; try done.
  - destruct Hch as (l' & r' & st3 & Hl & Hrr & _).
    apply (IHl l eq_refl) in Hl. apply (IHr r eq_refl) in Hrr. eauto.
  - destruct Hch as (_ & _ & ->). eauto.
Qed.

End Steps.

(** *** The retry counters *)

Lemma retries_step_net node level acc (st : State R) net_id acc' st' :
  route_net_at_node env co node level acc st net_id = Ok (acc', st') ->
  retries_bounded st -> retries_bounded st' /\ retries_grow st st'.
Proof.
  intros Hr Hb. apply route_net_at_node_effects in Hr as [_ Hr].
  destruct Hr as [(Hdec & _ & Hdr & _)|(_ & _ & _ & Hdr & _)].
  - apply should_decompose_net_worth in Hdec as [Hlt _].
    pose proof (Hb net_id) as Hn. unfold MAX_DECOMP_REROUTE in *.
    rewrite to_size_t_small in Hdr by lia.
    split; intros n; rewrite Hdr; specialize (Hb n); unfold MAX_DECOMP_REROUTE in *.
    + destruct (decide (n = net_id)) as [->|Hne];
        [rewrite fn_lookup_insert|rewrite fn_lookup_insert_ne by done]; lia.
    + destruct (decide (n = net_id)) as [->|Hne];
        [rewrite fn_lookup_insert|rewrite fn_lookup_insert_ne by done]; lia.
  - split; intros n; rewrite Hdr; [apply Hb|lia].
Qed.

Lemma retries_step_vnet (st : State R) vnet st' :
  route_vnet_at_node env co st vnet = Ok st' ->
  retries_bounded st -> retries_bounded st' /\ retries_grow st st'.
Proof.
  intros Hr Hb. apply route_vnet_at_node_effects in Hr as [_ Hr].
  destruct Hr as [[Hdr _]|[Hdr _]].
  - split; intros n; rewrite Hdr; specialize (Hb n); unfold MAX_DECOMP_REROUTE in *.
    + destruct (decide (n = vnet_id vnet)) as [->|Hne];
        [rewrite fn_lookup_insert|rewrite fn_lookup_insert_ne by done]; lia.
    + destruct (decide (n = vnet_id vnet)) as [->|Hne];
        [rewrite fn_lookup_insert|rewrite fn_lookup_insert_ne by done]; lia.
  - split; intros n; rewrite Hdr; [apply Hb|lia].
Qed.

Lemma helper_retries node inherited level (st : State R) node' st' :
  decompose_route_partition_tree_helper env co node inherited level st = Ok (node', st') ->
  retries_bounded st -> retries_bounded st' /\ retries_grow st st'.
Proof.
  apply (helper_steps
           (fun st st' => retries_bounded st -> retries_bounded st' /\ retries_grow st st')).
  - intros s Hb. split; [done|]. intros n. lia.
  - intros a b c Hab Hbc Ha. destruct (Hab Ha) as [Hb Hgab].
    destruct (Hbc Hb) as [Hc Hgbc]. split; [done|].
    intros n. specialize (Hgab n). specialize (Hgbc n). lia.
  - intros. by eapply retries_step_net.
  - intros. by eapply retries_step_vnet.
Qed.

(** X14.  The retry counters stay between zero and [MAX_DECOMP_REROUTE = 5]
    across a routing iteration, and no counter ever decreases: a counter is
    incremented only for a net still below the cap, and otherwise set to the
    cap. *)
Theorem decomp_retries_bounded_and_growing root (st : State R) res root' st' :
  decompose_route_partition_tree env co root st = Ok (res, root', st') ->
  retries_bounded st ->
  retries_bounded st' /\ retries_grow st st'.
Proof.
  unfold decompose_route_partition_tree. intros Hr Hb.
  apply obind_Ok in Hr as ([root1 st1] & Hh & [= <- <- <-]).
  apply helper_retries in Hh as [Hb1 Hg1]; [|done].
  destruct (grow_retry_nets_spec env (nets_to_retry st1) st1) as [_ Hall]. simpl in Hall.
  split; intros n; destruct (Hall n) as [Hin Hout];
    specialize (Hb1 n); specialize (Hg1 n); simpl in Hg1;
    (destruct (decide (n ∈ nets_to_retry st1)) as [Hn|Hn];
     [destruct (Hin Hn) as [_ ->]|destruct (Hout Hn) as [_ ->]]);
    unfold MAX_DECOMP_REROUTE in *; lia.
Qed.

(** *** Bounding boxes *)

(** X15.  The traversal of the tree never writes a bounding box: they are
    the same after [decompose_route_partition_tree_helper] as before.  The
    iteration changes the bounding box of a net only in its final loop, so a
    net that is not in the retry collection at the end keeps its box. *)
Theorem route_bb_changes_only_on_retry root (st : State R) res root' st' :
  decompose_route_partition_tree env co root st = Ok (res, root', st') ->
  (forall n, n ∉ nets_to_retry st' -> route_bb st' n = route_bb st n) /\
  (forall node inherited level (s : State R) node' s',
     decompose_route_partition_tree_helper env co node inherited level s = Ok (node', s') ->
     route_bb s' = route_bb s).
Proof.
  unfold decompose_route_partition_tree. intros Hr.
  apply obind_Ok in Hr as ([root1 st1] & Hh & [= <- <- <-]).
  split.
  - apply helper_retry in Hh as [Hbb _]. simpl in Hbb.
    destruct (grow_retry_nets_spec env (nets_to_retry st1) st1) as [Hnr Hall].
    simpl in Hnr, Hall. intros n Hn. rewrite Hnr in Hn.
    destruct (Hall n) as [_ Hout]. destruct (Hout Hn) as [-> _]. by rewrite Hbb.
  - intros node inherited level s node' s' Hs. by apply helper_retry in Hs as [? _].
Qed.

(** *** The nets of a node *)

Lemma insert_by_fanout_perm n l : insert_by_fanout env n l ≡ₚ n :: l.
Proof.
  induction l as [|m rest IH]; simpl; [done|].
  case_bool_decide; [done|]. rewrite IH. apply Permutation_swap.
Qed.

Lemma sort_by_fanout_perm l : sort_by_fanout env l ≡ₚ l.
Proof.
  induction l as [|n rest IH]; simpl; [done|].
  change (insert_by_fanout env n (sort_by_fanout env rest) ≡ₚ n :: rest).
  by rewrite insert_by_fanout_perm, IH.
Qed.

Lemma insert_by_fanout_sorted n l :
  StronglySorted (fanout_ge env) l ->
  StronglySorted (fanout_ge env) (insert_by_fanout env n l).
Proof.
  induction 1 as [|m rest Hs IH Hall]; simpl.
  { constructor; constructor. }
  case_bool_decide as Hmn.
  - constructor; [by constructor|]. constructor; [done|].
    eapply Forall_impl; [exact Hall|]. unfold fanout_ge. intros k Hk. simpl in Hk. lia.
  - constructor; [done|].
    rewrite insert_by_fanout_perm. constructor; [|done]. unfold fanout_ge. lia.
Qed.

Lemma sort_by_fanout_sorted l : StronglySorted (fanout_ge env) (sort_by_fanout env l).
Proof.
  induction l as [|n rest IH]; simpl; [constructor|].
  by apply insert_by_fanout_sorted.
Qed.

Lemma helper_node_cut node inherited level (st : State R) node' st' :
  decompose_route_partition_tree_helper env co node inherited level st = Ok (node', st') ->
  cutline_axis node' = cutline_axis node /\ cutline_pos node' = cutline_pos node.
Proof.
  destruct node as [ns l r ir rr vn ax p]. simpl. intros Hr.
  apply obind_Ok in Hr as ([acc st1] & _ & Hr).
  apply obind_Ok in Hr as (st2 & _ & Hr).
  destruct l as [l|], r as [r|]; try discriminate.
  - apply obind_Ok in Hr as ([l' st3] & _ & Hr).
    by apply obind_Ok in Hr as ([r' st4] & _ & [= <- <-]).
  - by injection Hr as <- <-.
Qed.

Lemma tree_nodes_unfold (t : PartitionTreeNode) :
  tree_nodes t
  = t :: TreeVocabulary.opt_tree_nodes (left t) ++ TreeVocabulary.opt_tree_nodes (right t).
Proof. by destruct t as [ns [l|] [r|] ir rr vn ax p]. Qed.

(** Node by node, the traversed tree is the tree it was given. *)
Lemma helper_kept node : forall inherited level (st : State R) node' st',
  decompose_route_partition_tree_helper env co node inherited level st = Ok (node', st') ->
  Forall2 (node_kept env) (tree_nodes node) (tree_nodes node').
Proof.
  induction node as [node IHl IHr] using tree_induction.
  intros inherited level st node' st' Hr.
  pose proof (helper_node_cut _ _ _ _ _ _ Hr) as [Hax Hpos].
  apply helper_node in Hr as (acc & st1 & st2 & _ & _ & Hn & _ & _ & _ & Hch).
  rewrite (tree_nodes_unfold node), (tree_nodes_unfold node').
  assert (Hroot : forall (Hl : left node' = None <-> left node = None)
                         (Hr : right node' = None <-> right node = None),
            node_kept env node node').
  { intros Hl Hr. unfold node_kept. rewrite Hn.
    split; [apply sort_by_fanout_perm|].
    split; [apply sort_by_fanout_sorted|]. done. }
  destruct (left node) as [l|] eqn:El, (right node) as [r|] eqn:Er; try done.
  - destruct Hch as (l' & r' & st3 & Hl & Hrr & El' & Er').
    rewrite El', Er'. simpl.
    constructor; [apply Hroot; by rewrite ?El', ?Er'|].
    apply Forall2_app; [by eapply (IHl l)|by eapply (IHr r)].
  - destruct Hch as (El' & Er' & _). rewrite El', Er'. simpl.
    constructor; [by apply Hroot|constructor].
Qed.

Lemma Forall2_concat_perm {A B} (f g : A -> list B) (l l' : list A) :
  Forall2 (fun a a' => g a' ≡ₚ f a) l l' ->
  concat (map g l') ≡ₚ concat (map f l).
Proof.
  induction 1 as [|a a' l l' Ha _ IH]; simpl; [done|]. by rewrite Ha, IH.
Qed.

Lemma helper_tree_nets node inherited level (st : State R) node' st' :
  decompose_route_partition_tree_helper env co node inherited level st = Ok (node', st') ->
  tree_nets node' ≡ₚ tree_nets node.
Proof.
  intros Hr. apply helper_kept in Hr. unfold tree_nets.
  apply Forall2_concat_perm. eapply Forall2_impl; [exact Hr|].
  by intros a a' (? & _).
Qed.

(** X17.  The traversal keeps the tree: node for node, in traversal order,
    the returned tree has the cutline of the tree it was given, children
    exactly where that tree has children, and the same nets, now in order of
    non-increasing sink count.  No net moves between nodes or is dropped. *)
Theorem traversal_keeps_tree node inherited level (st : State R) node' st' :
  decompose_route_partition_tree_helper env co node inherited level st = Ok (node', st') ->
  Forall2 (node_kept env) (tree_nodes node) (tree_nodes node') /\
  tree_nets node' ≡ₚ tree_nets node.
Proof.
  intros Hr. split; [by eapply helper_kept|by eapply helper_tree_nets].
Qed.

(** *** Rerouted nets *)

Lemma route_nets_at_node_rerouted_sub node level net_ids :
  forall acc (st : State R) acc' st',
  route_nets_at_node env co node level net_ids acc st = Ok (acc', st') ->
  exists extra, acc_rerouted acc' = acc_rerouted acc ++ extra /\
                extra `sublist_of` net_ids.
Proof.
  induction net_ids as [|n rest IH]; intros acc st acc' st'; simpl.
  - intros [= <- _]. exists []. by rewrite app_nil_r.
  - intros Hr. apply obind_Ok in Hr as ([acc1 st1] & Hstep & Hr).
    apply IH in Hr as (e2 & He2 & Hs2). simpl in He2.
    apply route_net_at_node_effects in Hstep as [_ Hstep].
    assert (He1 : acc_rerouted acc1 = acc_rerouted acc \/
                  acc_rerouted acc1 = acc_rerouted acc ++ [n]).
    { destruct Hstep as [(_ & -> & _)|(_ & _ & ? & _)]; [by right|done]. }
    destruct He1 as [He1|He1]; rewrite He2, He1.
    + exists e2. split; [done|]. by apply sublist_cons.
    + exists (n :: e2). split; [by rewrite <- app_assoc|]. by apply sublist_skip.
Qed.

Lemma helper_rerouted node : forall inherited level (st : State R) node' st',
  decompose_route_partition_tree_helper env co node inherited level st = Ok (node', st') ->
  Forall (fun nd => rerouted_nets nd `sublist_of` nets nd) (tree_nodes node').
Proof.
  induction node as [node IHl IHr] using tree_induction.
  intros inherited level st node' st' Hr.
  apply helper_node in Hr as (acc & st1 & st2 & Hnets & _ & Hn & _ & Hrr & _ & Hch).
  apply route_nets_at_node_rerouted_sub in Hnets as (extra & He & Hsub). simpl in He.
  rewrite (tree_nodes_unfold node').
  constructor; [by rewrite Hrr, He, Hn|].
  destruct (left node) as [l|], (right node) as [r|]; try done.
  - destruct Hch as (l' & r' & st3 & Hl & Hr2 & -> & ->). simpl.
    apply Forall_app. split; [by eapply (IHl l)|by eapply (IHr r)].
  - by destruct Hch as (-> & -> & _).
Qed.

Lemma Forall_concat_sublist {A B} (f g : A -> list B) (l : list A) :
  Forall (fun a => f a `sublist_of` g a) l ->
  concat (map f l) `sublist_of` concat (map g l).
Proof.
  induction 1 as [|a l Ha _ IH]; simpl; [done|]. by apply sublist_app.
Qed.

Lemma iteration_rerouted root (st : State R) res root' st' :
  decompose_route_partition_tree env co root st = Ok (res, root', st') ->
  Forall (fun nd => rerouted_nets nd `sublist_of` nets nd) (tree_nodes root') /\
  res_rerouted_nets res `sublist_of` tree_nets root' /\
  tree_nets root' ≡ₚ tree_nets root.
Proof.
  unfold decompose_route_partition_tree. intros Hr.
  apply obind_Ok in Hr as ([root1 st1] & Hh & [= <- <- <-]).
  pose proof (helper_rerouted _ _ _ _ _ _ Hh) as Hre.
  pose proof (helper_tree_nets _ _ _ _ _ _ Hh) as Hperm.
  destruct (reduce_partition_tree_helper_spec root1 (mk_results true [])) as [_ Hrr].
  simpl in Hrr. split; [done|]. split; [|done].
  rewrite Hrr. unfold tree_nets. by apply Forall_concat_sublist.
Qed.

(** X16.  The nets an iteration reports as rerouted are nets of the tree:
    at every node the rerouted nets are a sub-list of the node's nets, in
    the order they were routed, and the reduction lists them node by node;
    so each report is a net of the tree, and a tree that holds no net twice
    reports no net twice.  Routing a virtual net adds no report. *)
Theorem rerouted_nets_are_tree_nets root (st : State R) res root' st' :
  decompose_route_partition_tree env co root st = Ok (res, root', st') ->
  Forall (fun nd => rerouted_nets nd `sublist_of` nets nd) (tree_nodes root') /\
  res_rerouted_nets res `sublist_of` tree_nets root' /\
  (forall n, n ∈ res_rerouted_nets res -> n ∈ tree_nets root) /\
  (NoDup (tree_nets root) -> NoDup (res_rerouted_nets res)).
Proof.
  intros Hr. apply iteration_rerouted in Hr as (Hre & Hsub & Hperm).
  split; [done|]. split; [done|]. split.
  - intros n Hn. rewrite <- Hperm. by apply (sublist_subseteq _ _ Hsub).
  - intros Hnd. rewrite <- Hperm in Hnd. by eapply sublist_NoDup.
Qed.

(** *** Skeleton sink selection *)

(** For a sink inside the bounding box the bin index the code computes is
    the spatial bin of the specification. *)
Lemma sink_bin_spatial net_id bb isink :
  5 <= xmax bb - xmin bb + 1 < 2 ^ 31 -> 5 <= ymax bb - ymin bb + 1 < 2 ^ 31 ->
  valid_sink env net_id bb isink = true ->
  sink_bin env net_id bb
    (mk_bins ((xmax bb - xmin bb + 1) / 5) ((ymax bb - ymin bb + 1) / 5)
             ((xmax bb - xmin bb + 1) / ((xmax bb - xmin bb + 1) / 5) + 1)
             ((ymax bb - ymin bb + 1) / ((ymax bb - ymin bb + 1) / 5) + 1)) isink
  = sink_spatial_bin env net_id bb isink /\
  0 <= (sink_spatial_bin env net_id bb isink).1 < (xmax bb - xmin bb + 1) / 5 /\
  0 <= (sink_spatial_bin env net_id bb isink).2 < (ymax bb - ymin bb + 1) / 5.
Proof.
  intros HW HH. unfold valid_sink, sink_bin, terminal, sink_spatial_bin.
  rewrite andb_true_iff, bool_decide_eq_true. intros [Hpos Hin].
  rewrite bool_decide_eq_false_2 by lia.
  destruct (net_rr_terminals env net_id !! Z.to_nat isink) as [rr|]; [|discriminate].
  unfold inside_bb in Hin. rewrite andb_true_iff, !bool_decide_eq_true in Hin.
  destruct Hin as [Hx Hy].
  unfold bin_of, spatial_bin, bin_side, bins_along, bb_width, bb_height. simpl.
  rewrite !to_size_t_small by lia.
  split; [done|]. split; apply bin_index_bound; lia.
Qed.

Lemma take_first_spatial net_id bb targets : forall taken,
  5 <= xmax bb - xmin bb + 1 < 2 ^ 31 -> 5 <= ymax bb - ymin bb + 1 < 2 ^ 31 ->
  Forall (fun s => valid_sink env net_id bb s = true) targets ->
  take_first_per_bin env net_id bb
    (mk_bins ((xmax bb - xmin bb + 1) / 5) ((ymax bb - ymin bb + 1) / 5)
             ((xmax bb - xmin bb + 1) / ((xmax bb - xmin bb + 1) / 5) + 1)
             ((ymax bb - ymin bb + 1) / ((ymax bb - ymin bb + 1) / 5) + 1))
    taken targets
  = first_per_bin (sink_spatial_bin env net_id bb) taken targets.
Proof.
  induction targets as [|t rest IH]; intros taken HW HH Hall; simpl; [done|].
  apply Forall_cons in Hall as [Ht Hrest].
  destruct (sink_bin_spatial net_id bb t HW HH Ht) as [-> _].
  by rewrite !IH.
Qed.

(** C5.  For a net whose bbox is at least [MIN_DECOMP_BIN_WIDTH = 5] wide and
    tall, with its reached and unrouted sinks inside the bbox,
    [get_decomposition_isinks] returns the sinks the specification selects.
    The bin of a sink at [(x, y)] is
    [((x - xmin) / (W / (W / 5) + 1), (y - ymin) / (H / (H / 5) + 1))], one of
    [W / 5] by [H / 5] bins.  The result holds at most [bins_x * bins_y]
    sinks, no two in the same bin, none in a bin where the route tree already
    reaches a sink, taken in order from the unrouted sinks; every other bin
    that holds an unrouted sink gets the first unrouted sink falling into it,
    which is the most critical one when the unrouted sinks are sorted by
    decreasing criticality. *)
Theorem get_decomposition_isinks_bins (st : State R) net_id tree remaining_targets :
  5 <= xmax (route_bb st net_id) - xmin (route_bb st net_id) + 1 < 2 ^ 31 ->
  5 <= ymax (route_bb st net_id) - ymin (route_bb st net_id) + 1 < 2 ^ 31 ->
  route_tree co (rs st) net_id = Some tree ->
  forallb (valid_sink env net_id (route_bb st net_id)) (reached_isinks tree) = true ->
  forallb (valid_sink env net_id (route_bb st net_id)) remaining_targets = true ->
  exists out,
    get_decomposition_isinks env co st net_id remaining_targets = Ok out /\
    out = skeleton_selection env net_id (route_bb st net_id) (reached_isinks tree)
                             remaining_targets /\
    (forall s, s ∈ reached_isinks tree ++ remaining_targets ->
       match net_rr_terminals env net_id !! Z.to_nat s with
       | Some rr =>
           sink_spatial_bin env net_id (route_bb st net_id) s
           = ((node_xlow env rr - xmin (route_bb st net_id))
              / (bb_width (route_bb st net_id) / (bb_width (route_bb st net_id) / 5) + 1),
              (node_ylow env rr - ymin (route_bb st net_id))
              / (bb_height (route_bb st net_id) / (bb_height (route_bb st net_id) / 5) + 1))
       | None => False
       end /\
       0 <= (sink_spatial_bin env net_id (route_bb st net_id) s).1
         < bb_width (route_bb st net_id) / 5 /\
       0 <= (sink_spatial_bin env net_id (route_bb st net_id) s).2
         < bb_height (route_bb st net_id) / 5) /\
    Z.of_nat (length out)
    <= (bb_width (route_bb st net_id) / 5) * (bb_height (route_bb st net_id) / 5) /\
    NoDup (sink_spatial_bin env net_id (route_bb st net_id) <$> out) /\
    out `sublist_of` remaining_targets /\
    (forall s r, s ∈ out -> r ∈ reached_isinks tree ->
       sink_spatial_bin env net_id (route_bb st net_id) s
       <> sink_spatial_bin env net_id (route_bb st net_id) r) /\
    (forall t, t ∈ remaining_targets ->
       (forall r, r ∈ reached_isinks tree ->
          sink_spatial_bin env net_id (route_bb st net_id) r
          <> sink_spatial_bin env net_id (route_bb st net_id) t) ->
       exists s l1 l2,
         s ∈ out /\
         sink_spatial_bin env net_id (route_bb st net_id) s
         = sink_spatial_bin env net_id (route_bb st net_id) t /\
         remaining_targets = l1 ++ s :: l2 /\
         forall u, u ∈ l1 ->
           sink_spatial_bin env net_id (route_bb st net_id) u
           <> sink_spatial_bin env net_id (route_bb st net_id) s) /\
    (forall more_critical : Z -> Z -> Prop,
       StronglySorted more_critical remaining_targets ->
       forall t, t ∈ remaining_targets ->
         (forall r, r ∈ reached_isinks tree ->
            sink_spatial_bin env net_id (route_bb st net_id) r
            <> sink_spatial_bin env net_id (route_bb st net_id) t) ->
         exists s,
           s ∈ out /\
           sink_spatial_bin env net_id (route_bb st net_id) s
           = sink_spatial_bin env net_id (route_bb st net_id) t /\
           (s = t \/ more_critical s t)).
Proof.
  intros HW HH Htree Hreached Htargets.
  destruct (get_decomposition_isinks_grid env co st net_id tree remaining_targets
              HW HH Htree Hreached Htargets)
    as (b & out & Hb & _ & _ & Hget & Hout & Hlen & Hnd & Hsub & Hfresh & Hfirst & Hcrit).
  set (bb := route_bb st net_id) in *.
  rewrite sampling_bins_sane in Hb by done. injection Hb as <-.
  simpl in Hlen.
  assert (Hvr : Forall (fun s => valid_sink env net_id bb s = true) (reached_isinks tree)).
  { apply list.Forall_forall. intros s Hs%list_elem_of_In.
    rewrite forallb_forall in Hreached. by apply Hreached. }
  assert (Hvt : Forall (fun s => valid_sink env net_id bb s = true) remaining_targets).
  { apply list.Forall_forall. intros s Hs%list_elem_of_In.
    rewrite forallb_forall in Htargets. by apply Htargets. }
  assert (Hbr : forall r, r ∈ reached_isinks tree ->
            sink_bin env net_id bb
              (mk_bins ((xmax bb - xmin bb + 1) / 5) ((ymax bb - ymin bb + 1) / 5)
                       ((xmax bb - xmin bb + 1) / ((xmax bb - xmin bb + 1) / 5) + 1)
                       ((ymax bb - ymin bb + 1) / ((ymax bb - ymin bb + 1) / 5) + 1)) r
            = sink_spatial_bin env net_id bb r).
  { intros r Hr. rewrite list.Forall_forall in Hvr.
    by apply sink_bin_spatial, Hvr. }
  assert (Hbt : forall t, t ∈ remaining_targets ->
            sink_bin env net_id bb
              (mk_bins ((xmax bb - xmin bb + 1) / 5) ((ymax bb - ymin bb + 1) / 5)
                       ((xmax bb - xmin bb + 1) / ((xmax bb - xmin bb + 1) / 5) + 1)
                       ((ymax bb - ymin bb + 1) / ((ymax bb - ymin bb + 1) / 5) + 1)) t
            = sink_spatial_bin env net_id bb t).
  { intros t Ht. rewrite list.Forall_forall in Hvt.
    by apply sink_bin_spatial, Hvt. }
  assert (Hbo : forall s, s ∈ out -> s ∈ remaining_targets).
  { intros s Hs. by apply (sublist_subseteq _ _ Hsub). }
  exists out. split; [done|]. split.
  { rewrite Hout. unfold skeleton_sinks_spec, skeleton_selection.
    rewrite take_first_spatial by done. f_equal.
    apply Forall_fmap_ext, list.Forall_forall. exact Hbr. }
  split.
  { intros s Hs.
    assert (Hv : valid_sink env net_id bb s = true).
    { rewrite list.Forall_forall in Hvr, Hvt.
      apply elem_of_app in Hs as [Hs|Hs]; auto. }
    destruct (sink_bin_spatial net_id bb s HW HH Hv) as (_ & Hx & Hy).
    split; [|by unfold bb_width, bb_height].
    unfold valid_sink in Hv. apply andb_true_iff in Hv as [_ Hv].
    unfold sink_spatial_bin.
    destruct (net_rr_terminals env net_id !! Z.to_nat s); [done|discriminate]. }
  split; [by unfold bb_width, bb_height|].
  split.
  { replace (sink_spatial_bin env net_id bb <$> out)
      with (sink_bin env net_id bb
              (mk_bins ((xmax bb - xmin bb + 1) / 5) ((ymax bb - ymin bb + 1) / 5)
                       ((xmax bb - xmin bb + 1) / ((xmax bb - xmin bb + 1) / 5) + 1)
                       ((ymax bb - ymin bb + 1) / ((ymax bb - ymin bb + 1) / 5) + 1))
              <$> out); [done|].
    apply Forall_fmap_ext, list.Forall_forall. intros s Hs. by apply Hbt, Hbo. }
  split; [done|]. split.
  { intros s r Hs Hr. rewrite <- (Hbt s), <- (Hbr r) by auto. by apply Hfresh. }
  split.
  { intros t Ht Hnot.
    destruct (Hfirst t Ht) as (s & l1 & l2 & Hs & Hst & Hsplit & Hl1).
    { intros r Hr. rewrite (Hbt t), (Hbr r) by done. by apply Hnot. }
    exists s, l1, l2. split; [done|].
    assert (Hs' : s ∈ remaining_targets) by auto.
    split; [by rewrite <- (Hbt s), <- (Hbt t)|]. split; [done|].
    intros u Hu.
    assert (Hu' : u ∈ remaining_targets)
      by (rewrite Hsplit; apply elem_of_app; by left).
    rewrite <- (Hbt s), <- (Hbt u) by done. by apply Hl1. }
  intros more_critical Hsorted t Ht Hnot.
  destruct (Hcrit more_critical Hsorted t Ht) as (s & Hs & Hst & Hor).
  { intros r Hr. rewrite (Hbt t), (Hbr r) by done. by apply Hnot. }
  exists s. split; [done|]. split; [|done].
  rewrite <- (Hbt s), <- (Hbt t) by auto. done.
Qed.

(** *** Virtual nets *)

Lemma halves_of_weaken bbs axis pos (l1 l2 : list NetId) l r :
  (forall n, n ∈ l1 -> n ∈ l2) ->
  halves_of bbs axis pos l1 l r -> halves_of bbs axis pos l2 l r.
Proof. intros Hsub (Hin & ? & ? & ?). split; [by apply Hsub|done]. Qed.

Lemma route_nets_at_node_halves node level net_ids :
  forall acc (st : State R) acc' st',
  route_nets_at_node env co node level net_ids acc st = Ok (acc', st') ->
  exists ls rs,
    acc_left acc' = acc_left acc ++ ls /\ acc_right acc' = acc_right acc ++ rs /\
    Forall2 (halves_of (route_bb st) (cutline_axis node) (cutline_pos node) net_ids)
            ls rs.
Proof.
  induction net_ids as [|n rest IH]; intros acc st acc' st'; simpl.
  - intros [= <- _]. exists [], []. rewrite !app_nil_r. by split_and!.
  - intros Hr. apply obind_Ok in Hr as ([acc1 st1] & Hstep & Hr).
    apply IH in Hr as (ls & rs & Hl & Hrr & Hall). simpl in Hl, Hrr, Hall.
    apply route_net_at_node_effects in Hstep as [Hbb Hstep].
    rewrite Hbb in Hall.
    assert (Hall' : Forall2 (halves_of (route_bb st) (cutline_axis node)
                                       (cutline_pos node) (n :: rest)) ls rs).
    { eapply Forall2_impl; [exact Hall|]. intros l r.
      apply halves_of_weaken. intros k Hk. by right. }
    destruct Hstep as [(_ & -> & _)|(Hl1 & Hr1 & _)].
    + simpl in Hl, Hrr. eexists (_ :: ls), (_ :: rs).
      rewrite Hl, Hrr, <- !app_assoc. split; [done|]. split; [done|].
      constructor; [|done]. split; [left|done].
    + exists ls, rs. by rewrite Hl, Hrr, Hl1, Hr1.
Qed.

(** The body of the loop over [node.nets] pushes the two halves of the net
    to the children exactly when the net is decomposed. *)
Lemma route_net_at_node_pushes node level acc (st : State R) net_id acc' st' :
  route_net_at_node env co node level acc st net_id = Ok (acc', st') ->
  route_bb st' = route_bb st /\
  acc_left acc'
  = acc_left acc
    ++ (half_of (route_bb st) node LEFT
          <$> (if is_decomposed env co node level st net_id then [net_id] else [])) /\
  acc_right acc'
  = acc_right acc
    ++ (half_of (route_bb st) node RIGHT
          <$> (if is_decomposed env co node level st net_id then [net_id] else [])).
Proof.
  unfold route_net_at_node, is_decomposed. intros Hr.
  apply obind_Ok in Hr as (dec & Hdec & Hr). rewrite Hdec.
  apply obind_Ok in Hr as ([res st1] & Hdn & Hr).
  assert (Hdirect : forall s1 : State R,
            route_bb s1 = route_bb st ->
            (let '(flags, s2) := try_parallel_route_net env co s1 net_id in
             Ok (mk_acc (if negb (success flags) && negb (retry_with_full_bb flags)
                         then false else acc_is_routable acc)
                        (if was_rerouted flags then acc_rerouted acc ++ [net_id]
                         else acc_rerouted acc)
                        (acc_left acc) (acc_right acc),
                 if retry_with_full_bb flags
                 then set_nets_to_retry s2 (nets_to_retry s2 ++ [net_id]) else s2))
            = Ok (acc', st') ->
            route_bb st' = route_bb st /\
            acc_left acc' = acc_left acc ++ [] /\ acc_right acc' = acc_right acc ++ []).
  { intros s1 Hs1 Hd.
    pose proof (try_parallel_route_net_frame env co s1 net_id) as (Hbb & _ & _).
    destruct (try_parallel_route_net env co s1 net_id) as [flags s2].
    simpl in Hbb. injection Hd as <- <-. simpl. rewrite !app_nil_r.
    split; [|done]. destruct (retry_with_full_bb flags); simpl; congruence. }
  destruct dec.
  - rewrite Hdn.
    apply route_and_decompose_frame in Hdn as (Hbb & _ & Hres).
    destruct res as [[l r]|]; [|by apply (Hdirect st1)].
    destruct Hres as [_ Hpair].
    apply make_decomposed_pair_spec in Hpair as [-> ->].
    destruct (left node), (right node); try discriminate.
    injection Hr as <- <-. simpl. unfold half_of. rewrite Hbb. by split_and!.
  - injection Hdn as <- <-. by apply (Hdirect st).
Qed.

Lemma route_nets_at_node_pushes node level net_ids :
  forall acc (st : State R) acc' st',
  route_nets_at_node env co node level net_ids acc st = Ok (acc', st') ->
  acc_left acc'
  = acc_left acc
    ++ (half_of (route_bb st) node LEFT
          <$> decomposed_at env co node level net_ids acc st) /\
  acc_right acc'
  = acc_right acc
    ++ (half_of (route_bb st) node RIGHT
          <$> decomposed_at env co node level net_ids acc st).
Proof.
  induction net_ids as [|n rest IH]; intros acc st acc' st'; simpl.
  - intros [= <- _]. by rewrite !app_nil_r.
  - intros Hr. apply obind_Ok in Hr as ([acc1 st1] & Hstep & Hr).
    rewrite Hstep.
    apply IH in Hr as [Hl Hrr]. simpl in Hl, Hrr.
    apply route_net_at_node_pushes in Hstep as (Hbb & Hl1 & Hr1).
    rewrite Hbb in Hl, Hrr.
    rewrite Hl, Hrr, Hl1, Hr1, !fmap_app, <- !app_assoc. done.
Qed.

(** A net is only decomposed when it is found eligible. *)
Lemma decomposed_at_sub node level net_ids : forall acc (st : State R) n,
  n ∈ decomposed_at env co node level net_ids acc st -> n ∈ net_ids.
Proof.
  induction net_ids as [|m rest IH]; intros acc st n; simpl; [done|].
  intros [Hn|Hn]%elem_of_app.
  - destruct (is_decomposed _ _ _ _ _ _); [|by apply elem_of_nil in Hn].
    apply list_elem_of_singleton in Hn as ->. left.
  - destruct (route_net_at_node _ _ _ _ _ _ _) as [[acc1 st1]| | |];
      try (by apply elem_of_nil in Hn).
    right. by eapply IH.
Qed.

(** X18.  When the traversal returns from a node with children, each child
    holds, after the virtual nets it already had, one virtual net for every
    net the loop over [node.nets] decomposed (found eligible, and
    [route_and_decompose] returned a pair), in the order of the loop and in
    the same order on both sides: the left child the net's bounding box
    clipped to the side up to the cutline, the right child the box clipped to
    the side beyond it, both carrying the identity of the net, which is a net
    of the node.  The node itself keeps its own virtual nets and appends
    those its parent handed down. *)
Theorem children_receive_matching_halves node inherited level (st : State R)
    node' st' l r :
  decompose_route_partition_tree_helper env co node inherited level st = Ok (node', st') ->
  left node = Some l -> right node = Some r ->
  let decomposed :=
    decomposed_at env co node level (sort_by_fanout env (nets node))
                  (mk_acc true [] [] []) st in
  virtual_nets node' = virtual_nets node ++ inherited /\
  (forall n, n ∈ decomposed -> n ∈ nets node) /\
  exists l' r',
    left node' = Some l' /\ right node' = Some r' /\
    virtual_nets l'
    = virtual_nets l
      ++ map (fun n => mk_vnet n (clip_to_side (route_bb st n) (cutline_axis node)
                                               (cutline_pos node) LEFT)) decomposed /\
    virtual_nets r'
    = virtual_nets r
      ++ map (fun n => mk_vnet n (clip_to_side (route_bb st n) (cutline_axis node)
                                               (cutline_pos node) RIGHT)) decomposed.
Proof.
  intros Hr El Er. simpl.
  apply helper_node in Hr as (acc & st1 & st2 & Hnets & _ & _ & _ & _ & Hv & Hch).
  split; [done|]. rewrite El, Er in Hch.
  destruct Hch as (l' & r' & st3 & Hl & Hr2 & El' & Er').
  split.
  { intros n Hn%decomposed_at_sub. by rewrite <- (sort_by_fanout_perm (nets node)). }
  apply route_nets_at_node_pushes in Hnets as [Hls Hrs]. simpl in Hls, Hrs.
  apply helper_node in Hl as (_ & _ & _ & _ & _ & _ & _ & _ & Hvl & _).
  apply helper_node in Hr2 as (_ & _ & _ & _ & _ & _ & _ & _ & Hvr & _).
  exists l', r'. rewrite Hvl, Hvr, Hls, Hrs. done.
Qed.

(** *** Nets that need no routing *)

(** X19.  A net that [should_really_route_net] finds in no need of routing
    goes through the loop body without a trace, eligible for decomposition
    or not: [route_and_decompose] returns no decomposition before setting
    anything up, [try_parallel_route_net] reports success without calling
    the router, and the node's results, the retry collection and the whole
    state are left as they were. *)
Theorem net_without_work_is_skipped node level acc (st : State R) net_id eligible :
  should_really_route_net env co st net_id = false ->
  was_rerouted (flags_init env) = false ->
  retry_with_full_bb (flags_init env) = false ->
  should_decompose_net env st net_id level (cutline_pos node) (cutline_axis node)
  = Ok eligible ->
  route_and_decompose env co st net_id node = Ok (None, st) /\
  route_net_at_node env co node level acc st net_id = Ok (acc, st).
Proof.
  intros Hskip Hw Hretry Hdec.
  assert (Hrd : route_and_decompose env co st net_id node = Ok (None, st)).
  { unfold route_and_decompose. by rewrite Hskip. }
  split; [done|].
  unfold route_net_at_node. rewrite Hdec. cbn [obind].
  assert (Hdn : (if eligible then route_and_decompose env co st net_id node
                 else Ok (None, st)) = Ok (None, st)) by (by destruct eligible).
  rewrite Hdn. cbn [obind].
  unfold try_parallel_route_net. rewrite Hskip. simpl.
  rewrite Hw, Hretry. by destruct acc.
Qed.

(** *** The retry collection *)

Lemma grow_retry_nets_rest l : forall (st : State R),
  let st' := foldl (grow_retry_net env) st l in
  rs st' = rs st /\ connections_routed st' = connections_routed st /\
  nets_routed st' = nets_routed st.
Proof.
  induction l as [|x l IH]; intros st; simpl; [done|].
  by destruct (IH (grow_retry_net env st x)) as (-> & -> & ->).
Qed.

(** X20.  The final loop over the retry collection depends only on which
    nets the collection holds, not on their order or on repetitions: two
    collections with the same members leave the same bounding boxes and
    retry counters, and the loop touches nothing else.  (The collection is
    filled by concurrent tasks, so its order is not determined.) *)
Theorem grow_retry_nets_order_free (l l' : list NetId) (st : State R) :
  (forall n, n ∈ l <-> n ∈ l') ->
  let a := foldl (grow_retry_net env) st l in
  let b := foldl (grow_retry_net env) st l' in
  (forall n, route_bb a n = route_bb b n /\ decomp_retries a n = decomp_retries b n) /\
  rs a = rs b /\ nets_to_retry a = nets_to_retry b /\
  connections_routed a = connections_routed b /\ nets_routed a = nets_routed b.
Proof.
  intros Hsame. simpl.
  destruct (grow_retry_nets_spec env l st) as [Hnr Hall].
  destruct (grow_retry_nets_spec env l' st) as [Hnr' Hall'].
  destruct (grow_retry_nets_rest l st) as (Hrs & Hc & Hn).
  destruct (grow_retry_nets_rest l' st) as (Hrs' & Hc' & Hn').
  simpl in *. split; [|by rewrite Hrs, Hrs', Hnr, Hnr', Hc, Hc', Hn, Hn'].
  intros n. destruct (Hall n) as [Hin Hout]. destruct (Hall' n) as [Hin' Hout'].
  destruct (decide (n ∈ l)) as [Hn1|Hn1].
  - destruct (Hin Hn1) as [-> ->]. by destruct (Hin' (proj1 (Hsame n) Hn1)) as [-> ->].
  - destruct (Hout Hn1) as [-> ->].
    assert (Hn2 : n ∉ l') by (by rewrite <- Hsame).
    by destruct (Hout' Hn2) as [-> ->].
Qed.

Lemma route_nets_at_node_retry_sub node level net_ids :
  forall acc (st : State R) acc' st',
  route_nets_at_node env co node level net_ids acc st = Ok (acc', st') ->
  exists extra, nets_to_retry st' = nets_to_retry st ++ extra /\
                forall n, n ∈ extra -> n ∈ net_ids.
Proof.
  induction net_ids as [|n rest IH]; intros acc st acc' st'; simpl.
  - intros [= _ <-]. exists []. rewrite app_nil_r. split; [done|].
    by intros ? ?%elem_of_nil.
  - intros Hr. apply obind_Ok in Hr as ([acc1 st1] & Hstep & Hr).
    apply IH in Hr as (e2 & He2 & Hs2). simpl in He2.
    apply route_net_at_node_effects in Hstep as [_ Hstep].
    assert (He1 : nets_to_retry st1 = nets_to_retry st \/
                  nets_to_retry st1 = nets_to_retry st ++ [n]).
    { destruct Hstep as [(_ & _ & _ & ?)|(_ & _ & _ & _ & ?)]; [by left|done]. }
    destruct He1 as [He1|He1]; rewrite He2, He1.
    + exists e2. split; [done|]. intros k Hk. right. by apply Hs2.
    + exists (n :: e2). split; [by rewrite <- app_assoc|].
      intros k [->|Hk]%elem_of_cons; [left|right; by apply Hs2].
Qed.

Lemma route_vnets_at_node_retry_sub vnets : forall (st st' : State R),
  route_vnets_at_node env co vnets st = Ok st' ->
  exists extra, nets_to_retry st' = nets_to_retry st ++ extra /\
                forall n, n ∈ extra -> n ∈ vnet_id <$> vnets.
Proof.
  induction vnets as [|v rest IH]; intros st st'; simpl.
  - intros [= <-]. exists []. rewrite app_nil_r. split; [done|].
    by intros ? ?%elem_of_nil.
  - intros Hr. apply obind_Ok in Hr as (st1 & Hstep & Hr).
    apply IH in Hr as (e2 & He2 & Hs2).
    apply route_vnet_at_node_effects in Hstep as [_ Hstep].
    assert (He1 : nets_to_retry st1 = nets_to_retry st \/
                  nets_to_retry st1 = nets_to_retry st ++ [vnet_id v]).
    { destruct Hstep as [[_ ?]|[_ ?]]; [by left|done]. }
    destruct He1 as [He1|He1]; rewrite He2, He1.
    + exists e2. split; [done|]. intros k Hk. right. by apply Hs2.
    + exists (vnet_id v :: e2). split; [by rewrite <- app_assoc|].
      intros k [->|Hk]%elem_of_cons; [left|right; by apply Hs2].
Qed.

Lemma tree_vnets_unfold (t : PartitionTreeNode) :
  tree_vnets t
  = virtual_nets t
    ++ concat (map virtual_nets (TreeVocabulary.opt_tree_nodes (left t)))
    ++ concat (map virtual_nets (TreeVocabulary.opt_tree_nodes (right t))).
Proof.
  unfold tree_vnets. rewrite tree_nodes_unfold. simpl. by rewrite map_app, concat_app.
Qed.

Lemma halves_ids bbs axis pos (net_ids : list NetId) ls rs :
  Forall2 (halves_of bbs axis pos net_ids) ls rs ->
  (forall n, n ∈ vnet_id <$> ls -> n ∈ net_ids) /\
  (forall n, n ∈ vnet_id <$> rs -> n ∈ net_ids).
Proof.
  induction 1 as [|l r ls rs (Hin & Hid & _) _ [IHl IHr]]; simpl.
  { split; by intros ? ?%elem_of_nil. }
  split; intros n [->|Hn]%elem_of_cons; auto. by rewrite Hid.
Qed.

(** The traversal of a subtree appends to the retry collection only nets of
    the subtree and nets whose virtual nets it routes. *)
Lemma helper_retry_sub node : forall inherited level (st : State R) node' st',
  decompose_route_partition_tree_helper env co node inherited level st = Ok (node', st') ->
  exists extra, nets_to_retry st' = nets_to_retry st ++ extra /\
    forall n, n ∈ extra ->
      n ∈ tree_nets node \/ n ∈ vnet_id <$> (tree_vnets node ++ inherited).
Proof.
  induction node as [node IHl IHr] using tree_induction.
  intros inherited level st node' st' Hr.
  apply helper_node in Hr as (acc & st1 & st2 & Hnets & Hv & _ & _ & _ & _ & Hch).
  pose proof (route_nets_at_node_halves _ _ _ _ _ _ _ Hnets) as (ls & rs & Hls & Hrs & Hall).
  simpl in Hls, Hrs. apply halves_ids in Hall as [Hidl Hidr].
  apply route_nets_at_node_retry_sub in Hnets as (e1 & He1 & Hs1).
  apply route_vnets_at_node_retry_sub in Hv as (e2 & He2 & Hs2).
  assert (Hown : forall n, n ∈ sort_by_fanout env (nets node) -> n ∈ tree_nets node).
  { intros n Hn. rewrite sort_by_fanout_perm in Hn.
    rewrite tree_nets_unfold, elem_of_app. by left. }
  assert (Hmine : forall n, n ∈ vnet_id <$> (virtual_nets node ++ inherited) ->
            n ∈ vnet_id <$> (tree_vnets node ++ inherited)).
  { intros n. rewrite tree_vnets_unfold, !fmap_app, !elem_of_app. tauto. }
  destruct (left node) as [l|] eqn:El, (right node) as [r|] eqn:Er; try done.
  - destruct Hch as (l' & r' & st3 & Hl & Hr2 & _).
    apply (IHl l eq_refl) in Hl as (e3 & He3 & Hs3).
    apply (IHr r eq_refl) in Hr2 as (e4 & He4 & Hs4).
    exists (e1 ++ e2 ++ e3 ++ e4). split.
    { rewrite He4, He3, He2, He1. by rewrite <- !app_assoc. }
    intros n. rewrite !elem_of_app. intros [Hn|[Hn|[Hn|Hn]]].
    + left. by apply Hown, Hs1.
    + right. by apply Hmine, Hs2.
    + apply Hs3 in Hn. rewrite Hls, fmap_app, elem_of_app in Hn.
      rewrite tree_nets_unfold, tree_vnets_unfold, El, Er.
      rewrite !fmap_app, !elem_of_app. simpl.
      destruct Hn as [Hn|[Hn|Hn]]; [tauto|unfold tree_vnets in Hn; tauto|].
      left. left. rewrite <- (sort_by_fanout_perm (nets node)). by apply Hidl.
    + apply Hs4 in Hn. rewrite Hrs, fmap_app, elem_of_app in Hn.
      rewrite tree_nets_unfold, tree_vnets_unfold, El, Er.
      rewrite !fmap_app, !elem_of_app. simpl.
      destruct Hn as [Hn|[Hn|Hn]]; [tauto|unfold tree_vnets in Hn; tauto|].
      left. left. rewrite <- (sort_by_fanout_perm (nets node)). by apply Hidr.
  - destruct Hch as (_ & _ & ->).
    exists (e1 ++ e2). split.
    { rewrite He2, He1. by rewrite <- !app_assoc. }
    intros n. rewrite !elem_of_app. intros [Hn|Hn].
    + left. by apply Hown, Hs1.
    + right. by apply Hmine, Hs2.
Qed.

(** X21.  After an iteration that builds its own tree, the retry collection
    holds only nets of the netlist the tree was built from, and so does the
    list of rerouted nets: the collection is cleared first, a freshly built
    tree carries no virtual nets, and the traversal adds a net only when it
    has routed that net or one of its halves. *)
Theorem iteration_reports_only_netlist_nets all_nets (st : State R) res root' st' :
  decompose_route_with_partition_tree env co all_nets st = Ok (res, root', st') ->
  (forall n, n ∈ nets_to_retry st' -> n ∈ all_nets) /\
  (forall n, n ∈ res_rerouted_nets res -> n ∈ all_nets).
Proof.
  unfold decompose_route_with_partition_tree. intros Hr.
  apply obind_Ok in Hr as (root & Hb & Hr).
  destruct root as [root|]; [|discriminate].
  unfold PartitionTree.build in Hb.
  pose proof (build_helper_placed _ _ _ _ _ _ _ _ _ Hb) as [Hperm _].
  pose proof (build_helper_no_vnets _ _ _ _ _ _ _ _ _ Hb) as Hshape.
  simpl in Hperm, Hshape.
  assert (Hnov : tree_vnets root = []).
  { unfold tree_vnets. clear -Hshape.
    induction Hshape as [|nd nds Hv _ IH]; simpl; [done|].
    by rewrite Hv, IH. }
  split.
  - unfold decompose_route_partition_tree in Hr.
    apply obind_Ok in Hr as ([root1 st1] & Hh & [= _ _ <-]).
    apply helper_retry_sub in Hh as (extra & He & Hsub). simpl in He.
    destruct (grow_retry_nets_spec env (nets_to_retry st1) st1) as [Hnr _].
    simpl in Hnr. intros n. rewrite Hnr, He. intros Hn.
    apply Hsub in Hn. rewrite Hnov in Hn. simpl in Hn.
    destruct Hn as [Hn|Hn]; [by rewrite <- Hperm|by apply elem_of_nil in Hn].
  - apply iteration_rerouted in Hr as (_ & Hsub & Hp).
    intros n Hn. rewrite <- Hperm, <- Hp. by apply (sublist_subseteq _ _ Hsub).
Qed.

(** *** Sinks outside the bounding box *)

Lemma sample_get_out_of_range (bx by_ x y : Z) :
  0 <= x -> 0 <= y -> bx <= x \/ by_ <= y ->
  sample_get (replicate (Z.to_nat bx) (replicate (Z.to_nat by_) NONE)) x y = Crash.
Proof.
  intros Hx Hy Hout. unfold sample_get.
  destruct (replicate (Z.to_nat bx) _ !! Z.to_nat x) as [row|] eqn:Hrow; [|done].
  apply lookup_replicate in Hrow as [-> Hlt].
  destruct (replicate (Z.to_nat by_) NONE !! Z.to_nat y) as [v|] eqn:Hv; [|done].
  apply lookup_replicate in Hv as [_ Hlt']. lia.
Qed.

Lemma wrapped_bin_index d w : - 2 ^ 31 <= d < 0 -> 6 <= w <= 10 -> 2 ^ 31 <= to_size_t d / w.
Proof.
  intros Hd Hw. unfold to_size_t.
  replace (d mod 2 ^ 64) with (d + 2 ^ 64)
    by (apply Z.mod_unique with (-1); lia).
  apply Z.div_le_lower_bound; lia.
Qed.

(** X23.  [get_decomposition_isinks] relies on the sinks lying inside the
    bounding box of the net: if the first sink it examines (the first
    reached sink, or the first remaining target when nothing is reached)
    has its RR node left of or above the box, the unsigned difference to
    the box origin wraps around and the sample grid is indexed out of
    range. *)
Theorem sink_before_bb_origin_out_of_range (st : State R) net_id tree targets first rr :
  let bb := route_bb st net_id in
  5 <= xmax bb - xmin bb + 1 < 2 ^ 31 -> 5 <= ymax bb - ymin bb + 1 < 2 ^ 31 ->
  route_tree co (rs st) net_id = Some tree ->
  head (reached_isinks tree ++ targets) = Some first ->
  terminal env net_id first = Ok rr ->
  xmin bb - 2 ^ 31 <= node_xlow env rr < xmin bb \/
  ymin bb - 2 ^ 31 <= node_ylow env rr < ymin bb ->
  get_decomposition_isinks env co st net_id targets = Crash.
Proof.
  intros bb HW HH Htree Hfirst Hterm Hout. subst bb.
  unfold get_decomposition_isinks. rewrite Htree, sampling_bins_sane by done.
  cbn [bins_x bins_y].
  set (W := xmax (route_bb st net_id) - xmin (route_bb st net_id) + 1) in *.
  set (H := ymax (route_bb st net_id) - ymin (route_bb st net_id) + 1) in *.
  set (b := mk_bins _ _ _ _).
  pose proof (bin_width_bounds W (proj1 HW)) as HbW.
  pose proof (bin_width_bounds H (proj1 HH)) as HbH.
  assert (HBx : 1 <= W / 5 < 2 ^ 31)
    by (split; [apply Z.div_le_lower_bound|apply Z.div_lt_upper_bound]; lia).
  assert (HBy : 1 <= H / 5 < 2 ^ 31)
    by (split; [apply Z.div_le_lower_bound|apply Z.div_lt_upper_bound]; lia).
  assert (Hfind : to_size_t (W / 5 * (H / 5)) <> 0).
  { rewrite to_size_t_small; [nia|]. split; [nia|].
    apply Z.lt_le_trans with (2 ^ 31 * 2 ^ 31); [nia|]. by vm_compute. }
  assert (Hget : sample_get
                   (replicate (Z.to_nat (W / 5)) (replicate (Z.to_nat (H / 5)) NONE))
                   (bin_of env (route_bb st net_id) b rr).1
                   (bin_of env (route_bb st net_id) b rr).2 = Crash).
  { unfold bin_of, b. cbn [fst snd bin_width_x bin_width_y].
    assert (Hnn : forall d w, 0 < w -> 0 <= to_size_t d / w).
    { intros d w Hw. apply Z.div_pos; [|done]. unfold to_size_t.
      apply Z.mod_pos_bound. done. }
    apply sample_get_out_of_range; [apply Hnn; lia..|].
    destruct Hout as [Hx|Hy]; [left|right].
    - pose proof (wrapped_bin_index (node_xlow env rr - xmin (route_bb st net_id))
                    (W / (W / 5) + 1) ltac:(lia) ltac:(lia)). lia.
    - pose proof (wrapped_bin_index (node_ylow env rr - ymin (route_bb st net_id))
                    (H / (H / 5) + 1) ltac:(lia) ltac:(lia)). lia. }
  destruct (reached_isinks tree) as [|r rest].
  - simpl in Hfirst. destruct targets as [|t rest]; [discriminate|].
    injection Hfirst as ->. cbn [mark_reached obind sample_targets].
    rewrite bool_decide_eq_false_2 by done. rewrite Hterm. cbn [obind].
    destruct (bin_of env (route_bb st net_id) b rr) as [x y]. simpl in Hget.
    by rewrite Hget.
  - simpl in Hfirst. injection Hfirst as ->. cbn [mark_reached].
    rewrite bool_decide_eq_false_2 by done. rewrite Hterm. cbn [obind].
    destruct (bin_of env (route_bb st net_id) b rr) as [x y]. simpl in Hget.
    by rewrite Hget.
Qed.

(** *** An empty netlist *)

(** X22.  The constructor leaves the root of the tree null exactly when the
    netlist is empty, whatever the size of the grid; the iteration then
    dereferences the null root. *)
Theorem empty_netlist_has_no_root (st : State R) :
  (forall bbs fanout all_nets W H,
     PartitionTree.build bbs fanout all_nets W H = Ok None <-> all_nets = []) /\
  decompose_route_with_partition_tree env co [] st = Crash.
Proof.
  split; [|done]. intros bbs fanout all_nets W H. split.
  - apply build_helper_None.
  - by intros ->.
Qed.

(** *** A failing net anywhere in the tree *)

(** Every call of the traversal returns a node of the returned tree. *)
Lemma visits_returned node inherited level (st : State R) sub inh lvl s :
  visits env co node inherited level st sub inh lvl s ->
  forall node' st',
    decompose_route_partition_tree_helper env co node inherited level st
    = Ok (node', st') ->
    exists sub' s',
      decompose_route_partition_tree_helper env co sub inh lvl s = Ok (sub', s') /\
      sub' ∈ tree_nodes node'.
Proof.
  induction 1 as [node inherited level st
                 |node inherited level st acc st1 st2 l r sub inh lvl s El Er Hn Hv _ IH
                 |node inherited level st acc st1 st2 l r l' st3 sub inh lvl s
                    El Er Hn Hv Hl _ IH];
    intros node' st' Hh.
  - exists node', st'. split; [done|]. rewrite tree_nodes_unfold. left.
  - apply helper_node in Hh
      as (acc0 & st10 & st20 & Hn0 & Hv0 & _ & _ & _ & _ & Hch).
    rewrite Hn in Hn0. injection Hn0 as <- <-.
    rewrite Hv in Hv0. injection Hv0 as <-.
    rewrite El, Er in Hch. destruct Hch as (l0 & r0 & st30 & Hl0 & _ & El' & _).
    destruct (IH _ _ Hl0) as (sub' & s' & Hsub & Hin).
    exists sub', s'. split; [done|].
    rewrite tree_nodes_unfold, El'. simpl. right. apply elem_of_app. by left.
  - apply helper_node in Hh
      as (acc0 & st10 & st20 & Hn0 & Hv0 & _ & _ & _ & _ & Hch).
    rewrite Hn in Hn0. injection Hn0 as <- <-.
    rewrite Hv in Hv0. injection Hv0 as <-.
    rewrite El, Er in Hch. destruct Hch as (l0 & r0 & st30 & Hl0 & Hr0 & _ & Er').
    rewrite Hl in Hl0. injection Hl0 as <- <-.
    destruct (IH _ _ Hr0) as (sub' & s' & Hsub & Hin).
    exists sub', s'. split; [done|].
    rewrite tree_nodes_unfold, Er'. simpl. right. apply elem_of_app. by right.
Qed.

(** C9, amended.  The iteration's [is_routable] is the conjunction of the
    flags of all nodes of the traversed tree.  For a net routed at any node
    the traversal visits, a result with [success = false] and
    [retry_with_full_bb = false] makes the traversal write
    [is_routable = false] on that node of the returned tree, so the iteration
    reports [is_routable = false].  A node's flag is decided by the loop over
    its nets alone: the same result for a virtual net leaves the flag and
    sets the retry counter of its net to [MAX_DECOMP_REROUTE] instead. *)
Theorem unroutable_net_marks_node root (st : State R) res root' st' :
  decompose_route_partition_tree env co root st = Ok (res, root', st') ->
  res_is_routable res = forallb is_routable (tree_nodes root') /\
  (forall sub inh lvl s n acc1 s1 s2,
     visits env co root [] 0 (set_nets_to_retry st []) sub inh lvl s ->
     reaches_net env co sub lvl s n acc1 s1 ->
     routed_directly env co sub lvl s1 n s2 ->
     success (fst (try_parallel_route_net env co s2 n)) = false ->
     retry_with_full_bb (fst (try_parallel_route_net env co s2 n)) = false ->
     (exists sub' s',
        decompose_route_partition_tree_helper env co sub inh lvl s = Ok (sub', s') /\
        sub' ∈ tree_nodes root' /\
        is_routable sub' = false) /\
     res_is_routable res = false) /\
  (forall sub inh lvl s,
     visits env co root [] 0 (set_nets_to_retry st []) sub inh lvl s ->
     exists sub' s' acc s1,
       decompose_route_partition_tree_helper env co sub inh lvl s = Ok (sub', s') /\
       sub' ∈ tree_nodes root' /\
       route_nets_at_node env co sub lvl (sort_by_fanout env (nets sub))
                          (mk_acc true [] [] []) s = Ok (acc, s1) /\
       is_routable sub' = acc_is_routable acc) /\
  (forall vnet (sv : State R) flags sv',
     route_virtual_net env co sv vnet = Ok (flags, sv') ->
     success flags = false -> retry_with_full_bb flags = false ->
     route_vnet_at_node env co sv vnet
     = Ok (set_decomp_retries sv'
             (<[vnet_id vnet := MAX_DECOMP_REROUTE]> (decomp_retries sv')))).
Proof.
  unfold decompose_route_partition_tree. intros Hr.
  apply obind_Ok in Hr as ([root1 st1] & Hh & [= <- <- <-]).
  destruct (reduce_partition_tree_helper_spec root1 (mk_results true [])) as [Hred _].
  simpl in Hred.
  split; [done|]. split; [|split].
  - intros sub inh lvl s n acc1 s1 s2 Hvis Hreach Hdirect Hs Hretry.
    destruct (visits_returned _ _ _ _ _ _ _ _ Hvis _ _ Hh) as (sub' & s' & Hsub & Hin).
    destruct (helper_marks_node env co sub inh lvl s sub' s' Hsub) as (Hnet & _).
    assert (Hflag : is_routable sub' = false) by (by eapply Hnet).
    split; [by exists sub', s'|].
    rewrite Hred. apply not_true_is_false. intros Hall.
    rewrite forallb_forall in Hall. apply list_elem_of_In, Hall in Hin. congruence.
  - intros sub inh lvl s Hvis.
    destruct (visits_returned _ _ _ _ _ _ _ _ Hvis _ _ Hh) as (sub' & s' & Hsub & Hin).
    destruct (helper_node env co _ _ _ _ _ _ Hsub)
      as (acc & s1 & _ & Hnets & _ & _ & Hflag & _).
    by exists sub', s', acc, s1.
  - intros vnet sv flags sv' Hv Hs Hretry.
    unfold route_vnet_at_node. rewrite Hv. simpl. by rewrite Hs, Hretry.
Qed.

(** *** Retried nets in the iterations that follow *)

Lemma iteration_retries root (st : State R) res root' st' :
  decompose_route_partition_tree env co root st = Ok (res, root', st') ->
  retries_bounded st ->
  retries_bounded st' /\ retries_grow st st'.
Proof.
  unfold decompose_route_partition_tree. intros Hr Hb.
  apply obind_Ok in Hr as ([root1 st1] & Hh & [= <- <- <-]).
  apply helper_retries in Hh as [Hb1 Hg1]; [|done].
  destruct (grow_retry_nets_spec env (nets_to_retry st1) st1) as [_ Hall]. simpl in Hall.
  split; intros n; destruct (Hall n) as [Hin Hout];
    specialize (Hb1 n); specialize (Hg1 n); simpl in Hg1;
    (destruct (decide (n ∈ nets_to_retry st1)) as [Hn|Hn];
     [destruct (Hin Hn) as [_ ->]|destruct (Hout Hn) as [_ ->]]);
    unfold MAX_DECOMP_REROUTE in *; lia.
Qed.

Lemma later_retries (st st' : State R) :
  later env co st st' ->
  retries_bounded st -> retries_bounded st' /\ retries_grow st st'.
Proof.
  induction 1 as [|st1 st2 _ IH Heq|st1 root res root' st2 _ IH Hit]; intros Hb.
  - split; [done|]. intros n. lia.
  - destruct (IH Hb) as [Hb1 Hg1].
    split; intros n; rewrite Heq; [apply Hb1|apply Hg1].
  - destruct (IH Hb) as [Hb1 Hg1].
    destruct (iteration_retries _ _ _ _ _ Hit Hb1) as [Hb2 Hg2].
    split; [done|]. intros n. specialize (Hg1 n). specialize (Hg2 n). lia.
Qed.

(** C4, amended.  When [decompose_route_partition_tree] returns, the retry
    collection is the one the traversal left (cleared first, then only
    appended to), and every net in it has its bounding box set to the full
    device [{0, grid_width - 1, 0, grid_height - 1}] and its retry counter set
    to [MAX_DECOMP_REROUTE = 5].  In every state reached afterwards by further
    iterations and by the controller (whose bounding-box update leaves the
    retry counters alone) the counter is still 5, the net is not eligible for
    decomposition and the loop over a node's nets pushes no virtual net for
    it; and as long as its bounding box is still the full device, a partition
    tree built from the bounding boxes holds it at the root. *)
Theorem decompose_route_partition_tree_retry (root : PartitionTreeNode)
    (st : State R) res root' st' :
  0 < grid_width env < 2 ^ 31 -> 0 < grid_height env < 2 ^ 31 ->
  retries_bounded st ->
  decompose_route_partition_tree env co root st = Ok (res, root', st') ->
  (exists st1,
     decompose_route_partition_tree_helper env co root [] 0 (set_nets_to_retry st [])
     = Ok (root', st1) /\
     nets_to_retry st' = nets_to_retry st1) /\
  (forall (ld : BoxLoaders) dynamic conflicted rerouted sc (s : State R),
     decomp_retries (snd (update_route_bb env ld dynamic conflicted rerouted sc s))
     = decomp_retries s) /\
  forall n, n ∈ nets_to_retry st' ->
    route_bb st' n = mk_bb 0 (grid_width env - 1) 0 (grid_height env - 1) /\
    decomp_retries st' n = 5 /\
    forall st'', later env co st' st'' ->
      decomp_retries st'' n = 5 /\
      (forall level cutline_pos axis,
         should_decompose_net env st'' n level cutline_pos axis = Ok false) /\
      (forall node level acc acc' s',
         route_net_at_node env co node level acc st'' n = Ok (acc', s') ->
         acc_left acc' = acc_left acc /\ acc_right acc' = acc_right acc) /\
      (route_bb st'' n = mk_bb 0 (grid_width env - 1) 0 (grid_height env - 1) ->
       forall all_nets t,
         n ∈ all_nets ->
         PartitionTree.build (route_bb st'') (net_sinks_size env) all_nets
                             (grid_width env) (grid_height env) = Ok (Some t) ->
         n ∈ nets t).
Proof.
  intros HW HH Hb0 Hr.
  destruct (iteration_retry_nets env co root st res root' st' HW HH Hr) as [Hst1 Hall].
  destruct (iteration_retries _ _ _ _ _ Hr Hb0) as [Hb _].
  split; [done|]. split.
  { intros ld dynamic conflicted rerouted sc s. unfold update_route_bb.
    destruct dynamic, conflicted; simpl; try done; by case_bool_decide. }
  intros n Hn. destruct (Hall n Hn) as (Hbb & Hdr & _).
  split; [done|]. split; [done|].
  intros st'' Hlater.
  destruct (later_retries _ _ Hlater Hb) as [Hb' Hg].
  assert (Hcap : decomp_retries st'' n = 5).
  { specialize (Hb' n). specialize (Hg n). unfold MAX_DECOMP_REROUTE in *. lia. }
  assert (Hno : forall level cutline_pos axis,
            should_decompose_net env st'' n level cutline_pos axis = Ok false).
  { intros level cutline_pos axis. apply should_decompose_net_capped.
    rewrite Hcap. done. }
  split; [done|]. split; [done|]. split.
  - intros node level acc acc' s' Hstep.
    apply route_net_at_node_pushes in Hstep as (_ & Hl & Hrr).
    unfold is_decomposed in Hl, Hrr. rewrite Hno in Hl, Hrr. simpl in Hl, Hrr.
    by rewrite app_nil_r in Hl, Hrr.
  - intros Hfull all_nets t Hin Hbuild. by eapply full_device_net_at_root.
Qed.

End DispatcherFacts.
(** *** Further properties on concrete inputs *)

Section DispatcherFactsExamples.

Import RouteParallel DispatcherTerms SkeletonSpec RouteController Examples MoreExamples.

Lemma decomposed_pair_splits_sinks_witness :
  PartitionTree.bb_min X (route_bb wide_state 0%nat) - 1 <= 7
    <= PartitionTree.bb_max X (route_bb wide_state 0%nat) /\
  make_decomposed_pair wide_env (stub [] false) wide_state 0%nat 7 X
  = Ok (mk_vnet 0%nat (mk_bb 0 7 0 14), mk_vnet 0%nat (mk_bb 8 14 0 14)) /\
  get_vnet_isinks wide_env (mk_vnet 0%nat (mk_bb 0 7 0 14)) = Ok [] /\
  get_vnet_isinks wide_env (mk_vnet 0%nat (mk_bb 8 14 0 14)) = Ok (seqZ 1 10).
Proof.
  assert (Hpos : PartitionTree.bb_min X (route_bb wide_state 0%nat) - 1 <= 7
                   <= PartitionTree.bb_max X (route_bb wide_state 0%nat))
    by (simpl; lia).
  assert (Hpair : make_decomposed_pair wide_env (stub [] false) wide_state 0%nat 7 X
                  = Ok (mk_vnet 0%nat (mk_bb 0 7 0 14), mk_vnet 0%nat (mk_bb 8 14 0 14)))
    by reflexivity.
  assert (Hall : get_vnet_isinks wide_env (mk_vnet 0%nat (route_bb wide_state 0%nat))
                 = Ok (seqZ 1 10)) by reflexivity.
  split; [exact Hpos|]. split; [exact Hpair|].
  destruct (proj1 (decomposed_pair_splits_sinks wide_env (stub [] false) wide_state 0%nat
                     7 X _ _ Hpos Hpair) (seqZ 1 10) Hall) as (Hl & Hr & _).
  split; [exact Hl|exact Hr].
Defined.

Lemma is_routing_over_cutline_spec_witness :
  route_tree (stub [] false) (rs wide_partly_state) 0%nat = Some (wide_partly 0%nat) /\
  forallb (has_terminal wide_env 0%nat) (reached_isinks (wide_partly 0%nat)) = true /\
  is_routing_over_cutline wide_env (stub [] false) wide_partly_state 0%nat 7 X = Ok true.
Proof.
  assert (Htree : route_tree (stub [] false) (rs wide_partly_state) 0%nat
                  = Some (wide_partly 0%nat)) by reflexivity.
  assert (Hall : forallb (has_terminal wide_env 0%nat) (reached_isinks (wide_partly 0%nat))
                 = true) by reflexivity.
  split; [exact Htree|]. split; [exact Hall|].
  exact (proj1 (is_routing_over_cutline_spec wide_env (stub [] false) wide_partly_state
                  0%nat 7 X (wide_partly 0%nat) Htree Hall)).
Defined.

Lemma narrow_bbox_divides_by_zero_witness :
  0 < xmax (route_bb narrow_state 0%nat) - xmin (route_bb narrow_state 0%nat) + 1 < 5 /\
  is_worth_decomposing wide_env narrow_state 0%nat 1 X = Crash /\
  get_decomposition_isinks wide_env (stub [] false) narrow_state 0%nat (seqZ 1 10) = Crash /\
  should_decompose_net wide_env narrow_state 0%nat 0 1 X = Crash.
Proof.
  assert (HW : 0 < xmax (route_bb narrow_state 0%nat) - xmin (route_bb narrow_state 0%nat) + 1
               < 2 ^ 31) by (simpl; lia).
  assert (HH : 0 < ymax (route_bb narrow_state 0%nat) - ymin (route_bb narrow_state 0%nat) + 1
               < 2 ^ 31) by (simpl; lia).
  assert (Hn : xmax (route_bb narrow_state 0%nat) - xmin (route_bb narrow_state 0%nat) + 1 < 5
               \/ ymax (route_bb narrow_state 0%nat) - ymin (route_bb narrow_state 0%nat) + 1
                  < 5) by (left; simpl; lia).
  split; [simpl; lia|].
  destruct (narrow_bbox_divides_by_zero wide_env (stub [] false) narrow_state 0%nat 0 1 X
              (seqZ 1 10) HW HH Hn) as (Hw & Hg & Hs).
  split; [exact Hw|]. split; [exact Hg|exact Hs].
Defined.

Lemma eligible_cutline_margins_witness :
  should_decompose_net wide_env wide_state 0%nat 0 7 X = Ok true /\
  PartitionTree.bb_min X (route_bb wide_state 0%nat) + 5 <= 7
    <= PartitionTree.bb_max X (route_bb wide_state 0%nat) - 6.
Proof.
  assert (HW : 0 < xmax (route_bb wide_state 0%nat) - xmin (route_bb wide_state 0%nat) + 1
               < 2 ^ 31) by (simpl; lia).
  assert (HH : 0 < ymax (route_bb wide_state 0%nat) - ymin (route_bb wide_state 0%nat) + 1
               < 2 ^ 31) by (simpl; lia).
  assert (Hdec : should_decompose_net wide_env wide_state 0%nat 0 7 X = Ok true)
    by reflexivity.
  split; [exact Hdec|].
  exact (proj1 (proj2 (proj2 (eligible_cutline_margins wide_env wide_state 0%nat 0 7 X
                                HW HH Hdec)))).
Defined.

Lemma sampling_bins_cover_bb_witness :
  5 <= xmax (mk_bb 0 14 0 14) - xmin (mk_bb 0 14 0 14) + 1 < 2 ^ 31 /\
  exists b,
    sampling_bins (mk_bb 0 14 0 14) = Some b /\
    bins_x b = 15 / 5 /\ 6 <= bin_width_x b <= 10 /\
    forall rr, inside_bb wide_env rr (mk_bb 0 14 0 14) = true ->
               in_grid b (bin_of wide_env (mk_bb 0 14 0 14) b rr).
Proof.
  assert (HW : 5 <= xmax (mk_bb 0 14 0 14) - xmin (mk_bb 0 14 0 14) + 1 < 2 ^ 31)
    by (simpl; lia).
  assert (HH : 5 <= ymax (mk_bb 0 14 0 14) - ymin (mk_bb 0 14 0 14) + 1 < 2 ^ 31)
    by (simpl; lia).
  split; [exact HW|].
  destruct (sampling_bins_cover_bb wide_env (mk_bb 0 14 0 14) HW HH)
    as (b & Hb & Hbx & _ & Hwx & _ & _ & _ & Hin).
  exists b. split; [exact Hb|]. split; [exact Hbx|]. split; [exact Hwx|exact Hin].
Defined.

Lemma decomp_retries_bounded_and_growing_witness :
  retries_bounded wide_state /\
  exists res root' st',
    decompose_route_partition_tree wide_env (stub [7] false) wide_root wide_state
    = Ok (res, root', st') /\
    decomp_retries st' 0%nat = 5 /\
    retries_bounded st' /\ retries_grow wide_state st'.
Proof.
  assert (Hb : retries_bounded wide_state)
    by (intros n; simpl; unfold MAX_DECOMP_REROUTE; lia).
  split; [exact Hb|].
  pose (run := unwrap (mk_results true [], wide_root, wide_state)
                 (decompose_route_partition_tree wide_env (stub [7] false) wide_root
                                                 wide_state)).
  assert (Hrun : decompose_route_partition_tree wide_env (stub [7] false) wide_root wide_state
                 = Ok (fst (fst run), snd (fst run), snd run))
    by (vm_compute; reflexivity).
  exists (fst (fst run)), (snd (fst run)), (snd run).
  split; [exact Hrun|]. split; [reflexivity|].
  exact (decomp_retries_bounded_and_growing wide_env (stub [7] false) wide_root wide_state
           _ _ _ Hrun Hb).
Defined.

Lemma route_bb_changes_only_on_retry_witness :
  exists res root' st',
    decompose_route_partition_tree wide_env (stub [4] true) wide_root wide_state
    = Ok (res, root', st') /\
    nets_to_retry st' = [0%nat] /\
    forall n, n ∉ nets_to_retry st' -> route_bb st' n = route_bb wide_state n.
Proof.
  pose (run := unwrap (mk_results true [], wide_root, wide_state)
                 (decompose_route_partition_tree wide_env (stub [4] true) wide_root
                                                 wide_state)).
  assert (Hrun : decompose_route_partition_tree wide_env (stub [4] true) wide_root wide_state
                 = Ok (fst (fst run), snd (fst run), snd run))
    by (vm_compute; reflexivity).
  exists (fst (fst run)), (snd (fst run)), (snd run).
  split; [exact Hrun|]. split; [reflexivity|].
  exact (proj1 (route_bb_changes_only_on_retry wide_env (stub [4] true) wide_root wide_state
                  _ _ _ Hrun)).
Defined.

Lemma rerouted_nets_are_tree_nets_witness :
  exists res root' st',
    decompose_route_partition_tree wide_env (stub [4] false) wide_root wide_state
    = Ok (res, root', st') /\
    res_rerouted_nets res = [0%nat] /\
    res_rerouted_nets res `sublist_of` tree_nets root'.
Proof.
  pose (run := unwrap (mk_results true [], wide_root, wide_state)
                 (decompose_route_partition_tree wide_env (stub [4] false) wide_root
                                                 wide_state)).
  assert (Hrun : decompose_route_partition_tree wide_env (stub [4] false) wide_root wide_state
                 = Ok (fst (fst run), snd (fst run), snd run))
    by (vm_compute; reflexivity).
  exists (fst (fst run)), (snd (fst run)), (snd run).
  split; [exact Hrun|]. split; [reflexivity|].
  exact (proj1 (proj2 (rerouted_nets_are_tree_nets wide_env (stub [4] false) wide_root
                         wide_state _ _ _ Hrun))).
Defined.

Lemma traversal_keeps_tree_witness :
  exists node' st',
    decompose_route_partition_tree_helper wide_env (stub [] false) wide_root [] 0 wide_state
    = Ok (node', st') /\
    Forall2 (node_kept wide_env) (tree_nodes wide_root) (tree_nodes node') /\
    tree_nets node' ≡ₚ tree_nets wide_root.
Proof.
  pose (run := unwrap (wide_root, wide_state)
                 (decompose_route_partition_tree_helper wide_env (stub [] false) wide_root
                                                        [] 0 wide_state)).
  assert (Hrun : decompose_route_partition_tree_helper wide_env (stub [] false) wide_root
                   [] 0 wide_state = Ok (fst run, snd run))
    by (vm_compute; reflexivity).
  exists (fst run), (snd run). split; [exact Hrun|].
  exact (traversal_keeps_tree wide_env (stub [] false) wide_root [] 0 wide_state _ _ Hrun).
Defined.

Lemma children_receive_matching_halves_witness :
  decomposed_at wide_env (stub [] false) wide_root 0
                (sort_by_fanout wide_env (nets wide_root)) (mk_acc true [] [] [])
                wide_state = [0%nat] /\
  exists node' st',
    decompose_route_partition_tree_helper wide_env (stub [] false) wide_root [] 0 wide_state
    = Ok (node', st') /\
    let decomposed :=
      decomposed_at wide_env (stub [] false) wide_root 0
                    (sort_by_fanout wide_env (nets wide_root)) (mk_acc true [] [] [])
                    wide_state in
    virtual_nets node' = virtual_nets wide_root ++ [] /\
    (forall n, n ∈ decomposed -> n ∈ nets wide_root) /\
    exists l' r',
      left node' = Some l' /\ right node' = Some r' /\
      virtual_nets l'
      = virtual_nets (PartitionTree.leaf [])
        ++ map (fun n => mk_vnet n (clip_to_side (route_bb wide_state n)
                                      (cutline_axis wide_root) (cutline_pos wide_root)
                                      LEFT)) decomposed /\
      virtual_nets r'
      = virtual_nets (PartitionTree.leaf [])
        ++ map (fun n => mk_vnet n (clip_to_side (route_bb wide_state n)
                                      (cutline_axis wide_root) (cutline_pos wide_root)
                                      RIGHT)) decomposed.
Proof.
  split; [vm_compute; reflexivity|].
  pose (run := unwrap (wide_root, wide_state)
                 (decompose_route_partition_tree_helper wide_env (stub [] false) wide_root
                                                        [] 0 wide_state)).
  assert (Hrun : decompose_route_partition_tree_helper wide_env (stub [] false) wide_root
                   [] 0 wide_state = Ok (fst run, snd run))
    by (vm_compute; reflexivity).
  exists (fst run), (snd run). split; [exact Hrun|].
  exact (children_receive_matching_halves wide_env (stub [] false) wide_root [] 0
           wide_state (fst run) (snd run) (PartitionTree.leaf []) (PartitionTree.leaf [])
           Hrun eq_refl eq_refl).
Defined.

Lemma net_without_work_is_skipped_witness :
  should_really_route_net wide_env (stub [] false) wide_routed_state 0%nat = false /\
  should_decompose_net wide_env wide_routed_state 0%nat 0 (cutline_pos wide_root)
                       (cutline_axis wide_root) = Ok true /\
  route_net_at_node wide_env (stub [] false) wide_root 0 (mk_acc true [] [] [])
                    wide_routed_state 0%nat
  = Ok (mk_acc true [] [] [], wide_routed_state).
Proof.
  assert (Hskip : should_really_route_net wide_env (stub [] false) wide_routed_state 0%nat
                  = false) by reflexivity.
  assert (Hw : was_rerouted (flags_init wide_env) = false) by reflexivity.
  assert (Hr : retry_with_full_bb (flags_init wide_env) = false) by reflexivity.
  assert (Hdec : should_decompose_net wide_env wide_routed_state 0%nat 0
                   (cutline_pos wide_root) (cutline_axis wide_root) = Ok true)
    by reflexivity.
  split; [exact Hskip|]. split; [exact Hdec|].
  exact (proj2 (net_without_work_is_skipped wide_env (stub [] false) wide_root 0
                  (mk_acc true [] [] []) wide_routed_state 0%nat true Hskip Hw Hr Hdec)).
Defined.

Lemma grow_retry_nets_order_free_witness :
  (forall n : NetId, n ∈ [0; 1; 0]%nat <-> n ∈ [1; 0]%nat) /\
  forall n,
    route_bb (foldl (grow_retry_net wide_env) wide_state [0; 1; 0]%nat) n
    = route_bb (foldl (grow_retry_net wide_env) wide_state [1; 0]%nat) n /\
    decomp_retries (foldl (grow_retry_net wide_env) wide_state [0; 1; 0]%nat) n
    = decomp_retries (foldl (grow_retry_net wide_env) wide_state [1; 0]%nat) n.
Proof.
  assert (Hsame : forall n : NetId, n ∈ [0; 1; 0]%nat <-> n ∈ [1; 0]%nat).
  { intros n. rewrite !elem_of_cons, !elem_of_nil. tauto. }
  split; [exact Hsame|].
  exact (proj1 (grow_retry_nets_order_free wide_env [0; 1; 0]%nat [1; 0]%nat wide_state
                  Hsame)).
Defined.

Lemma iteration_reports_only_netlist_nets_witness :
  exists res root' st',
    decompose_route_with_partition_tree wide_env (stub [4] true) [0%nat] wide_state
    = Ok (res, root', st') /\
    nets_to_retry st' = [0%nat] /\ res_rerouted_nets res = [0%nat] /\
    (forall n, n ∈ nets_to_retry st' -> n ∈ [0%nat]) /\
    (forall n, n ∈ res_rerouted_nets res -> n ∈ [0%nat]).
Proof.
  pose (run := unwrap (mk_results true [], wide_root, wide_state)
                 (decompose_route_with_partition_tree wide_env (stub [4] true) [0%nat]
                                                      wide_state)).
  assert (Hrun : decompose_route_with_partition_tree wide_env (stub [4] true) [0%nat]
                   wide_state = Ok (fst (fst run), snd (fst run), snd run))
    by (vm_compute; reflexivity).
  exists (fst (fst run)), (snd (fst run)), (snd run).
  split; [exact Hrun|]. split; [reflexivity|]. split; [reflexivity|].
  exact (iteration_reports_only_netlist_nets wide_env (stub [4] true) [0%nat] wide_state
           _ _ _ Hrun).
Defined.

Lemma sink_before_bb_origin_out_of_range_witness :
  head (reached_isinks (wide_unrouted 0%nat) ++ seqZ 1 10) = Some 1 /\
  terminal wide_env 0%nat 1 = Ok 1%nat /\
  node_xlow wide_env 1%nat < xmin (route_bb shifted_state 0%nat) /\
  get_decomposition_isinks wide_env (stub [] false) shifted_state 0%nat (seqZ 1 10) = Crash.
Proof.
  assert (HW : 5 <= xmax (route_bb shifted_state 0%nat)
                    - xmin (route_bb shifted_state 0%nat) + 1 < 2 ^ 31) by (simpl; lia).
  assert (HH : 5 <= ymax (route_bb shifted_state 0%nat)
                    - ymin (route_bb shifted_state 0%nat) + 1 < 2 ^ 31) by (simpl; lia).
  assert (Htree : route_tree (stub [] false) (rs shifted_state) 0%nat
                  = Some (wide_unrouted 0%nat)) by reflexivity.
  assert (Hfirst : head (reached_isinks (wide_unrouted 0%nat) ++ seqZ 1 10) = Some 1)
    by reflexivity.
  assert (Hterm : terminal wide_env 0%nat 1 = Ok 1%nat) by reflexivity.
  assert (Hout : xmin (route_bb shifted_state 0%nat) - 2 ^ 31 <= node_xlow wide_env 1%nat
                   < xmin (route_bb shifted_state 0%nat) \/
                 ymin (route_bb shifted_state 0%nat) - 2 ^ 31 <= node_ylow wide_env 1%nat
                   < ymin (route_bb shifted_state 0%nat))
    by (left; vm_compute; split; [discriminate|reflexivity]).
  split; [exact Hfirst|]. split; [exact Hterm|]. split; [vm_compute; reflexivity|].
  exact (sink_before_bb_origin_out_of_range wide_env (stub [] false) shifted_state 0%nat
           (wide_unrouted 0%nat) (seqZ 1 10) 1 1%nat HW HH Htree Hfirst Hterm Hout).
Defined.

(** *** Retried nets, skeleton sinks and failing nets on concrete inputs *)

(** C4 as stated fails.  The two nets of [pair_env] start with the boxes
    loaded for [bb_fac = 3]; the tree built for them has a Y cutline with net
    0 below it.  Net 0 asks for a retry with the full device: its box becomes
    the whole device, its counter 5, and a tree built right then holds it at
    the root.  The controller, in conflicted mode, then doubles [bb_fac] and
    reloads all boxes; the tree built for the next iteration again has net 0
    in the left child.  The retry counter is still 5. *)
Lemma retried_net_leaves_root_after_reload :
  PartitionTree.build (route_bb pair_state) (net_sinks_size pair_env) [0; 1]%nat 40 40
  = Ok (Some pair_tree) /\
  match decompose_route_partition_tree pair_env (stub [2] true) pair_tree pair_state with
  | Ok (res, root', st') =>
      nets_to_retry st' = [0%nat] /\
      route_bb st' 0%nat = mk_bb 0 39 0 39 /\
      decomp_retries st' 0%nat = 5 /\
      PartitionTree.build (route_bb st') (net_sinks_size pair_env) [0; 1]%nat 40 40
      = Ok (Some (PartitionTree.leaf [0; 1]%nat)) /\
      let st'' := snd (update_route_bb pair_env pair_loaders false true
                         (res_rerouted_nets res) (mk_scaling 3 0) st') in
      route_bb st'' 0%nat = mk_bb 0 20 0 12 /\
      decomp_retries st'' 0%nat = 5 /\
      PartitionTree.build (route_bb st'') (net_sinks_size pair_env) [0; 1]%nat 40 40
      = Ok (Some (mk_node [] (Some (PartitionTree.leaf [0%nat]))
                          (Some (PartitionTree.leaf [1%nat])) false [] [] Y 13))
  | _ => False
  end.
Proof. vm_compute; repeat split; reflexivity. Qed.

Lemma decompose_route_partition_tree_retry_witness :
  0 < grid_width pair_env < 2 ^ 31 /\ 0 < grid_height pair_env < 2 ^ 31 /\
  retries_bounded pair_state /\
  exists res root' st',
    decompose_route_partition_tree pair_env (stub [2] true) pair_tree pair_state
    = Ok (res, root', st') /\
    nets_to_retry st' = [0%nat] /\
    route_bb st' 0%nat = mk_bb 0 39 0 39 /\ decomp_retries st' 0%nat = 5 /\
    let st'' := snd (update_route_bb pair_env pair_loaders false true
                       (res_rerouted_nets res) (mk_scaling 3 0) st') in
    decomp_retries st'' 0%nat = 5 /\
    forall level cutline_pos axis,
      should_decompose_net pair_env st'' 0%nat level cutline_pos axis = Ok false.
Proof.
  assert (HW : 0 < grid_width pair_env < 2 ^ 31) by (simpl; lia).
  assert (HH : 0 < grid_height pair_env < 2 ^ 31) by (simpl; lia).
  assert (Hb : retries_bounded pair_state)
    by (intros n; simpl; unfold MAX_DECOMP_REROUTE; lia).
  split; [exact HW|]. split; [exact HH|]. split; [exact Hb|].
  pose (run := unwrap (mk_results true [], pair_tree, pair_state)
                 (decompose_route_partition_tree pair_env (stub [2] true) pair_tree
                                                 pair_state)).
  assert (Hrun : decompose_route_partition_tree pair_env (stub [2] true) pair_tree pair_state
                 = Ok (fst (fst run), snd (fst run), snd run))
    by (vm_compute; reflexivity).
  assert (Hnr : nets_to_retry (snd run) = [0%nat]) by reflexivity.
  exists (fst (fst run)), (snd (fst run)), (snd run).
  split; [exact Hrun|]. split; [exact Hnr|].
  destruct (decompose_route_partition_tree_retry pair_env (stub [2] true) pair_tree
              pair_state _ _ _ HW HH Hb Hrun) as (_ & Hctl & Hall).
  destruct (Hall 0%nat) as (Hbb & Hdr & Hlater); [rewrite Hnr; left|].
  split; [exact Hbb|]. split; [exact Hdr|].
  destruct (Hlater (snd (update_route_bb pair_env pair_loaders false true
                           (res_rerouted_nets (fst (fst run))) (mk_scaling 3 0)
                           (snd run))))
    as (Hcap & Hno & _).
  { eapply later_controller; [apply later_now|]. apply Hctl. }
  split; [exact Hcap|exact Hno].
Defined.

Lemma get_decomposition_isinks_bins_witness :
  5 <= xmax (route_bb wide_partly_state 0%nat) - xmin (route_bb wide_partly_state 0%nat) + 1
    < 2 ^ 31 /\
  forallb (valid_sink wide_env 0%nat (route_bb wide_partly_state 0%nat)) [1] = true /\
  forallb (valid_sink wide_env 0%nat (route_bb wide_partly_state 0%nat)) (seqZ 2 9) = true /\
  sink_spatial_bin wide_env 0%nat (route_bb wide_partly_state 0%nat) <$> seqZ 1 10
  = [(1, 0); (1, 1); (2, 0); (2, 1); (1, 2); (2, 2); (1, 0); (2, 0); (1, 1); (2, 2)] /\
  exists out,
    get_decomposition_isinks wide_env (stub [] false) wide_partly_state 0%nat (seqZ 2 9)
    = Ok out /\
    out = skeleton_selection wide_env 0%nat (route_bb wide_partly_state 0%nat) [1]
                             (seqZ 2 9) /\
    skeleton_selection wide_env 0%nat (route_bb wide_partly_state 0%nat) [1] (seqZ 2 9)
    = [2; 3; 4; 5; 6] /\
    Z.of_nat (length out)
    <= (bb_width (route_bb wide_partly_state 0%nat) / 5)
       * (bb_height (route_bb wide_partly_state 0%nat) / 5) /\
    NoDup (sink_spatial_bin wide_env 0%nat (route_bb wide_partly_state 0%nat) <$> out) /\
    forall s r, s ∈ out -> r ∈ [1] ->
      sink_spatial_bin wide_env 0%nat (route_bb wide_partly_state 0%nat) s
      <> sink_spatial_bin wide_env 0%nat (route_bb wide_partly_state 0%nat) r.
Proof.
  assert (HW : 5 <= xmax (route_bb wide_partly_state 0%nat)
                    - xmin (route_bb wide_partly_state 0%nat) + 1 < 2 ^ 31)
    by (simpl; lia).
  assert (HH : 5 <= ymax (route_bb wide_partly_state 0%nat)
                    - ymin (route_bb wide_partly_state 0%nat) + 1 < 2 ^ 31)
    by (simpl; lia).
  assert (Hr : forallb (valid_sink wide_env 0%nat (route_bb wide_partly_state 0%nat)) [1]
               = true) by reflexivity.
  assert (Ht : forallb (valid_sink wide_env 0%nat (route_bb wide_partly_state 0%nat))
                 (seqZ 2 9) = true) by reflexivity.
  split; [exact HW|]. split; [exact Hr|]. split; [exact Ht|].
  split; [vm_compute; reflexivity|].
  destruct (get_decomposition_isinks_bins wide_env (stub [] false) wide_partly_state 0%nat
              (wide_partly 0%nat) (seqZ 2 9) HW HH eq_refl Hr Ht)
    as (out & Hget & Hout & _ & Hlen & Hnd & _ & Hfresh & _).
  exists out. split; [exact Hget|]. split; [exact Hout|].
  split; [vm_compute; reflexivity|].
  split; [exact Hlen|]. split; [exact Hnd|exact Hfresh].
Defined.

(** Net 0 of [pair_env] sits in the left leaf of [pair_tree]; its sink 2
    fails without asking for a retry.  The leaf, not the root, is marked, and
    the iteration reports the netlist unroutable. *)
Lemma unroutable_net_marks_node_witness :
  exists res root' st',
    decompose_route_partition_tree pair_env (stub [2] false) pair_tree pair_state
    = Ok (res, root', st') /\
    is_routable root' = true /\
    (is_routable <$> left root') = Some false /\
    (exists sub' s',
       decompose_route_partition_tree_helper pair_env (stub [2] false)
         (PartitionTree.leaf [0%nat]) [] 1 (set_nets_to_retry pair_state [])
       = Ok (sub', s') /\
       sub' ∈ tree_nodes root' /\ is_routable sub' = false) /\
    res_is_routable res = false.
Proof.
  pose (run := unwrap (mk_results true [], pair_tree, pair_state)
                 (decompose_route_partition_tree pair_env (stub [2] false) pair_tree
                                                 pair_state)).
  assert (Hrun : decompose_route_partition_tree pair_env (stub [2] false) pair_tree pair_state
                 = Ok (fst (fst run), snd (fst run), snd run))
    by (vm_compute; reflexivity).
  exists (fst (fst run)), (snd (fst run)), (snd run).
  split; [exact Hrun|]. split; [reflexivity|]. split; [reflexivity|].
  destruct (unroutable_net_marks_node pair_env (stub [2] false) pair_tree pair_state
              _ _ _ Hrun) as (_ & Hnet & _).
  apply (Hnet (PartitionTree.leaf [0%nat]) [] 1 (set_nets_to_retry pair_state [])
              0%nat (mk_acc true [] [] []) (set_nets_to_retry pair_state [])
              (set_nets_to_retry pair_state [])).
  - eapply (visits_left pair_env (stub [2] false) pair_tree [] 0
              (set_nets_to_retry pair_state []) (mk_acc true [] [] [])
              (set_nets_to_retry pair_state []) (set_nets_to_retry pair_state [])
              (PartitionTree.leaf [0%nat]) (PartitionTree.leaf [1%nat]));
      [reflexivity|reflexivity|reflexivity|reflexivity|apply visits_here].
  - exists [], []. split; reflexivity.
  - left. split; reflexivity.
  - reflexivity.
  - reflexivity.
Defined.

End DispatcherFactsExamples.
